(** * ConclusionCliffSimulator: the simulation and optimisation engine of main.py

    A shallow embedding of the engine of [main.py] (the Tk presentation layer
    is left out) and the proofs of its specified properties.

    Modelling conventions.
    - Python [int] is [Z]; the notoriety vector, the page counts and the
      cheese sequence are Python lists, here [list Z] with stdpp's lookup
      [l !! i] and update [<[i:=x]> l].  A subscript out of range raises
      [IndexError] in Python; here the operation returns [None] (pure code)
      or the outcome [Raises] (code that draws random numbers).
    - Python [float] is IEEE binary64, here the primitive type [float] whose
      operations are the correctly rounded ones Python uses.  [int / int] is
      Python's true division; for operands below [2^53] it is the binary64
      quotient of the two converted operands.
    - The module-level generator [random] is a global stream of draws: a
      [RandomSource] gives the value of the n-th draw, and the computations
      thread the number of draws made so far.
    - A [while] loop takes fuel; running out of it is the outcome
      [OutOfFuel], distinct from every result the code can return. *)

From Stdlib Require Import ZArith Lia Bool Floats Uint63.
From stdpp Require Import base list gmap.

Set Warnings "-inexact-float".

Local Open Scope Z_scope.

(** ** Python numbers *)

Module Py.

(** [float(n)] for an int [0 <= n < 2^63] (exact below [2^53]). *)
Definition float_of_int (n : Z) : float := PrimFloat.of_uint63 (Uint63.of_Z n).

(** [a / b] on two ints: true division. *)
Definition truediv (a b : Z) : float :=
  PrimFloat.div (float_of_int a) (float_of_int b).

(** [max(a, b)] on floats: [b] only when [b > a], as the builtin does. *)
Definition fmax (a b : float) : float :=
  if PrimFloat.ltb a b then b else a.

(** [int(x)] on a finite float: truncation towards zero. *)
Definition int_of_float (x : float) : Z :=
  match Prim2SF x with
  | S754_finite s m e =>
      let magnitude := Z.shiftl (Z.pos m) e in
      if s then - magnitude else magnitude
  | _ => 0
  end.

(** [l[i]] and [l[i] = x] accept a negative subscript, counted from the end. *)
Definition index (len : nat) (i : Z) : option nat :=
  if bool_decide (0 <= i < Z.of_nat len) then Some (Z.to_nat i)
  else if bool_decide (- Z.of_nat len <= i < 0) then Some (Z.to_nat (Z.of_nat len + i))
  else None.

(** [sum(l)] on ints. *)
Definition sum (l : list Z) : Z := foldl Z.add 0 l.

(** [sum(l)] on floats: left to right, starting from the int 0. *)
Definition fsum (l : list float) : float := foldl PrimFloat.add 0%float l.

(** [sorted(l, key=..., reverse=True)]: a stable sort, descending; [lt a b]
    says that the key of [a] is below the key of [b].  An element goes in
    front of the first one whose key is not above its own, so equal keys keep
    their order.  On keys that are comparable with each other (ints, or
    floats none of which is a NaN) every stable sort returns this list. *)
Fixpoint insert_desc {A} (lt : A -> A -> bool) (x : A) (l : list A) : list A :=
  match l with
  | [] => [x]
  | y :: rest => if lt x y then y :: insert_desc lt x rest else x :: l
  end.

Fixpoint sorted_desc {A} (lt : A -> A -> bool) (l : list A) : list A :=
  match l with
  | [] => []
  | x :: rest => insert_desc lt x (sorted_desc lt rest)
  end.

(** [max(l)] on a non-empty list of ints ([None]: ValueError on the empty one). *)
Definition max_list (l : list Z) : option Z :=
  match l with
  | [] => None
  | x :: rest => Some (foldl Z.max x rest)
  end.

(** [enumerate(l)] *)
Definition enumerate {A} (l : list A) : list (nat * A) := imap pair l.

(** [all(v >= 80 for v in values)] and the like. *)
Definition all {A} (p : A -> bool) (l : list A) : bool := forallb p l.

End Py.

(** ** The random source and the computations that draw from it *)

Record RandomSource := {
  (** the value [random.random()] returns when it is the n-th draw *)
  random_at : nat -> float;
  (** the list [random.sample(population, k)] returns when it is the n-th draw *)
  sample_at : nat -> list nat -> nat -> list nat
}.

Inductive outcome (A : Type) : Type :=
| Returns (a : A) (drawn : nat)
| Raises
| OutOfFuel.
Arguments Returns {A} a drawn.
Arguments Raises {A}.
Arguments OutOfFuel {A}.

Definition M (A : Type) : Type := RandomSource -> nat -> outcome A.

Definition ret {A} (a : A) : M A := fun _ n => Returns a n.

Definition bind {A B} (m : M A) (f : A -> M B) : M B :=
  fun src n =>
    match m src n with
    | Returns a n' => f a src n'
    | Raises => Raises
    | OutOfFuel => OutOfFuel
    end.

#[global] Instance M_ret : MRet M := @ret.
#[global] Instance M_bind : MBind M := fun A B f m => bind m f.

Definition raise {A} : M A := fun _ _ => Raises.
Definition out_of_fuel {A} : M A := fun _ _ => OutOfFuel.

Definition lift {A} (o : option A) : M A :=
  match o with Some a => ret a | None => raise end.

(** [random.random()] *)
Definition random : M float := fun src n => Returns (random_at src n) (S n).

(** [random.uniform(a, b)] is [a + (b - a) * random()]. *)
Definition uniform (a b : float) : M float :=
  u ← random; ret (a + (b - a) * u)%float.

(** [random.sample(population, k)] *)
Definition sample (population : list nat) (k : nat) : M (list nat) :=
  fun src n => Returns (sample_at src n population k) (S n).

(** A source whose every [random()] is [u], and whose [sample] takes the
    first [k] of the population. *)
Definition constant_source (u : float) : RandomSource :=
  {| random_at := fun _ => u; sample_at := fun _ population k => take k population |}.

(** [for x in l: acc = body(acc, x)] *)
Fixpoint for_each {A S} (l : list A) (body : S -> A -> M S) (acc : S) : M S :=
  match l with
  | [] => ret acc
  | x :: rest => acc' ← body acc x; for_each rest body acc'
  end.

(** [for idx, val in enumerate(values): totals[idx] += val], the loop with
    which the Monte Carlo drivers accumulate the final vectors. *)
Definition add_to_totals (totals values : list Z) : option (list Z) :=
  foldl (fun (acc : option (list Z)) (item : nat * Z) =>
           totals ← acc;
           total ← totals !! item.1;
           Some (<[item.1 := total + item.2]> totals))
        (Some totals) (Py.enumerate values).

(** ** class PostscriptBase *)

Inductive genre := Romance | Adventure | Comedy | Tragedy | Suspense.

#[global] Instance genre_eq_dec : EqDecision genre.
Proof. solve_decision. Defined.

Module PostscriptBase.

Definition CHEESE_VALUES : list Z := [25; 50; 125].
Definition BASE_HUNTS : Z := 10.
Definition EXTENDED_BONUS : Z := 3.
Definition GENRES : list genre := [Romance; Adventure; Comedy; Tragedy; Suspense].
Definition NOTORIETY_CAP : Z := 200.

Definition _compute_target_hunts (extend_flag : bool) : Z :=
  BASE_HUNTS + (if extend_flag then EXTENDED_BONUS else 0).

Definition _build_cheese_sequence (counts : list Z) : option (list Z) :=
  pairs ← mapM (fun idx => count ← counts !! idx; value ← CHEESE_VALUES !! idx; Some (value, count))
              (seq 0 (length CHEESE_VALUES));
  let ordered := Py.sorted_desc (fun a b : Z * Z => bool_decide (a.1 < b.1)) pairs in
  Some (concat (map (fun item : Z * Z => replicate (Z.to_nat item.2) item.1) ordered)).

(** [cumulative[-1] = 1.0] *)
Fixpoint set_last (x : float) (l : list float) : list float :=
  match l with
  | [] => []
  | [_] => [x]
  | y :: rest => y :: set_last x rest
  end.

Fixpoint running_sums (weights : genre -> float) (running : float) (genres : list genre)
  : list float :=
  match genres with
  | [] => []
  | g :: rest =>
      let running' := (running + weights g)%float in
      running' :: running_sums weights running' rest
  end.

Definition _prepare_weight_cumulative (weights : genre -> float) : list float :=
  set_last 1%float (running_sums weights 0%float GENRES).

(** The loop of [_select_genre_index] for a given [roll]: the first index
    whose threshold is at least the roll. *)
Fixpoint first_threshold (roll : float) (idx : Z) (cumulative_weights : list float) : option Z :=
  match cumulative_weights with
  | [] => None
  | threshold :: rest =>
      if (roll <=? threshold)%float then Some idx
      else first_threshold roll (idx + 1) rest
  end.

Definition select_with_roll (roll : float) (cumulative_weights : list float) : Z :=
  default (Z.of_nat (length cumulative_weights) - 1) (first_threshold roll 0 cumulative_weights).

Definition _select_genre_index (cumulative_weights : list float) : M Z :=
  roll ← random; ret (select_with_roll roll cumulative_weights).

(** The body of [_apply_hunt_step] once the index is selected: the selected
    entry rises, capped; then every entry at another index and above 1 loses
    one point. *)
Definition hunt_step_at (idx : Z) (values : list Z) (cheese_value : Z) : option (list Z) :=
  k ← Py.index (length values) idx;
  v ← values !! k;
  Some (imap (fun (other : nat) (x : Z) =>
                if bool_decide (Z.of_nat other <> idx) && bool_decide (1 < x) then x - 1 else x)
             (<[k := Z.min NOTORIETY_CAP (v + cheese_value)]> values)).

Definition _apply_hunt_step (values : list Z) (cheese_value : Z) (cumulative_weights : list float)
  : M (list Z) :=
  idx ← _select_genre_index cumulative_weights;
  lift (hunt_step_at idx values cheese_value).

(** [{genre: f(idx) for idx, genre in enumerate(GENRES)}]; the dict is total
    on the genres, so it is held as a function. *)
Definition genre_dict (f : nat -> option float) : option (genre -> float) :=
  r ← f 0%nat; a ← f 1%nat; c ← f 2%nat; t ← f 3%nat; s ← f 4%nat;
  Some (fun g => match g with
                 | Romance => r | Adventure => a | Comedy => c | Tragedy => t | Suspense => s
                 end).

(** The body shared by [CheeseAllocator.get_genre_weight_distribution] and
    [DualPostscriptSimulator._get_weight_distribution]: the page counts,
    normalized, or the uniform weights when they sum to 0. *)
Definition weights_of_page_counts (page_counts : list Z) : option (genre -> float) :=
  raw ← mapM (fun idx => page_counts !! idx) (seq 0 (length GENRES));
  let total := Py.sum raw in
  if bool_decide (total = 0) then
    let fallback := Py.truediv 1 (Z.of_nat (length GENRES)) in
    Some (fun _ => fallback)
  else genre_dict (fun idx => value ← raw !! idx; Some (Py.truediv value total)).

Definition all_ready (values : list Z) : bool :=
  Py.all (fun value => bool_decide (80 <= value)) values.

Definition _simulate_sequence (base_notoriety cheese_sequence : list Z)
    (cumulative_weights : list float) : M (list Z * bool) :=
  values ← for_each cheese_sequence
             (fun values cheese_value => _apply_hunt_step values cheese_value cumulative_weights)
             base_notoriety;
  ret (values, all_ready values).

End PostscriptBase.

(** ** class DualPostscriptSimulator *)

(** One entry of [setup_data]; every Tk variable is held by its sanitized
    value, and the frame and labels are left out. *)
Record Setup := {
  extend_var : bool;
  auto_extend_var : bool;
  cheese_vars : list Z;
  page_vars : list Z;
  m_value : Z
}.

#[global] Instance Setup_eq_dec : EqDecision Setup.
Proof. solve_decision. Defined.

#[global] Instance Setup_inhabited : Inhabited Setup :=
  populate {| extend_var := false; auto_extend_var := false; cheese_vars := [];
              page_vars := []; m_value := 0 |}.

(** The dict [_extension_config] returns. *)
Record ExtensionConfig := {
  top_indices : list nat;
  threshold_ready : Z;
  threshold_high : Z;
  extra_hunts : nat;
  setup_index : nat
}.

(** The accumulators of the loop over [range(self.MULTI_RUNS)]. *)
Record DualStats := {
  dual_totals : list Z;
  dual_ready_runs : Z;
  extend_counts : list Z;
  total_extensions : Z
}.

(** What [_run_dual_simulation] computes: the single pass through the two
    setups, then the accumulators of the repeated one. *)
Record DualReport := {
  first_values : list Z;
  first_extended : bool;
  final_values : list Z;
  final_ready : bool;
  second_extended : bool;
  multi : DualStats
}.

Module DualPostscriptSimulator.
Import PostscriptBase.

(** [[idx for idx, value in enumerate(page_counts) if value == max_pages]] *)
Definition top_of (page_counts : list Z) (max_pages : Z) : list nat :=
  (filter (fun item : nat * Z => item.2 = max_pages) (Py.enumerate page_counts)).*1.

(** The part of [_extension_config] after the page counts are read; the
    outer [None] is the ValueError of [setup_data.index(setup)], the inner
    one the Python value [None]. *)
Definition config_of_counts (setup_data : list Setup) (setup : Setup) (page_counts : list Z)
  : option (option ExtensionConfig) :=
  if negb (auto_extend_var setup) then Some None
  else match Py.max_list page_counts with
       | None => Some None
       | Some max_pages =>
           if bool_decide (max_pages <= 0) then Some None
           else
             idx ← fst <$> list_find (fun s => s = setup) setup_data;
             Some (Some {| top_indices := top_of page_counts max_pages;
                           threshold_ready := 80 + m_value setup;
                           threshold_high := 33 + m_value setup;
                           extra_hunts := 3;
                           setup_index := idx |})
       end.

Definition _extension_config (setup_data : list Setup) (setup : Setup)
  : option (option ExtensionConfig) :=
  config_of_counts setup_data setup (page_vars setup).

(** [any(values[idx] < threshold for idx in top_indices)] *)
Fixpoint any_below (values : list Z) (threshold : Z) (indices : list nat) : option bool :=
  match indices with
  | [] => Some false
  | idx :: rest =>
      v ← values !! idx;
      if bool_decide (v < threshold) then Some true else any_below values threshold rest
  end.

(** The loop of the second setup's special case: [Some true] when it reaches
    its [return False]. *)
Fixpoint zero_page_block (page_counts values : list Z) (indices : list nat) : option bool :=
  match indices with
  | [] => Some false
  | idx :: rest =>
      page_count ← page_counts !! idx;
      if bool_decide (page_count = 0) then
        v ← values !! idx;
        if bool_decide (v < 83) then Some true else zero_page_block page_counts values rest
      else zero_page_block page_counts values rest
  end.

Definition trigger_with_counts (page_counts : option (list Z)) (values : list Z)
    (config : ExtensionConfig) : option bool :=
  blocked ← (if bool_decide (setup_index config = 1%nat) then
               counts ← page_counts;
               zero_page_block counts values (top_indices config)
             else Some false);
  if (blocked : bool) then Some false
  else any_below values (threshold_ready config) (top_indices config).

Definition _should_trigger_extension (setup_data : list Setup) (values : list Z)
    (config : ExtensionConfig) : option bool :=
  trigger_with_counts (page_vars <$> setup_data !! 1%nat) values config.

(** One pass of the loop of [_apply_extension]: the cheese value chosen and
    the new [switch_to_medium]. *)
Definition extension_cheese (values : list Z) (config : ExtensionConfig) (switch_to_medium : bool)
  : option (Z * bool) :=
  if switch_to_medium then Some (50, true)
  else
    below ← any_below values (threshold_high config) (top_indices config);
    Some (if (below : bool) then (125, false) else (50, true)).

(** The loop of [_apply_extension].  Besides the final values it returns a
    log the source does not keep: for each extra hunt, the values the choice
    was made on and the cheese value used. *)
Fixpoint extension_loop (hunts : nat) (values : list Z) (switch_to_medium : bool)
    (cumulative_weights : list float) (config : ExtensionConfig)
  : M (list Z * list (list Z * Z)) :=
  match hunts with
  | O => ret (values, [])
  | S hunts' =>
      '(cheese_value, switch') ← lift (extension_cheese values config switch_to_medium);
      values' ← _apply_hunt_step values cheese_value cumulative_weights;
      '(final, used) ← extension_loop hunts' values' switch' cumulative_weights config;
      ret (final, (values, cheese_value) :: used)
  end.

Definition _apply_extension (values : list Z) (cumulative_weights : list float)
    (config : ExtensionConfig) : M (list Z) :=
  '(final, _) ← extension_loop (extra_hunts config) values false cumulative_weights config;
  ret final.

Definition _get_weight_distribution (setup : Setup) : option (genre -> float) :=
  weights_of_page_counts (page_vars setup).

Definition _execute_setup (setup_data : list Setup) (start_values : list Z) (setup_index : nat)
    (sequences : list (list Z)) (cumulative_weights : list (list float))
  : M (list Z * bool * bool) :=
  sequence ← lift (sequences !! setup_index);
  cumulative ← lift (cumulative_weights !! setup_index);
  '(values, _) ← _simulate_sequence start_values sequence cumulative;
  setup ← lift (setup_data !! setup_index);
  config ← lift (_extension_config setup_data setup);
  '(values, extended) ←
    match config with
    | None => ret (values, false)
    | Some config =>
        trigger ← lift (_should_trigger_extension setup_data values config);
        if (trigger : bool) then
          values' ← _apply_extension values cumulative config;
          ret (values', true)
        else ret (values, false)
    end;
  ret (values, all_ready values, extended).

Definition MULTI_RUNS : nat := Z.to_nat 50000.

Definition _get_counts (setup : Setup) : list Z := cheese_vars setup.

Definition _setup_target_hunts (setup : Setup) : Z := _compute_target_hunts (extend_var setup).

(** [_set_default_setup_counts]: the new cheese counts of the setup, all the
    hunts on the 50-point cheese. *)
Definition _set_default_setup_counts (setup : Setup) : option (list Z) :=
  let target := _setup_target_hunts setup in
  mapM (fun item : nat * Z =>
          value ← CHEESE_VALUES !! item.1;
          Some (if bool_decide (value = 50) then target else 0))
       (Py.enumerate (cheese_vars setup)).

(** [_update_setup_totals]: whether the mismatch message is shown. *)
Definition _update_setup_totals (setup : Setup) : bool :=
  bool_decide (Py.sum (_get_counts setup) <> _setup_target_hunts setup).

(** [if ext: extend_counts[idx] += 1; total_extensions += 1] *)
Definition count_extension (idx : nat) (ext : bool) (stats : DualStats) : option DualStats :=
  if ext then
    count ← extend_counts stats !! idx;
    Some {| dual_totals := dual_totals stats;
            dual_ready_runs := dual_ready_runs stats;
            extend_counts := <[idx := count + 1]> (extend_counts stats);
            total_extensions := total_extensions stats + 1 |}
  else Some stats.

(** [if run_ready: ready_runs += 1], then the loop over [end_values]. *)
Definition count_run (end_values : list Z) (run_ready : bool) (stats : DualStats)
  : option DualStats :=
  totals ← add_to_totals (dual_totals stats) end_values;
  Some {| dual_totals := totals;
          dual_ready_runs := (if run_ready then dual_ready_runs stats + 1
                              else dual_ready_runs stats);
          extend_counts := extend_counts stats;
          total_extensions := total_extensions stats |}.

Definition initial_stats : DualStats :=
  {| dual_totals := (fun _ => 0) <$> GENRES; dual_ready_runs := 0;
     extend_counts := [0; 0]; total_extensions := 0 |}.

(** The body of the loop over [range(self.MULTI_RUNS)]. *)
Definition dual_run (setup_data : list Setup) (base_notoriety : list Z)
    (sequences : list (list Z)) (cumulative_weights : list (list float)) (stats : DualStats)
  : M DualStats :=
  '(mid_values, _, ext1) ←
    _execute_setup setup_data base_notoriety 0 sequences cumulative_weights;
  stats ← lift (count_extension 0 ext1 stats);
  '(end_values, run_ready, ext2) ←
    _execute_setup setup_data mid_values 1 sequences cumulative_weights;
  stats ← lift (count_extension 1 ext2 stats);
  lift (count_run end_values run_ready stats).

(** [_run_dual_simulation]: [None] is the early return on a wrong cheese
    total; otherwise the numbers the labels then display. *)
Definition _run_dual_simulation (setup_data : list Setup) (genre_notoriety_vars : list Z)
  : M (option DualReport) :=
  if negb (Py.all (fun setup =>
                     bool_decide (Py.sum (_get_counts setup) = _setup_target_hunts setup))
                  setup_data)
  then ret None
  else
    sequences ← lift (mapM (fun setup => _build_cheese_sequence (_get_counts setup)) setup_data);
    let base_notoriety := Z.min NOTORIETY_CAP <$> genre_notoriety_vars in
    cumulative_weights ←
      lift (mapM (fun setup =>
                    weights ← _get_weight_distribution setup;
                    Some (_prepare_weight_cumulative weights))
                 setup_data);
    '(first_values, _, first_extended) ←
      _execute_setup setup_data base_notoriety 0 sequences cumulative_weights;
    '(final_values, ready, second_extended) ←
      _execute_setup setup_data first_values 1 sequences cumulative_weights;
    stats ← for_each (seq 0 MULTI_RUNS)
              (fun stats _ => dual_run setup_data base_notoriety sequences cumulative_weights stats)
              initial_stats;
    ret (Some {| first_values := first_values; first_extended := first_extended;
                 final_values := final_values; final_ready := ready;
                 second_extended := second_extended; multi := stats |}).

End DualPostscriptSimulator.

(** ** class DualPostscriptPrunedSimulator *)

Module DualPostscriptPrunedSimulator.
Import PostscriptBase DualPostscriptSimulator.

Definition _second_setup_prune_threshold (setup_data : list Setup) : option Z :=
  setup ← setup_data !! 1%nat;
  Some (if extend_var setup then 93 else 90).

(** The loop of [_build_pruned_page_counts] over [enumerate(counts)]. *)
Fixpoint prune_from (idx : nat) (counts notoriety_values : list Z) (threshold : Z)
  : option (list Z) :=
  match counts with
  | [] => Some []
  | count :: rest =>
      v ← notoriety_values !! idx;
      pruned ← prune_from (S idx) rest notoriety_values threshold;
      Some ((if bool_decide (threshold < v) then 0 else count) :: pruned)
  end.

Definition _build_pruned_page_counts (setup_data : list Setup) (notoriety_values : list Z)
  : option (list Z) :=
  setup ← setup_data !! 1%nat;
  threshold ← _second_setup_prune_threshold setup_data;
  prune_from 0 (page_vars setup) notoriety_values threshold.

Definition _weights_from_counts_list (counts : list Z) : option (genre -> float) :=
  let total := Py.sum counts in
  if bool_decide (total <= 0) then
    let equal := Py.truediv 1 (Z.of_nat (length GENRES)) in
    Some (fun _ => equal)
  else genre_dict (fun idx => value ← counts !! idx; Some (Py.truediv value total)).

Definition _prepare_pruned_cumulative (setup_data : list Setup) (notoriety_values : list Z)
  : option (list float * list Z) :=
  pruned_counts ← _build_pruned_page_counts setup_data notoriety_values;
  weights ← _weights_from_counts_list pruned_counts;
  Some (_prepare_weight_cumulative weights, pruned_counts).

Definition _extension_config_with_counts (setup_data : list Setup) (setup : Setup)
    (custom_counts : list Z) : option (option ExtensionConfig) :=
  config_of_counts setup_data setup custom_counts.

Definition _should_trigger_extension_with_counts (values : list Z) (config : ExtensionConfig)
    (custom_counts : list Z) : option bool :=
  trigger_with_counts (Some custom_counts) values config.

Definition _execute_setup_with_custom_weights (setup_data : list Setup) (start_values : list Z)
    (setup_index : nat) (sequence : list Z) (cumulative_weights : list float)
    (custom_counts : option (list Z)) : M (list Z * bool * bool) :=
  '(values, _) ← _simulate_sequence start_values sequence cumulative_weights;
  setup ← lift (setup_data !! setup_index);
  config ← lift (match custom_counts with
                 | None => _extension_config setup_data setup
                 | Some counts => _extension_config_with_counts setup_data setup counts
                 end);
  '(values, extended) ←
    match config with
    | None => ret (values, false)
    | Some config =>
        trigger ← lift (match custom_counts with
                        | None => _should_trigger_extension setup_data values config
                        | Some counts => _should_trigger_extension_with_counts values config counts
                        end);
        if (trigger : bool) then
          values' ← _apply_extension values cumulative_weights config;
          ret (values', true)
        else ret (values, false)
    end;
  ret (values, all_ready values, extended).

(** The body of the loop over [range(self.MULTI_RUNS)] of the pruned variant. *)
Definition pruned_run (setup_data : list Setup) (base_notoriety : list Z)
    (sequences : list (list Z)) (first_cumulative : list float) (stats : DualStats)
  : M DualStats :=
  sequence ← lift (sequences !! 0%nat);
  '(mid_values, _, ext1) ←
    _execute_setup_with_custom_weights setup_data base_notoriety 0 sequence first_cumulative None;
  stats ← lift (count_extension 0 ext1 stats);
  '(pruned_cumulative, multi_pruned_counts) ←
    lift (_prepare_pruned_cumulative setup_data mid_values);
  sequence ← lift (sequences !! 1%nat);
  '(end_values, run_ready, ext2) ←
    _execute_setup_with_custom_weights setup_data mid_values 1 sequence pruned_cumulative
      (Some multi_pruned_counts);
  stats ← lift (count_extension 1 ext2 stats);
  lift (count_run end_values run_ready stats).

(** [DualPostscriptPrunedSimulator._run_dual_simulation] *)
Definition _run_dual_simulation (setup_data : list Setup) (genre_notoriety_vars : list Z)
  : M (option DualReport) :=
  if negb (Py.all (fun setup =>
                     bool_decide (Py.sum (_get_counts setup) = _setup_target_hunts setup))
                  setup_data)
  then ret None
  else
    sequences ← lift (mapM (fun setup => _build_cheese_sequence (_get_counts setup)) setup_data);
    let base_notoriety := Z.min NOTORIETY_CAP <$> genre_notoriety_vars in
    first ← lift (setup_data !! 0%nat);
    weights ← lift (_get_weight_distribution first);
    let first_cumulative := _prepare_weight_cumulative weights in
    sequence ← lift (sequences !! 0%nat);
    '(first_values, _, first_extended) ←
      _execute_setup_with_custom_weights setup_data base_notoriety 0 sequence first_cumulative None;
    '(second_cumulative, pruned_counts) ←
      lift (_prepare_pruned_cumulative setup_data first_values);
    sequence ← lift (sequences !! 1%nat);
    '(final_values, ready, second_extended) ←
      _execute_setup_with_custom_weights setup_data first_values 1 sequence second_cumulative
        (Some pruned_counts);
    stats ← for_each (seq 0 MULTI_RUNS)
              (fun stats _ => pruned_run setup_data base_notoriety sequences first_cumulative stats)
              initial_stats;
    ret (Some {| first_values := first_values; first_extended := first_extended;
                 final_values := final_values; final_ready := ready;
                 second_extended := second_extended; multi := stats |}).

End DualPostscriptPrunedSimulator.

(** ** class CheeseAllocator *)

(** The entries of the allocator tab, each held by its sanitized value. *)
Record AllocatorVars := {
  alloc_cheese_vars : list Z;
  alloc_extend_var : bool;
  alloc_notoriety_vars : list Z;
  alloc_page_vars : list Z
}.

(** The accumulators of the loop over [range(runs)] of [_run_hunt_simulation]:
    [threshold_counts[t][k]] counts the runs that ended with exactly [k]
    categories above [t]. *)
Record HuntStats := {
  totals : list Z;
  ready_runs : Z;
  threshold_counts : gmap Z (list Z)
}.

Module CheeseAllocator.
Import PostscriptBase.

Definition get_genre_weight_distribution (genre_page_vars : list Z) : option (genre -> float) :=
  weights_of_page_counts genre_page_vars.

(** [CheeseAllocator._prepare_weight_cumulative], which takes the weights
    from the page counts. *)
Definition _prepare_weight_cumulative (genre_page_vars : list Z) : option (list float) :=
  weights ← get_genre_weight_distribution genre_page_vars;
  Some (PostscriptBase._prepare_weight_cumulative weights).

Definition THRESHOLD_BREAKPOINTS : list Z := [80; 90; 93].

Definition _target_hunts (vars : AllocatorVars) : Z :=
  _compute_target_hunts (alloc_extend_var vars).

(** [_set_default_counts]: the new cheese counts, all the hunts on the
    50-point cheese. *)
Definition _set_default_counts (vars : AllocatorVars) : option (list Z) :=
  mapM (fun item : nat * Z =>
          value ← CHEESE_VALUES !! item.1;
          Some (if bool_decide (value = 50) then _target_hunts vars else 0))
       (Py.enumerate (alloc_cheese_vars vars)).

(** [_adjust_count]: the new cheese counts after a click on [+] or [-]. *)
Definition _adjust_count (cheese_vars : list Z) (index delta : Z) : option (list Z) :=
  k ← Py.index (length cheese_vars) index;
  current ← cheese_vars !! k;
  Some (<[k := Z.max 0 (current + delta)]> cheese_vars).

(** [_update_totals]: whether the error message is shown. *)
Definition _update_totals (vars : AllocatorVars) : bool :=
  bool_decide (Py.sum (alloc_cheese_vars vars) <> _target_hunts vars).

(** [above_count = sum(1 for val in values if val > threshold)];
    [threshold_counts[threshold][above_count] += 1] *)
Definition count_threshold (values : list Z) (threshold_counts : gmap Z (list Z)) (threshold : Z)
  : option (gmap Z (list Z)) :=
  let above_count := length (filter (fun val => threshold < val) values) in
  counts ← threshold_counts !! threshold;
  count ← counts !! above_count;
  Some (<[threshold := <[above_count := count + 1]> counts]> threshold_counts).

(** The body of the loop over [range(runs)], after the simulated run. *)
Definition count_hunt_run (values : list Z) (sim_ready : bool) (stats : HuntStats)
  : option HuntStats :=
  totals ← add_to_totals (totals stats) values;
  threshold_counts ←
    foldl (fun (acc : option (gmap Z (list Z))) threshold =>
             threshold_counts ← acc; count_threshold values threshold_counts threshold)
          (Some (threshold_counts stats)) THRESHOLD_BREAKPOINTS;
  Some {| totals := totals;
          ready_runs := ready_runs stats + (if sim_ready then 1 else 0);
          threshold_counts := threshold_counts |}.

Definition initial_hunt_stats : HuntStats :=
  {| totals := (fun _ => 0) <$> GENRES;
     ready_runs := 0;
     threshold_counts :=
       list_to_map ((fun threshold => (threshold, replicate (length GENRES + 1) 0))
                      <$> THRESHOLD_BREAKPOINTS) |}.

(** The loop over [range(runs)] of [_run_hunt_simulation]. *)
Definition hunt_runs (runs : nat) (base_notoriety cheese_sequence : list Z)
    (cumulative_weights : list float) : M HuntStats :=
  for_each (seq 0 runs)
    (fun stats _ =>
       '(values, sim_ready) ← _simulate_sequence base_notoriety cheese_sequence cumulative_weights;
       lift (count_hunt_run values sim_ready stats))
    initial_hunt_stats.

(** [_run_hunt_simulation]: [None] is the early return on a wrong cheese
    total; otherwise the single run and the accumulators of the 100,000
    runs, from which the labels are then formatted. *)
Definition _run_hunt_simulation (vars : AllocatorVars) : M (option (list Z * bool * HuntStats)) :=
  let counts := alloc_cheese_vars vars in
  if bool_decide (Py.sum counts <> _target_hunts vars) then ret None
  else
    cheese_sequence ← lift (_build_cheese_sequence counts);
    let base_notoriety := Z.min NOTORIETY_CAP <$> alloc_notoriety_vars vars in
    cumulative_weights ← lift (_prepare_weight_cumulative (alloc_page_vars vars));
    '(final_values, ready) ← _simulate_sequence base_notoriety cheese_sequence cumulative_weights;
    stats ← hunt_runs (Z.to_nat 100000) base_notoriety cheese_sequence cumulative_weights;
    ret (Some (final_values, ready, stats)).

End CheeseAllocator.

(** ** class PostscriptOptimizer *)

(** The entries of the optimizer tab, each held by its sanitized value. *)
Record OptimizerVars := {
  opt_cheese_vars : list Z;
  opt_extend_var : bool;
  genre_notoriety_vars : list Z;
  genre_page_vars : list Z;
  range_var : Z;
  iterations_var : Z;
  simulations_var : Z;
  candidates_var : Z
}.

(** The variables [_run_optimization] carries from one iteration to the next. *)
Record SearchState := {
  best_counts : list float;
  best_prob : float;
  direction_bias : list float
}.

(** The parameters an invocation fixes before its loop. *)
Record SearchParams := {
  base_notoriety : list Z;
  cheese_sequence : list Z;
  dial_range : Z;
  iterations : Z;
  sims_per_distribution : Z;
  candidate_count : Z
}.

Module PostscriptOptimizer.
Import PostscriptBase.

Definition _weights_from_counts (counts : list float) : option (genre -> float) :=
  let total := Py.fsum counts in
  if (total <=? 0)%float then
    let equal := Py.truediv 1 (Z.of_nat (length GENRES)) in
    Some (fun _ => equal)
  else genre_dict (fun idx => value ← counts !! idx; Some (value / total)%float).

Definition _simulate_probability (counts : list float) (base_notoriety cheese_sequence : list Z)
    (simulations : Z) : M float :=
  weights ← lift (_weights_from_counts counts);
  let cumulative := _prepare_weight_cumulative weights in
  ready_runs ← for_each (seq 0 (Z.to_nat simulations))
                 (fun (ready_runs : Z) _ =>
                    '(_, ready) ← _simulate_sequence base_notoriety cheese_sequence cumulative;
                    ret (if (ready : bool) then ready_runs + 1 else ready_runs))
                 0;
  ret (Py.truediv ready_runs (Z.max 1 simulations)).

Definition _systematic_candidates (base_counts : list float) (dial_range : float)
  : list (list float) :=
  let candidates :=
    concat (imap (fun (idx : nat) (value : float) =>
                    if (value <=? 0)%float then []
                    else [ <[idx := Py.fmax 0 (value * (1 + dial_range / 100))%float]> base_counts;
                           <[idx := Py.fmax 0 (value * (1 - dial_range / 100))%float]> base_counts ])
                 base_counts) in
  match base_counts, candidates with
  | [], _ => []
  | _, [] => [base_counts]
  | _, _ => candidates
  end.

(** The indices [_generate_candidate_counts] perturbs: about half of the
    positive ones (of all of them when none is positive), drawn at random. *)
Definition perturbed_indices (base_counts : list float) : M (list nat) :=
  let positive_indices :=
    (filter (fun item : nat * float => (0 <? item.2)%float = true) (Py.enumerate base_counts)).*1 in
  let positive_indices :=
    match positive_indices with
    | [] => seq 0 (length base_counts)
    | _ => positive_indices
    end in
  let subset_size := Nat.max 1 ((length positive_indices + 1) / 2) in
  if bool_decide (subset_size < length positive_indices)%nat
  then sample positive_indices subset_size
  else ret positive_indices.

(** The body of its loop [for idx in selected]. *)
Definition perturb (base_counts : list float) (dial_range : float) (direction_bias : list float)
    (varied : list float) (idx : nat) : M (list float) :=
  value ← lift (base_counts !! idx);
  let bias := default 0%float (direction_bias !! idx) in
  u ← uniform (- dial_range / 100)%float (dial_range / 100)%float;
  let delta := (u + bias * 0.1)%float in
  ret (<[idx := Py.fmax 0 (value * (1 + delta))%float]> varied).

Definition _generate_candidate_counts (base_counts : list float) (dial_range : float)
    (direction_bias : list float) : M (list float) :=
  selected ← perturbed_indices base_counts;
  for_each selected (perturb base_counts dial_range direction_bias) base_counts.

(** The inner loop of [_blend_top_candidates]: [blended[idx] += counts[idx] * weight]. *)
Definition add_weighted (blended counts : list float) (weight : float) : option (list float) :=
  mapM (fun item : nat * float => c ← counts !! item.1; Some (item.2 + c * weight)%float)
       (Py.enumerate blended).

Definition _blend_top_candidates (results : list (float * list float)) : option (list float) :=
  match results with
  | [] => Some []
  | (_, first_counts) :: _ =>
      let weights_sum := Py.fsum (results.*1) in
      if (weights_sum =? 0)%float then Some first_counts
      else
        foldl (fun (acc : option (list float)) (item : float * list float) =>
                 blended ← acc;
                 add_weighted blended item.2 (item.1 / weights_sum)%float)
              (Some (replicate (length first_counts) 0%float)) results
  end.

Definition _update_direction_bias (bias previous_counts new_counts : list float) : list float :=
  imap (fun (idx : nat) (b : float) =>
          let prev := default 0%float (previous_counts !! idx) in
          let new := default 0%float (new_counts !! idx) in
          let delta := (new - prev)%float in
          if (delta =? 0)%float then (b * 0.9)%float
          else
            let direction := if (0 <? delta)%float then 1%float else (-1)%float in
            (0.7 * b + 0.3 * direction)%float)
       bias.

(** The [while] loop of an iteration: randomized candidates are drawn until
    there are [current_candidates] of them; one whose counts sum to 0 is
    dropped. *)
Fixpoint regenerate (fuel : nat) (candidates : list (list float)) (current_candidates : Z)
    (best_counts : list float) (current_range : float) (direction_bias : list float)
  : M (list (list float)) :=
  if bool_decide (Z.of_nat (length candidates) < current_candidates) then
    match fuel with
    | O => out_of_fuel
    | S fuel' =>
        candidate ← _generate_candidate_counts best_counts current_range direction_bias;
        if (Py.fsum candidate =? 0)%float then
          regenerate fuel' candidates current_candidates best_counts current_range direction_bias
        else
          regenerate fuel' (candidates ++ [candidate]) current_candidates best_counts
                     current_range direction_bias
    end
  else ret candidates.

Definition evaluate (p : SearchParams) (counts : list float) : M float :=
  _simulate_probability counts (base_notoriety p) (cheese_sequence p) (sims_per_distribution p).

(** [for candidate in candidates: results.append((prob, candidate))] *)
Fixpoint evaluate_all (p : SearchParams) (candidates : list (list float))
  : M (list (float * list float)) :=
  match candidates with
  | [] => ret []
  | candidate :: rest =>
      prob ← evaluate p candidate;
      results ← evaluate_all p rest;
      ret ((prob, candidate) :: results)
  end.

(** [results.sort(key=lambda item: item[0], reverse=True)] *)
Definition sort_results (results : list (float * list float)) : list (float * list float) :=
  Py.sorted_desc (fun a b : float * list float => (a.1 <? b.1)%float) results.

(** The schedule of an iteration: [adaptive_factor], [current_range] and
    [current_candidates]. *)
Definition adaptive_factor (p : SearchParams) (iteration : nat) : float :=
  (0.6 + 0.4 * (1 - Py.truediv (Z.of_nat iteration) (Z.max 1 (iterations p - 1))))%float.

Definition current_range (p : SearchParams) (iteration : nat) : float :=
  Py.fmax 1 (Py.float_of_int (dial_range p) * adaptive_factor p iteration)%float.

Definition current_candidates (p : SearchParams) (iteration : nat) : Z :=
  Z.max 3 (Py.int_of_float (Py.float_of_int (candidate_count p) * adaptive_factor p iteration)%float).

(** The body of the loop of [_run_optimization] after its [while] loop: the
    candidates are evaluated and ranked with the current best, the top three
    are blended, and the better of the blend and the top one is kept. *)
Definition select_best (p : SearchParams) (st : SearchState) (candidates : list (list float))
  : M SearchState :=
  results ← evaluate_all p candidates;
  let results := sort_results (results ++ [(best_prob st, best_counts st)]) in
  let top_results := take 3 results in
  blended_counts ← lift (_blend_top_candidates top_results);
  blended_prob ← evaluate p blended_counts;
  top ← lift (head top_results);
  let prev_counts := best_counts st in
  let '(new_prob, new_counts) :=
    if (top.1 <=? blended_prob)%float then (blended_prob, blended_counts) else top in
  ret {| best_counts := new_counts;
         best_prob := new_prob;
         direction_bias := _update_direction_bias (direction_bias st) prev_counts new_counts |}.

(** The body of the loop of [_run_optimization] for one [iteration]. *)
Definition optimization_iteration (fuel : nat) (p : SearchParams) (st : SearchState)
    (iteration : nat) : M SearchState :=
  let candidates := _systematic_candidates (best_counts st) (current_range p iteration) in
  candidates ← regenerate fuel candidates (current_candidates p iteration) (best_counts st)
                 (current_range p iteration) (direction_bias st);
  select_best p st candidates.

(** The values [_run_optimization] reads from the entries before its loop:
    [None] is the early return on a wrong cheese total. *)
Definition search_params (vars : OptimizerVars) : option (option SearchParams) :=
  let counts := opt_cheese_vars vars in
  let target := _compute_target_hunts (opt_extend_var vars) in
  if bool_decide (Py.sum counts <> target) then Some None
  else
    cheese_sequence ← _build_cheese_sequence counts;
    Some (Some {| base_notoriety := Z.min NOTORIETY_CAP <$> genre_notoriety_vars vars;
                  cheese_sequence := cheese_sequence;
                  dial_range := Z.max 0 (range_var vars);
                  iterations := Z.max 1 (iterations_var vars);
                  sims_per_distribution := Z.max 1 (simulations_var vars);
                  candidate_count := Z.max 1 (candidates_var vars) |}).

Definition initial_counts (vars : OptimizerVars) : list float :=
  let base_counts := genre_page_vars vars in
  let base_counts :=
    if bool_decide (Py.sum base_counts = 0) then (fun _ => 1) <$> GENRES else base_counts in
  Py.float_of_int <$> base_counts.

(** The loop of [_run_optimization] over [range(iterations)]. *)
Definition optimization_loop (fuel : nat) (p : SearchParams) (iterations : list nat)
    (st : SearchState) : M SearchState :=
  for_each iterations (fun st iteration => optimization_iteration fuel p st iteration) st.

(** [_run_optimization]: [None] is the early return on a wrong cheese total;
    otherwise the state after the last iteration, whose counts and
    probability the source then displays. *)
Definition _run_optimization (fuel : nat) (vars : OptimizerVars) : M (option SearchState) :=
  p ← lift (search_params vars);
  match p with
  | None => ret None
  | Some p =>
      let best_counts := initial_counts vars in
      best_prob ← evaluate p best_counts;
      let st := {| best_counts := best_counts;
                   best_prob := best_prob;
                   direction_bias := (fun _ => 0%float) <$> GENRES |} in
      st ← optimization_loop fuel p (seq 0 (Z.to_nat (iterations p))) st;
      ret (Some st)
  end.

End PostscriptOptimizer.

(** ** The reroll simulation of the module level *)

(** The draws of [random.randrange] and [random.choice], which the
    [RandomSource] does not hold: the value [randrange(stop)] returns, and the
    position [choice] picks in a sequence of the given length, when it is the
    n-th draw. *)
Record ChoiceSource := {
  randrange_at : nat -> Z -> Z;
  choice_at : nat -> nat -> nat
}.

(** [random.randrange(stop)]; a [stop] that is not positive is a ValueError. *)
Definition randrange (choices : ChoiceSource) (stop : Z) : M Z :=
  fun _ n =>
    if bool_decide (0 < stop) then Returns (randrange_at choices n stop) (S n) else Raises.

(** [random.choice(seq)]; an empty sequence is an IndexError. *)
Definition choice {A} (choices : ChoiceSource) (l : list A) : M A :=
  fun _ n =>
    match l !! choice_at choices n (length l) with
    | Some x => Returns x (S n)
    | None => Raises
    end.

(** A source whose [randrange] is always 0 and whose [choice] is always the
    first element. *)
Definition first_choices : ChoiceSource :=
  {| randrange_at := fun _ _ => 0; choice_at := fun _ _ => 0%nat |}.

Inductive area_length := Short | Medium | Long.

#[global] Instance area_length_eq_dec : EqDecision area_length.
Proof. solve_decision. Defined.

Module Rerolls.

Definition LENGTHS : list area_length := [Short; Medium; Long].

(** The dict [length -> genre], in insertion order. *)
Definition options := list (area_length * Z).

(** [opts[length]] *)
Definition option_of (opts : options) (length : area_length) : option Z :=
  found ← list_find (fun item : area_length * Z => item.1 = length) opts;
  Some found.2.2.

Definition generate_options (choices : ChoiceSource) (num_genres : Z) : M options :=
  if bool_decide (num_genres < Z.of_nat (length LENGTHS)) then
    for_each LENGTHS
      (fun (opts : options) length =>
         genre ← randrange choices num_genres; ret (opts ++ [(length, genre)]))
      []
  else
    picks ← sample (seq 0 (Z.to_nat num_genres)) (length LENGTHS);
    lift (mapM (fun item : nat * area_length =>
                  pick ← picks !! item.1; Some (item.2, Z.of_nat pick))
               (Py.enumerate LENGTHS)).

(** [simulate_mallet_usage]: the [while True] loop takes fuel. *)
Fixpoint reroll (fuel : nat) (choices : ChoiceSource) (check_func : options -> option bool)
    (num_genres mallets_spent : Z) : M Z :=
  match fuel with
  | O => out_of_fuel
  | S fuel' =>
      opts ← generate_options choices num_genres;
      passed ← lift (check_func opts);
      if (passed : bool) then ret mallets_spent
      else reroll fuel' choices check_func num_genres (mallets_spent + 3)
  end.

Definition simulate_mallet_usage (fuel : nat) (choices : ChoiceSource)
    (check_func : options -> option bool) (num_genres : Z) : M Z :=
  reroll fuel choices check_func num_genres 0.

(** [lambda opts, genre=target_genre: any(g == genre for g in opts.values())] *)
Definition genre_check (genre : Z) (opts : options) : option bool :=
  Some (existsb (fun g => bool_decide (g = genre)) opts.*2).

(** [lambda opts, genre=target_genre, length=target_length: opts[length] == genre] *)
Definition combo_check (genre : Z) (length : area_length) (opts : options) : option bool :=
  g ← option_of opts length; Some (bool_decide (g = genre)).

(** The five areas of one iteration, each with its two reroll loops. *)
Definition five_areas (fuel : nat) (choices : ChoiceSource) (num_genres target_genre : Z)
    (target_length : area_length) (totals : Z * Z) : M (Z * Z) :=
  for_each (seq 0 5)
    (fun (totals : Z * Z) _ =>
       genre_mallets ←
         simulate_mallet_usage fuel choices (genre_check target_genre) num_genres;
       combo_mallets ←
         simulate_mallet_usage fuel choices (combo_check target_genre target_length) num_genres;
       ret (totals.1 + genre_mallets, totals.2 + combo_mallets))
    totals.

(** The loop of [run_simulation] over [range(iterations)]: the totals of the
    mallets spent on the genre matches and on the exact matches. *)
Definition run_totals (fuel : nat) (choices : ChoiceSource) (num_genres : Z) (iterations : Z)
  : M (Z * Z) :=
  for_each (seq 0 (Z.to_nat iterations))
    (fun (totals : Z * Z) _ =>
       target_genre ← randrange choices num_genres;
       target_length ← choice choices LENGTHS;
       five_areas fuel choices num_genres target_genre target_length totals)
    (0, 0).

(** [run_simulation]: the two averages (the quotients are those of the
    converted totals, exact while the totals stay below 2^53). *)
Definition run_simulation (fuel : nat) (choices : ChoiceSource) (num_genres : Z) (iterations : Z)
  : M (float * float) :=
  '(total_genre_mallets, total_combo_mallets) ← run_totals fuel choices num_genres iterations;
  let divisor := Z.max 1 iterations in
  ret (Py.truediv total_genre_mallets divisor, Py.truediv total_combo_mallets divisor).

End Rerolls.

(** ** class MalletFarmSimulator *)

(** The entries of the mallet tab, each held by the value its sanitizer
    returns. *)
Record MalletVars := {
  mallet_iterations_var : Z;
  mallets_per_run_var : float;
  cheese_mid_var : Z;
  cheese_high_var : Z
}.

(** The accumulators of [_simulate_cycles]. *)
Record CycleTotals := {
  total_runs : Z;
  total_hunts : Z;
  last_cycle_runs : Z;
  last_cycle_hunts : Z
}.

(** The dict [_simulate_cycles] returns. *)
Record CycleReport := {
  avg_runs_per_cycle : float;
  avg_hunts_per_cycle : float;
  estimated_mallets_per_cycle : float;
  report_last_cycle_runs : Z;
  report_last_cycle_hunts : Z
}.

Module MalletFarmSimulator.
Import PostscriptBase.

Definition _build_mallet_cheese_sequence (cheese_mid cheese_high : Z) : list Z :=
  replicate (Z.to_nat cheese_mid) 50 ++ replicate (Z.to_nat cheese_high) 125.

Definition _weights_from_page_counts (counts : list Z) : option (genre -> float) :=
  let total := Py.sum counts in
  if bool_decide (total <= 0) then
    let equal := Py.truediv 1 (Z.of_nat (length GENRES)) in
    Some (fun _ => equal)
  else genre_dict (fun idx => value ← counts !! idx; Some (Py.truediv value total)).

(** The body of the loop over [range(6)] of [_simulate_single_run]: the
    pages collected so far and the hunts spent on them. *)
Definition collect_pages (choices : ChoiceSource) (acc : list Z * Z) (idx : nat)
  : M (list Z * Z) :=
  let '(pages, hunts) := acc in
  hunts_needed ← (if bool_decide (idx = 0%nat) then choice choices [10; 20; 30] else ret 10);
  genre_idx ← randrange choices (Z.of_nat (length GENRES));
  k ← lift (Py.index (length pages) genre_idx);
  current ← lift (pages !! k);
  ret (<[k := current + hunts_needed / 10 * 250]> pages, hunts + hunts_needed).

(** [_simulate_single_run] updates [notoriety] in place and returns the
    hunts; here it returns both. *)
Definition _simulate_single_run (choices : ChoiceSource) (notoriety : list Z)
    (cheese_mid cheese_high : Z) : M (Z * list Z) :=
  '(pages, hunts) ← for_each (seq 0 6) (collect_pages choices) ((fun _ => 0) <$> GENRES, 0);
  let sequence := _build_mallet_cheese_sequence cheese_mid cheese_high in
  let hunts := hunts + Z.of_nat (length sequence) in
  weights ← lift (_weights_from_page_counts pages);
  let cumulative := _prepare_weight_cumulative weights in
  notoriety ← for_each sequence
                (fun values cheese_value => _apply_hunt_step values cheese_value cumulative)
                notoriety;
  ret (hunts, notoriety).

(** The [while True] loop of one cycle: runs until every value is above 80. *)
Fixpoint cycle (fuel : nat) (choices : ChoiceSource) (cheese_mid cheese_high : Z)
    (notoriety : list Z) (runs hunts : Z) : M (Z * Z) :=
  match fuel with
  | O => out_of_fuel
  | S fuel' =>
      '(run_hunts, notoriety) ← _simulate_single_run choices notoriety cheese_mid cheese_high;
      let runs := runs + 1 in
      let hunts := hunts + run_hunts in
      if Py.all (fun value => bool_decide (80 < value)) notoriety then ret (runs, hunts)
      else cycle fuel' choices cheese_mid cheese_high notoriety runs hunts
  end.

(** The loop of [_simulate_cycles] over [range(cycles)]. *)
Definition cycles_loop (fuel : nat) (choices : ChoiceSource) (cycles cheese_mid cheese_high : Z)
  : M CycleTotals :=
  for_each (seq 0 (Z.to_nat cycles))
    (fun (totals : CycleTotals) _ =>
       '(runs, hunts) ← cycle fuel choices cheese_mid cheese_high ((fun _ => 0) <$> GENRES) 0 0;
       ret {| total_runs := total_runs totals + runs;
              total_hunts := total_hunts totals + hunts;
              last_cycle_runs := runs;
              last_cycle_hunts := hunts |})
    {| total_runs := 0; total_hunts := 0; last_cycle_runs := 0; last_cycle_hunts := 0 |}.

(** [_simulate_cycles], for the positive [cycles] [_run_mallet_simulation]
    passes ([cycles = 0] is a ZeroDivisionError). *)
Definition _simulate_cycles (fuel : nat) (choices : ChoiceSource) (cycles : Z)
    (mallets_per_run : float) (cheese_mid cheese_high : Z) : M CycleReport :=
  totals ← cycles_loop fuel choices cycles cheese_mid cheese_high;
  if bool_decide (cycles = 0) then raise
  else
    let avg_runs := Py.truediv (total_runs totals) cycles in
    let avg_hunts := Py.truediv (total_hunts totals) cycles in
    ret {| avg_runs_per_cycle := avg_runs;
           avg_hunts_per_cycle := avg_hunts;
           estimated_mallets_per_cycle := (avg_runs * mallets_per_run)%float;
           report_last_cycle_runs := last_cycle_runs totals;
           report_last_cycle_hunts := last_cycle_hunts totals |}.

(** [_run_mallet_simulation]: [None] is the early return without any
    cheese. *)
Definition _run_mallet_simulation (fuel : nat) (choices : ChoiceSource) (vars : MalletVars)
  : M (option CycleReport) :=
  let cycles := Z.max 1 (mallet_iterations_var vars) in
  let mallets_per_run := Py.fmax 0 (mallets_per_run_var vars) in
  let cheese_mid := Z.max 0 (cheese_mid_var vars) in
  let cheese_high := Z.max 0 (cheese_high_var vars) in
  if bool_decide (cheese_mid + cheese_high <= 0) then ret None
  else
    stats ← _simulate_cycles fuel choices cycles mallets_per_run cheese_mid cheese_high;
    ret (Some stats).

End MalletFarmSimulator.

(** ** Vocabulary of the properties *)

(** Every entry of a notoriety vector lies in [[lo, hi]]. *)
Definition in_range (lo hi : Z) (values : list Z) : Prop :=
  Forall (fun v => lo <= v <= hi) values.

(** ** Sample data for the instances *)

(** The two setups of the dual simulator as [_build_ui] creates them
    ([m_value] 10 and 0), with auto-extend on and some page counts typed in. *)
Definition sample_setups : list Setup :=
  [ {| extend_var := false; auto_extend_var := true; cheese_vars := [0; 10; 0];
       page_vars := [3; 5; 5; 0; 1]; m_value := 10 |};
    {| extend_var := true; auto_extend_var := true; cheese_vars := [0; 13; 0];
       page_vars := [0; 2; 0; 7; 7]; m_value := 0 |} ].

Definition sample_first : Setup := default inhabitant (head sample_setups).
Definition sample_second : Setup := default inhabitant (last sample_setups).

(** A cumulative threshold table. *)
Definition sample_table : list float := [0.2; 0.4; 0.6; 0.8; 1]%float.

(** The entries of the optimizer tab on which the search does not end: all
    the page weight on Romance, a dial range of 100, two iterations. *)
Definition stuck_vars : OptimizerVars :=
  {| opt_cheese_vars := [0; 10; 0]; opt_extend_var := false;
     genre_notoriety_vars := [200; 0; 200; 200; 200];
     genre_page_vars := [5; 0; 0; 0; 0];
     range_var := 100; iterations_var := 2; simulations_var := 1; candidates_var := 1 |}.

(** What [_run_optimization] reads from them, its state before the first
    iteration (no simulated run is ready), and its state after the first
    iteration (the all-zero blend, whose uniform fallback is always ready). *)
Definition stuck_params : SearchParams :=
  {| base_notoriety := [200; 0; 200; 200; 200];
     cheese_sequence := [50; 50; 50; 50; 50; 50; 50; 50; 50; 50];
     dial_range := 100; iterations := 2; sims_per_distribution := 1; candidate_count := 1 |}.

Definition stuck_initial : SearchState :=
  {| best_counts := [5; 0; 0; 0; 0]%float; best_prob := 0;
     direction_bias := [0; 0; 0; 0; 0]%float |}.

Definition stuck_state : SearchState :=
  {| best_counts := [0; 0; 0; 0; 0]%float; best_prob := 1;
     direction_bias := [-0.3; 0; 0; 0; 0]%float |}.

(** [random.sample] returns elements of the population it is given. *)
Definition sample_in_population (src : RandomSource) : Prop :=
  forall n population k, sample_at src n population k ⊆ population.

(** The position of a genre in [GENRES]. *)
Definition genre_index (g : genre) : Z :=
  match g with Romance => 0 | Adventure => 1 | Comedy => 2 | Tragedy => 3 | Suspense => 4 end.

(** The distribution [{A: 1.0, others: 0.0}]. *)
Definition all_on (A : genre) : genre -> float :=
  fun g => if decide (g = A) then 1%float else 0%float.

(** [table[i] <= table[i+1]] for every adjacent pair. *)
Fixpoint non_decreasing (table : list float) : bool :=
  match table with
  | x :: (y :: _) as rest => (x <=? y)%float && non_decreasing rest
  | _ => true
  end.

(** ** Vocabulary for binary64 numbers *)

(** The number is not a NaN. *)
Definition SFnot_nan (s : spec_float) : Prop := s <> S754_nan.

(** The number is neither negative nor a NaN: +0, a positive finite number
    or +infinity. *)
Definition SFnonneg (x : spec_float) : Prop :=
  match x with
  | S754_zero false | S754_infinity false | S754_finite false _ _ => True
  | _ => False
  end.

Definition nonneg (x : float) : Prop := SFnonneg (Prim2SF x).

(** Every count is +0.0. *)
Definition all_zero (counts : list float) : Prop := Forall (fun c => c = 0%float) counts.

(** The invariant of the descending sort: the first element has the largest key. *)
Definition headed (l : list (float * list float)) : Prop :=
  match l with
  | [] => True
  | top :: _ => Forall (fun item => (item.1 <=? top.1)%float = true) l
  end.

(** Case analysis on the integer comparisons inside [SFcompare]. *)
Ltac compare_cases :=
  repeat match goal with
  | H : context [Pos.compare_cont Eq ?a ?b] |- _ =>
      change (Pos.compare_cont Eq a b) with (Pos.compare a b) in H
  | |- context [Pos.compare_cont Eq ?a ?b] =>
      change (Pos.compare_cont Eq a b) with (Pos.compare a b)
  end;
  repeat match goal with
  | H : context [Z.compare ?a ?b] |- _ => destruct (Z.compare_spec a b); simpl in H; try discriminate H
  | H : context [Pos.compare ?a ?b] |- _ => destruct (Pos.compare_spec a b); simpl in H; try discriminate H
  end;
  repeat match goal with
  | |- context [Z.compare ?a ?b] => destruct (Z.compare_spec a b); simpl
  | |- context [Pos.compare ?a ?b] => destruct (Pos.compare_spec a b); simpl
  end;
  try reflexivity; try discriminate; try lia.

(** The entries of the allocator tab as it starts, with some page counts
    typed in. *)
Definition sample_allocator_vars : AllocatorVars :=
  {| alloc_cheese_vars := [0; 10; 0]; alloc_extend_var := false;
     alloc_notoriety_vars := [0; 0; 0; 0; 0]; alloc_page_vars := [3; 5; 5; 0; 1] |}.

(** The bucket of one breakpoint after [k] runs: six counts, none negative,
    that sum to [k]. *)
Definition bucket_ok (k : Z) (counts : list Z) : Prop :=
  length counts = 6%nat /\ Forall (fun count => 0 <= count) counts /\ Py.sum counts = k.

(** The invariant of the loop over [range(runs)] after [k] runs. *)
Definition hunt_stats_ok (k : Z) (stats : HuntStats) : Prop :=
  0 <= ready_runs stats <= k /\
  length (totals stats) = 5%nat /\
  in_range 0 (PostscriptBase.NOTORIETY_CAP * k) (totals stats) /\
  (forall threshold, threshold ∈ CheeseAllocator.THRESHOLD_BREAKPOINTS ->
     exists counts, threshold_counts stats !! threshold = Some counts /\ bucket_ok k counts) /\
  (exists counts all_above,
     threshold_counts stats !! 80 = Some counts /\ counts !! 5%nat = Some all_above /\
     all_above <= ready_runs stats).

(** The invariant of the loop over [range(self.MULTI_RUNS)] after [k] runs. *)
Definition dual_stats_ok (k : Z) (stats : DualStats) : Prop :=
  0 <= dual_ready_runs stats <= k /\
  length (dual_totals stats) = 5%nat /\
  in_range 0 (PostscriptBase.NOTORIETY_CAP * k) (dual_totals stats) /\
  exists first_count second_count,
    extend_counts stats = [first_count; second_count] /\
    0 <= first_count <= k /\ 0 <= second_count <= k /\
    total_extensions stats = first_count + second_count.

(** The two setups are filled in as the simulator needs them: at least three
    cheese counts that sum to the target, and five page counts. *)
Definition setup_ready (setup : Setup) : Prop :=
  (3 <= length (cheese_vars setup))%nat /\
  Py.sum (cheese_vars setup) = PostscriptBase._compute_target_hunts (extend_var setup) /\
  length (page_vars setup) = 5%nat.

(** What a run of [_run_dual_simulation] that started at draw [n] and ended
    at draw [n'] reports, for two setups whose sequences have
    [hunts_per_pass] tokens together: both vectors of the single pass lie in
    [0, 200] and its ready flag is that of the final vector; over the
    [runs] repeated passes the ready count is between 0 and [runs], each of
    the five totals is between 0 and 200 * [runs], each setup was extended
    between 0 and [runs] times, the total of the extensions is the sum of
    the two counts; and the draws made are one per hunt: the hunts of the
    sequences for every pass, and three for every extension. *)
Definition dual_report_ok (runs hunts_per_pass : Z) (n n' : nat) (report : DualReport) : Prop :=
  in_range 0 PostscriptBase.NOTORIETY_CAP (first_values report) /\
  in_range 0 PostscriptBase.NOTORIETY_CAP (final_values report) /\
  final_ready report = PostscriptBase.all_ready (final_values report) /\
  0 <= dual_ready_runs (multi report) <= runs /\
  length (dual_totals (multi report)) = 5%nat /\
  in_range 0 (PostscriptBase.NOTORIETY_CAP * runs) (dual_totals (multi report)) /\
  (exists first_count second_count,
     extend_counts (multi report) = [first_count; second_count] /\
     0 <= first_count <= runs /\ 0 <= second_count <= runs /\
     total_extensions (multi report) = first_count + second_count) /\
  Z.of_nat n' =
    Z.of_nat n + (runs + 1) * hunts_per_pass +
    3 * (total_extensions (multi report) + Z.b2z (first_extended report) +
         Z.b2z (second_extended report)).

(** The tables of [sample_setups], and a short pair of sequences. *)
Definition sample_tables : list (list float) :=
  [ [0.21428571428571427; 0.5714285714285714; 0.9285714285714286; 0.9285714285714286; 1]%float;
    [0; 0.125; 0.125; 0.5625; 1]%float ].

Definition sample_sequences : list (list Z) := [[125; 50]; []].

(** The table of the uniform weights [1 / 5]. *)
Definition uniform_table : list float :=
  [0.2; 0.4; 0.6000000000000001; 0.8; 1]%float.

(** Between 0.0 and 1.0, both included. *)
Definition in_unit_interval (x : float) : Prop :=
  (0 <=? x)%float = true /\ (x <=? 1)%float = true.

(** Entries whose cheese counts miss the target by one hunt. *)
Definition short_allocator_vars : AllocatorVars :=
  {| alloc_cheese_vars := [0; 9; 0]; alloc_extend_var := false;
     alloc_notoriety_vars := [0; 0; 0; 0; 0]; alloc_page_vars := [3; 5; 5; 0; 1] |}.

Definition short_setups : list Setup :=
  [ {| extend_var := false; auto_extend_var := true; cheese_vars := [0; 9; 0];
       page_vars := [3; 5; 5; 0; 1]; m_value := 10 |};
    sample_second ].

Definition short_optimizer_vars : OptimizerVars :=
  {| opt_cheese_vars := [0; 9; 0]; opt_extend_var := false;
     genre_notoriety_vars := [0; 0; 0; 0; 0]; genre_page_vars := [3; 5; 5; 0; 1];
     range_var := 20; iterations_var := 2; simulations_var := 10; candidates_var := 3 |}.

(** What a candidate of the optimizer is to a base vector: the vector with
    some entries replaced, none of the new entries negative. *)
Definition varied_from (base_counts candidate : list float) : Prop :=
  length candidate = length base_counts /\
  forall (idx : nat) (value : float), candidate !! idx = Some value ->
    base_counts !! idx = Some value \/ (value <? 0)%float = false.




(** [random.sample] returns as many elements as it is asked for, all from
    the population and, when the population has no duplicates, all different. *)
Definition sample_well_formed (src : RandomSource) : Prop :=
  forall n (population : list nat) (k : nat),
    (k <= length population)%nat -> NoDup population ->
    length (sample_at src n population k) = k /\
    NoDup (sample_at src n population k) /\
    sample_at src n population k ⊆ population.

(** A source whose [sample] takes the first [k] of the population rotated by
    the number of the draw, so that successive rolls differ. *)
Definition rotating_source (u : float) : RandomSource :=
  {| random_at := fun _ => u; sample_at := fun n population k => take k (rotate n population) |}.

(** [random.randrange(stop)] is in [0, stop) and [random.choice] picks a
    position of the sequence. *)
Definition choices_well_formed (choices : ChoiceSource) : Prop :=
  (forall n stop, 0 < stop -> 0 <= randrange_at choices n stop < stop) /\
  (forall n len, (0 < len)%nat -> (choice_at choices n len < len)%nat).

(** A source whose [randrange] walks through the range with the number of the
    draw, and whose [choice] is always the first element. *)
Definition cycling_choices : ChoiceSource :=
  {| randrange_at := fun n stop => Z.of_nat n mod stop; choice_at := fun _ _ => 0%nat |}.

(** A source whose [random()] walks through five values with the number of
    the draw. *)
Definition stepping_source : RandomSource :=
  {| random_at := fun n => nth (n mod 5) [0.1; 0.3; 0.6; 0.7; 0.9]%float 0.5%float;
     sample_at := fun _ population k => take k population |}.

(** * Properties *)

(** ** Binary64: the order *)

Section Binary64Order.

Lemma SFleb_trans x y z : SFleb x y = true -> SFleb y z = true -> SFleb x z = true.
Proof.
  unfold SFleb.
  destruct x as [sx|sx| |sx mx ex], y as [sy|sy| |sy my ey], z as [sz|sz| |sz mz ez];
    try destruct sx; try destruct sy; try destruct sz; simpl; try (intros; discriminate); try reflexivity;
    intros Hxy Hyz; compare_cases.
Qed.

Lemma SFleb_total x y : SFnot_nan x -> SFnot_nan y -> SFltb x y = false -> SFleb y x = true.
Proof.
  unfold SFleb, SFltb, SFnot_nan.
  destruct x as [sx|sx| |sx mx ex], y as [sy|sy| |sy my ey];
    try destruct sx; try destruct sy; simpl; try (intros; congruence);
    intros _ _ H; compare_cases.
Qed.

Lemma SFleb_refl x : SFnot_nan x -> SFleb x x = true.
Proof.
  unfold SFleb, SFnot_nan. destruct x as [sx|sx| |sx mx ex]; try destruct sx; simpl; try done.
  all: rewrite Z.compare_refl; change (Pos.compare_cont Eq mx mx) with (Pos.compare mx mx);
    by rewrite Pos.compare_refl.
Qed.

Lemma ltb_leb (x y : float) : (x <? y)%float = true -> (x <=? y)%float = true.
Proof.
  rewrite FloatAxioms.ltb_spec, FloatAxioms.leb_spec. unfold SFltb, SFleb.
  by destruct (SFcompare (Prim2SF x) (Prim2SF y)) as [[]|].
Qed.

Lemma zero_ltb_not_leb (x : float) : (0 <? x)%float = true -> (x <=? 0)%float = false.
Proof.
  rewrite FloatAxioms.ltb_spec, FloatAxioms.leb_spec. unfold SFltb, SFleb.
  change (Prim2SF 0) with (S754_zero false).
  by destruct (Prim2SF x) as [[]|[]| |[] ? ?].
Qed.

Lemma SFnonneg_not_nan (x : spec_float) : SFnonneg x -> SFnot_nan x.
Proof. by destruct x. Qed.

Lemma leb_refl (x : float) : nonneg x -> (x <=? x)%float = true.
Proof. intros Hx. rewrite FloatAxioms.leb_spec. by apply SFleb_refl, SFnonneg_not_nan. Qed.

Lemma leb_trans (x y z : float) :
  (x <=? y)%float = true -> (y <=? z)%float = true -> (x <=? z)%float = true.
Proof. rewrite !FloatAxioms.leb_spec. apply SFleb_trans. Qed.

Lemma leb_total (x y : float) :
  nonneg x -> nonneg y -> (x <? y)%float = false -> (y <=? x)%float = true.
Proof.
  intros Hx Hy. rewrite FloatAxioms.ltb_spec, FloatAxioms.leb_spec.
  by apply SFleb_total; apply SFnonneg_not_nan.
Qed.

End Binary64Order.

(** ** Binary64: rounding, conversion, division and addition *)

Section Binary64Rounding.

Abbreviation dig p := (Z.pos (digits2_pos p)).

Lemma digits2_bounds (p : positive) : 2 ^ (dig p - 1) <= Z.pos p < 2 ^ dig p.
Proof.
  induction p as [p IH|p IH|]; simpl digits2_pos; rewrite ?Pos2Z.inj_succ.
  - replace (Z.succ (dig p) - 1) with (Z.succ (dig p - 1)) by lia.
    rewrite !Z.pow_succ_r by lia. lia.
  - replace (Z.succ (dig p) - 1) with (Z.succ (dig p - 1)) by lia.
    rewrite !Z.pow_succ_r by lia. lia.
  - simpl. lia.
Qed.

Lemma digits2_unique (p : positive) (d : Z) :
  2 ^ (d - 1) <= Z.pos p < 2 ^ d -> dig p = d.
Proof.
  intros [Hlo Hhi]. pose proof (digits2_bounds p) as [Hlo' Hhi'].
  assert (0 < d) by (destruct (Z_lt_le_dec 0 d); [done|]; rewrite Z.pow_neg_r in Hlo by lia;
    destruct (Z.eq_dec d 0) as [->|]; [simpl in Hhi; lia | rewrite Z.pow_neg_r in Hhi by lia; lia]).
  destruct (Z.lt_trichotomy (dig p) d) as [Hlt|[Heq|Hgt]]; [|done|].
  - assert (2 ^ dig p <= 2 ^ (d - 1)) by (apply Z.pow_le_mono_r; lia). lia.
  - assert (2 ^ d <= 2 ^ (dig p - 1)) by (apply Z.pow_le_mono_r; lia). lia.
Qed.

Lemma digits2_mono (p q : positive) : (p <= q)%positive -> dig p <= dig q.
Proof.
  intros Hle. pose proof (digits2_bounds p) as [Hlo _]. pose proof (digits2_bounds q) as [_ Hhi].
  destruct (Z_lt_le_dec (dig q) (dig p)) as [Hlt|]; [|done].
  assert (2 ^ dig q <= 2 ^ (dig p - 1)) by (apply Z.pow_le_mono_r; lia). lia.
Qed.

Lemma iter_xO_value (m d : positive) : Z.pos (Pos.iter xO m d) = Z.pos m * 2 ^ Z.pos d.
Proof.
  revert m. induction d as [|d IH] using Pos.peano_ind; intros m.
  - simpl. lia.
  - rewrite Pos.iter_succ, Pos2Z.inj_xO, IH, Pos2Z.inj_succ, Z.pow_succ_r by lia. lia.
Qed.

Lemma iter_xO_digits (m d : positive) : dig (Pos.iter xO m d) = dig m + Z.pos d.
Proof.
  apply digits2_unique. rewrite iter_xO_value.
  pose proof (digits2_bounds m) as [Hlo Hhi].
  replace (dig m + Z.pos d - 1) with ((dig m - 1) + Z.pos d) by lia.
  rewrite !Z.pow_add_r by lia. nia.
Qed.

Lemma shr_1_m (mrs : shr_record) : 0 <= shr_m mrs -> shr_m (shr_1 mrs) = shr_m mrs / 2.
Proof.
  destruct mrs as [m r s]. destruct m as [|[p|p|]|p]; cbn [shr_1 shr_m]; intros H; try lia.
  - reflexivity.
  - apply Z.div_unique with 1; lia.
  - apply Z.div_unique with 0; lia.
  - reflexivity.
Qed.

Lemma iter_shr_1_m (p : positive) : forall mrs,
  0 <= shr_m mrs -> shr_m (SpecFloat.iter_pos shr_1 p mrs) = shr_m mrs / 2 ^ Z.pos p.
Proof.
  induction p as [p IH|p IH|]; intros mrs Hm; simpl SpecFloat.iter_pos.
  - assert (0 <= shr_m (shr_1 mrs)) by (rewrite shr_1_m by done; apply Z.div_pos; lia).
    assert (0 <= shr_m (SpecFloat.iter_pos shr_1 p (shr_1 mrs))) by (rewrite IH by done; apply Z.div_pos; lia).
    rewrite !IH, shr_1_m by done. rewrite !Z.div_div by lia.
    f_equal. rewrite Pos2Z.inj_xI, <- !Z.pow_add_r by lia. change 2 with (2 ^ 1) at 1.
    rewrite <- Z.pow_add_r by lia. f_equal. lia.
  - assert (0 <= shr_m (SpecFloat.iter_pos shr_1 p mrs)) by (rewrite IH by done; apply Z.div_pos; lia).
    rewrite !IH by done. rewrite Z.div_div by lia. f_equal.
    rewrite Pos2Z.inj_xO, <- Z.pow_add_r by lia. f_equal. lia.
  - by rewrite shr_1_m.
Qed.

Lemma round_nearest_even_cases (m : Z) (l : location) :
  round_nearest_even m l = m \/ round_nearest_even m l = m + 1.
Proof. destruct l as [|[]]; simpl; auto. destruct (Z.even m); auto. Qed.

Lemma fexp64 (e : Z) : SpecFloat.fexp prec emax e = Z.max (e - 53) (-1074).
Proof. reflexivity. Qed.

Lemma shr_nonpos (mrs : shr_record) (e n : Z) : n <= 0 -> shr mrs e n = (mrs, e).
Proof. destruct n; [done | lia | done]. Qed.

Lemma shr_pos (mrs : shr_record) (e n : Z) :
  0 <= shr_m mrs -> 0 < n ->
  exists mrs', shr mrs e n = (mrs', e + n) /\ shr_m mrs' = shr_m mrs / 2 ^ n.
Proof.
  intros Hm Hn. destruct n as [|p|p]; [lia| |lia]. simpl.
  eexists. split; [reflexivity|]. by apply iter_shr_1_m.
Qed.

Lemma shr_record_of_loc_m (m : Z) (l : location) : shr_m (shr_record_of_loc m l) = m.
Proof. by destruct l as [|[]]. Qed.

Lemma shr_fexp_nonneg (m e : Z) (l : location) :
  0 <= m -> 0 <= shr_m (fst (shr_fexp prec emax m e l)).
Proof.
  intros Hm. unfold shr_fexp.
  set (n := SpecFloat.fexp prec emax (Zdigits2 m + e) - e).
  destruct (Z_lt_le_dec 0 n) as [Hn|Hn].
  - destruct (shr_pos (shr_record_of_loc m l) e n) as (mrs' & Hs & Hm');
      rewrite ?shr_record_of_loc_m; try done.
    rewrite Hs. simpl. rewrite Hm', shr_record_of_loc_m. apply Z.div_pos; lia.
  - rewrite shr_nonpos by done. simpl. by rewrite shr_record_of_loc_m.
Qed.

(** Rounding a non-negative mantissa gives a zero, a finite number or an
    infinity of the given sign, never a NaN. *)
Lemma binary_round_aux_shape (s : bool) (m e : Z) (l : location) :
  0 <= m ->
  match binary_round_aux prec emax s m e l with
  | S754_zero s' | S754_infinity s' | S754_finite s' _ _ => s' = s
  | S754_nan => False
  end.
Proof.
  intros Hm. unfold binary_round_aux.
  pose proof (shr_fexp_nonneg m e l Hm) as H1.
  destruct (shr_fexp prec emax m e l) as [mrs' e']. simpl in H1.
  set (m2 := round_nearest_even (shr_m mrs') (loc_of_shr_record mrs')).
  assert (0 <= m2) as H2.
  { subst m2. destruct (round_nearest_even_cases (shr_m mrs') (loc_of_shr_record mrs')) as [->| ->]; lia. }
  pose proof (shr_fexp_nonneg m2 e' loc_Exact H2) as H3.
  destruct (shr_fexp prec emax m2 e' loc_Exact) as [mrs'' e'']. simpl in H3.
  destruct (shr_m mrs'') as [|p|p]; [done| |lia].
  by destruct (e'' <=? emax - prec).
Qed.

(** Rounding an exact positive mantissa, above the smallest exponent. *)
Lemma binary_round_aux_exact (s : bool) (m : positive) (e : Z) :
  -1074 <= e ->
  let n := SpecFloat.fexp prec emax (dig m + e) - e in
  (n <= 0 ->
   binary_round_aux prec emax s (Z.pos m) e loc_Exact =
     if e <=? 971 then S754_finite s m e else S754_infinity s) /\
  (0 < n ->
   exists (p : positive) (e' : Z),
     binary_round_aux prec emax s (Z.pos m) e loc_Exact =
       (if e' <=? 971 then S754_finite s p e' else S754_infinity s) /\
     ((e' = e + n /\ Z.pos m / 2 ^ n <= Z.pos p) \/ e' = e + n + 1)).
Proof.
  intros He n. split.
  - intros Hn. unfold binary_round_aux, shr_fexp. simpl Zdigits2. fold n.
    rewrite shr_nonpos by done. simpl round_nearest_even. simpl Zdigits2. fold n.
    rewrite shr_nonpos by done. reflexivity.
  - intros Hn. unfold binary_round_aux, shr_fexp. simpl Zdigits2. fold n.
    assert (n = dig m - 53) as Hn' by (subst n; rewrite fexp64 in *; lia).
    destruct (shr_pos (shr_record_of_loc (Z.pos m) loc_Exact) e n) as (mrs' & -> & Hm1);
      [simpl; lia | done |].
    simpl shr_m in Hm1.
    pose proof (digits2_bounds m) as [Hlo Hhi].
    assert (2 ^ 52 <= shr_m mrs' < 2 ^ 53) as Hm1b.
    { rewrite Hm1. replace (dig m - 1) with (52 + n) in Hlo by lia.
      replace (dig m) with (53 + n) in Hhi by lia.
      rewrite Z.pow_add_r in Hlo, Hhi by lia. split.
      - apply Z.div_le_lower_bound; lia.
      - apply Z.div_lt_upper_bound; lia. }
    set (m2 := round_nearest_even (shr_m mrs') (loc_of_shr_record mrs')).
    assert (m2 = shr_m mrs' \/ m2 = shr_m mrs' + 1) as Hm2 by apply round_nearest_even_cases.
    assert (2 ^ 52 <= m2 <= 2 ^ 53) as Hm2b by lia.
    destruct m2 as [|p2|p2] eqn:Ep2; [lia| |lia].
    simpl Zdigits2.
    destruct (Z.eq_dec (Z.pos p2) (2 ^ 53)) as [Htop|Htop].
    + assert (dig p2 = 54) as Hd by (apply digits2_unique; rewrite Htop; simpl; lia).
      rewrite Hd.
      assert (SpecFloat.fexp prec emax (54 + (e + n)) - (e + n) = 1) as -> by (rewrite fexp64; lia).
      injection Htop as ->. simpl.
      exists (2 ^ 52)%positive, (e + n + 1). split; [done|]. by right.
    + assert (dig p2 = 53) as Hd by (apply digits2_unique; simpl; lia).
      rewrite Hd.
      assert (SpecFloat.fexp prec emax (53 + (e + n)) - (e + n) = 0) as -> by (rewrite fexp64; lia).
      simpl. exists p2, (e + n). split; [done|]. left. split; [done|]. lia.
Qed.

Lemma binary_round_int (m : positive) :
  Z.pos m < 2 ^ 63 -> exists p e, binary_round prec emax false m 0 = S754_finite false p e.
Proof.
  intros Hm. unfold binary_round.
  pose proof (digits2_bounds m) as [Hlo Hhi].
  assert (dig m <= 63) as Hd.
  { destruct (Z_lt_le_dec 63 (dig m)) as [Hgt|]; [|done].
    assert (2 ^ 63 <= 2 ^ (dig m - 1)) by (apply Z.pow_le_mono_r; lia). lia. }
  rewrite Z.add_0_r, fexp64. unfold shl_align.
  destruct (Z.max (dig m - 53) (-1074) - 0) as [|k|k] eqn:Ek.
  - destruct (binary_round_aux_exact false m 0) as [Hexact _]; [lia|].
    rewrite Hexact by (rewrite Z.add_0_r, fexp64; lia). by eexists _, _.
  - destruct (binary_round_aux_exact false m 0) as [_ Hshift]; [lia|].
    destruct Hshift as (p & e' & -> & He'); [rewrite Z.add_0_r, fexp64; lia|].
    rewrite Z.add_0_r, fexp64 in He'.
    rewrite (proj2 (Z.leb_le e' 971)) by lia. by eexists _, _.
  - destruct (binary_round_aux_exact false (Pos.iter xO m k) (Z.max (dig m - 53) (-1074)))
      as [Hexact _]; [lia|].
    rewrite Hexact by (rewrite iter_xO_digits, fexp64; lia).
    rewrite (proj2 (Z.leb_le _ 971)) by lia. by eexists _, _.
Qed.

Lemma float_of_int_shape (n : Z) :
  match Prim2SF (Py.float_of_int n) with
  | S754_zero false => n mod 2 ^ 63 = 0
  | S754_finite false _ _ => n mod 2 ^ 63 <> 0
  | _ => False
  end.
Proof.
  unfold Py.float_of_int. rewrite FloatAxioms.of_uint63_spec, Uint63.of_Z_spec.
  change wB with (2 ^ 63).
  pose proof (Z.mod_pos_bound n (2 ^ 63)) as Hbound.
  destruct (n mod 2 ^ 63) as [|m|m] eqn:Em; simpl; [done| |lia].
  destruct (binary_round_int m) as (p & e & ->); [lia|]. done.
Qed.

Lemma SFdiv_nonneg (x y : spec_float) :
  match x with S754_zero false | S754_finite false _ _ => True | _ => False end ->
  match y with S754_finite false _ _ => True | _ => False end ->
  SFnonneg (SFdiv prec emax x y).
Proof.
  destruct x as [[]|[]| |[] mx ex]; try done; destruct y as [[]|[]| |[] my ey]; try done;
    intros _ _; simpl.
  unfold SFdiv_core_binary.
  set (e' := Z.min _ _). set (m' := match _ with Z0 => _ | Z.pos _ => _ | Z.neg _ => _ end).
  assert (0 <= m') as Hm'.
  { subst m'. destruct (ex - ey - e'); [lia | | lia]. apply Z.shiftl_nonneg. lia. }
  pose proof (Z.div_pos m' (Z.pos my) Hm' ltac:(lia)) as Hq.
  unfold Z.div in Hq. destruct (Z.div_eucl m' (Z.pos my)) as [q r]. simpl in Hq.
  pose proof (binary_round_aux_shape false q e' (new_location (Z.pos my) r) Hq) as Hshape.
  unfold SFnonneg. by destruct (binary_round_aux _ _ _ _ _ _) as [[]|[]| |[] ? ?].
Qed.

Lemma truediv_nonneg (a b : Z) : 1 <= b < 2 ^ 63 -> SFnonneg (Prim2SF (Py.truediv a b)).
Proof.
  intros Hb. unfold Py.truediv. rewrite FloatAxioms.div_spec.
  pose proof (float_of_int_shape a) as Ha. pose proof (float_of_int_shape b) as Hb'.
  rewrite (Z.mod_small b) in Hb' by lia.
  apply SFdiv_nonneg.
  - by destruct (Prim2SF (Py.float_of_int a)) as [[]|[]| |[] ? ?].
  - destruct (Prim2SF (Py.float_of_int b)) as [[]|[]| |[] ? ?]; try done. lia.
Qed.

Lemma SFleb_finite (mx : positive) (ex : Z) (p : positive) (e : Z) :
  ex < e \/ (ex = e /\ (mx <= p)%positive) ->
  SFleb (S754_finite false mx ex) (S754_finite false p e) = true.
Proof.
  unfold SFleb. simpl. intros [Hlt|[-> Hle]].
  - by rewrite (proj2 (Z.compare_lt_iff ex e)).
  - rewrite Z.compare_refl. change (Pos.compare_cont Eq mx p) with (Pos.compare mx p).
    destruct (Pos.compare_spec mx p); [done..|lia].
Qed.

Lemma shl_align_value (m : positive) (e e' : Z) :
  e' <= e ->
  Z.pos (fst (shl_align m e e')) = Z.pos m * 2 ^ (e - e') /\
  dig (fst (shl_align m e e')) = dig m + (e - e').
Proof.
  intros Hle. unfold shl_align. destruct (e' - e) as [|k|k] eqn:Ek; simpl fst.
  - replace (e - e') with 0 by lia. simpl. lia.
  - lia.
  - rewrite iter_xO_value, iter_xO_digits. replace (e - e') with (Z.pos k) by lia. done.
Qed.

(** Adding a non-negative number to a non-negative number does not make it
    smaller, and the sum is non-negative. *)
Lemma SFadd_nonneg_mono (x w : spec_float) :
  valid_binary x = true -> valid_binary w = true ->
  SFnonneg x -> SFnonneg w ->
  SFnonneg (SFadd prec emax x w) /\ SFleb x (SFadd prec emax x w) = true.
Proof.
  intros Hvx Hvw Hx Hw.
  destruct x as [[]|[]| |[] mx ex]; try done; destruct w as [[]|[]| |[] mw ew]; try done;
    try (split; [done|]; simpl; try done).
  - (* finite + zero *)
    unfold SFleb. simpl. rewrite Z.compare_refl.
    change (Pos.compare_cont Eq mx mx) with (Pos.compare mx mx). by rewrite Pos.compare_refl.
  - (* finite + finite *)
    simpl in Hvx, Hvw. unfold bounded, canonical_mantissa in Hvx, Hvw.
    apply andb_prop in Hvx as [Hcx Hbx]. apply andb_prop in Hvw as [Hcw Hbw].
    apply Z.eqb_eq in Hcx, Hcw. apply Z.leb_le in Hbx, Hbw.
    rewrite fexp64 in Hcx, Hcw. change (emax - prec) with 971 in Hbx, Hbw.
    unfold SFadd. cbn [cond_Zopp].
    set (ez := Z.min ex ew).
    destruct (shl_align_value mx ex ez) as [Hvx' Hdx']; [lia|].
    destruct (shl_align_value mw ew ez) as [Hvw' Hdw']; [lia|].
    set (mx' := fst (shl_align mx ex ez)) in *. set (mw' := fst (shl_align mw ew ez)) in *.
    change (Z.pos mx' + Z.pos mw') with (Z.pos (mx' + mw')).
    cbn [binary_normalize]. unfold binary_round.
    set (M := (mx' + mw')%positive).
    assert (dig mx' <= dig M) as HdM by (apply digits2_mono; lia).
    rewrite fexp64. unfold shl_align.
    destruct (Z.max (dig M + ez - 53) (-1074) - ez) as [|k|k] eqn:Ek; [| |lia].
    + (* the sum is representable at the exponent ez = ex *)
      destruct (binary_round_aux_exact false M ez) as [Hexact _]; [lia|].
      rewrite Hexact by (rewrite fexp64; lia).
      rewrite (proj2 (Z.leb_le ez 971)) by lia. split; [done|].
      apply SFleb_finite. right. split; [lia|].
      assert (ex = ez) as Hex by lia. rewrite Hex, Z.sub_diag in Hvx'. simpl in Hvx'. lia.
    + destruct (binary_round_aux_exact false M ez) as [_ Hshift]; [lia|].
      destruct Hshift as (p & e' & -> & He'); [rewrite fexp64; lia|].
      rewrite fexp64, Ek in He'.
      destruct (e' <=? 971); [|done]. split; [done|].
      apply SFleb_finite.
      destruct (Z_lt_le_dec ex e') as [Hlt|Hge]; [by left|]. right.
      destruct He' as [[-> Hp] | ->]; [|lia].
      assert (ex = ez + Z.pos k) as Hex by lia. split; [done|].
      assert (Z.pos mx <= Z.pos M / 2 ^ Z.pos k); [|lia].
      apply Z.div_le_lower_bound; [lia|].
      replace (ex - ez) with (Z.pos k) in Hvx' by lia. lia.
Qed.


Lemma truediv_is_nonneg (a b : Z) : 1 <= b < 2 ^ 63 -> nonneg (Py.truediv a b).
Proof. apply truediv_nonneg. Qed.

Lemma add_nonneg_mono (x w : float) :
  nonneg x -> nonneg w -> nonneg (x + w) /\ (x <=? x + w)%float = true.
Proof.
  unfold nonneg. rewrite FloatAxioms.leb_spec, FloatAxioms.add_spec.
  apply SFadd_nonneg_mono; apply FloatAxioms.Prim2SF_valid.
Qed.

End Binary64Rounding.

(** ** Computations in [M] *)

Lemma bind_Returns {A B} (m : M A) (f : A -> M B) src n (b : B) n' :
  (m ≫= f) src n = Returns b n' ->
  exists a n1, m src n = Returns a n1 /\ f a src n1 = Returns b n'.
Proof.
  unfold mbind, M_bind, bind. destruct (m src n) as [a n1| |]; [|done..].
  intros H. by exists a, n1.
Qed.

Lemma lift_Returns {A} (o : option A) src n (a : A) n' :
  lift o src n = Returns a n' -> o = Some a /\ n' = n.
Proof. destruct o; simpl; unfold ret, raise; [|done]. by intros [= -> ->]. Qed.

Lemma ret_Returns {A} (x : A) src n (a : A) n' :
  ret x src n = Returns a n' -> x = a /\ n' = n.
Proof. unfold ret. by intros [= -> ->]. Qed.

(** ** The step engine *)

Section StepEngine.
Import PostscriptBase.

Lemma first_threshold_bounds roll cumulative_weights : forall idx i,
  first_threshold roll idx cumulative_weights = Some i ->
  idx <= i < idx + Z.of_nat (length cumulative_weights).
Proof.
  induction cumulative_weights as [|threshold rest IH]; intros idx i; simpl.
  - discriminate.
  - destruct (roll <=? threshold)%float.
    + intros [= <-]. lia.
    + intros H. apply IH in H. lia.
Qed.

Lemma select_with_roll_bounds roll cumulative_weights :
  cumulative_weights <> [] ->
  0 <= select_with_roll roll cumulative_weights < Z.of_nat (length cumulative_weights).
Proof.
  intros Hne. unfold select_with_roll.
  destruct (first_threshold roll 0 cumulative_weights) as [i|] eqn:E; simpl.
  - apply first_threshold_bounds in E. lia.
  - destruct cumulative_weights; [done | simpl length; lia].
Qed.

Lemma index_in_range (len : nat) (i : Z) :
  0 <= i < Z.of_nat len -> Py.index len i = Some (Z.to_nat i).
Proof. intros H. unfold Py.index. by rewrite bool_decide_eq_true_2. Qed.

(** What one step does to each entry, for a selected index in range. *)
Lemma hunt_step_at_spec (idx : Z) (values : list Z) (cheese_value : Z) :
  0 <= idx < Z.of_nat (length values) ->
  exists values',
    hunt_step_at idx values cheese_value = Some values' /\
    length values' = length values /\
    forall (j : nat) (v : Z), values !! j = Some v ->
      values' !! j =
        Some (if bool_decide (Z.of_nat j = idx) then Z.min NOTORIETY_CAP (v + cheese_value)
              else if bool_decide (1 < v) then v - 1 else v).
Proof.
  intros Hidx. unfold hunt_step_at.
  rewrite index_in_range by done. simpl.
  destruct (lookup_lt_is_Some_2 values (Z.to_nat idx)) as [v0 Hv0]; [lia|].
  rewrite Hv0. simpl. eexists. split; [reflexivity|]. split.
  - by rewrite length_imap, length_insert.
  - intros j v Hj. rewrite list_lookup_imap.
    destruct (decide (Z.of_nat j = idx)) as [Heq|Hne].
    + assert (j = Z.to_nat idx) as -> by lia.
      rewrite list_lookup_insert_eq by lia. simpl.
      rewrite (bool_decide_eq_false_2 (Z.of_nat (Z.to_nat idx) <> idx)) by lia. simpl.
      rewrite bool_decide_eq_true_2 by lia. congruence.
    + rewrite list_lookup_insert_ne by lia. rewrite Hj. simpl.
      rewrite (bool_decide_eq_true_2 (Z.of_nat j <> idx)) by done. simpl.
      by rewrite (bool_decide_eq_false_2 (Z.of_nat j = idx)) by done.
Qed.

(** The step as the source runs it: one draw, then the update. *)
Lemma apply_hunt_step_spec src n (values : list Z) cheese_value cumulative_weights :
  (0 < length cumulative_weights <= length values)%nat ->
  exists values',
    _apply_hunt_step values cheese_value cumulative_weights src n = Returns values' (S n) /\
    length values' = length values /\
    forall (j : nat) (v : Z), values !! j = Some v ->
      values' !! j =
        Some (if bool_decide (Z.of_nat j = select_with_roll (random_at src n) cumulative_weights)
              then Z.min NOTORIETY_CAP (v + cheese_value)
              else if bool_decide (1 < v) then v - 1 else v).
Proof.
  intros Hlen.
  assert (cumulative_weights <> []) as Hne by (intros ->; simpl in Hlen; lia).
  pose proof (select_with_roll_bounds (random_at src n) _ Hne) as Hsel.
  destruct (hunt_step_at_spec (select_with_roll (random_at src n) cumulative_weights)
              values cheese_value) as (values' & Hstep & Hl & Hv); [lia|].
  exists values'. split; [|done].
  unfold _apply_hunt_step, _select_genre_index, mbind, M_bind, bind, random, ret. simpl.
  by rewrite Hstep.
Qed.

(** One step keeps a vector in [0, 200] there. *)
Lemma apply_hunt_step_in_range src n (values : list Z) cheese_value cumulative_weights :
  (0 < length cumulative_weights <= length values)%nat ->
  0 <= cheese_value ->
  in_range 0 NOTORIETY_CAP values ->
  exists values',
    _apply_hunt_step values cheese_value cumulative_weights src n = Returns values' (S n) /\
    length values' = length values /\
    in_range 0 NOTORIETY_CAP values'.
Proof.
  intros Hlen Hc Hrange.
  destruct (apply_hunt_step_spec src n values cheese_value cumulative_weights Hlen)
    as (values' & Hrun & Hl & Hv).
  exists values'. split; [done|]. split; [done|]. unfold in_range, NOTORIETY_CAP in *.
  rewrite Forall_lookup in Hrange.
  apply Forall_lookup. intros j v' Hj.
  destruct (lookup_lt_is_Some_2 values j) as [v Hvj];
    [rewrite <- Hl; by eapply lookup_lt_Some|].
  specialize (Hrange j v Hvj). specialize (Hv j v Hvj).
  rewrite Hv in Hj. injection Hj as <-.
  repeat case_bool_decide; lia.
Qed.

(** A whole run of [_simulate_sequence] returns, with one draw per token, and
    keeps the vector in [0, 200]. *)
Lemma simulate_sequence_in_range src cumulative_weights (cheese_sequence : list Z) :
  Forall (fun cheese_value => 0 <= cheese_value) cheese_sequence ->
  forall n (base_notoriety : list Z),
    (0 < length cumulative_weights <= length base_notoriety)%nat ->
    in_range 0 NOTORIETY_CAP base_notoriety ->
    exists values,
      _simulate_sequence base_notoriety cheese_sequence cumulative_weights src n
        = Returns (values, all_ready values) (n + length cheese_sequence)%nat /\
      length values = length base_notoriety /\
      in_range 0 NOTORIETY_CAP values.
Proof.
  unfold _simulate_sequence, mbind, M_bind, bind.
  induction 1 as [|cheese_value rest Hc _ IH]; intros n base_notoriety Hlen Hrange; simpl.
  - exists base_notoriety. split; [unfold ret; f_equal; lia | done].
  - unfold mbind, M_bind, bind.
    destruct (apply_hunt_step_in_range src n base_notoriety cheese_value cumulative_weights
                Hlen Hc Hrange) as (values1 & -> & Hl1 & Hr1).
    destruct (IH (S n) values1) as (values & Hrun & Hl & Hr); [lia | done |].
    exists values. split; [|split; [lia | done]].
    destruct (for_each rest _ values1 src (S n)) as [v m| |]; [|done..].
    unfold ret in *. simplify_eq. f_equal. lia.
Qed.

(** C9. One step keeps every entry in [0, 200]; an entry that is at least 1
    stays at least 1, and an entry equal to 0 stays 0 unless its category is
    the selected one. *)
Theorem apply_hunt_step_preserves_range src n (values : list Z) cheese_value cumulative_weights :
  (0 < length cumulative_weights <= length values)%nat ->
  0 <= cheese_value ->
  in_range 0 NOTORIETY_CAP values ->
  exists values',
    _apply_hunt_step values cheese_value cumulative_weights src n = Returns values' (S n) /\
    in_range 0 NOTORIETY_CAP values' /\
    forall (j : nat) (v v' : Z), values !! j = Some v -> values' !! j = Some v' ->
      (1 <= v -> 1 <= v') /\
      (v = 0 -> Z.of_nat j <> select_with_roll (random_at src n) cumulative_weights -> v' = 0).
Proof.
  intros Hlen Hc Hrange.
  destruct (apply_hunt_step_in_range src n values cheese_value cumulative_weights Hlen Hc Hrange)
    as (values' & Hrun & _ & Hrange').
  destruct (apply_hunt_step_spec src n values cheese_value cumulative_weights Hlen)
    as (values'' & Hrun' & _ & Hv).
  rewrite Hrun in Hrun'. injection Hrun' as <-.
  exists values'. split; [done|]. split; [done|].
  unfold in_range, NOTORIETY_CAP in *. rewrite Forall_lookup in Hrange.
  intros j v v' Hvj Hj. specialize (Hv j v Hvj). specialize (Hrange j v Hvj).
  rewrite Hv in Hj. injection Hj as <-.
  split; intros; repeat case_bool_decide; lia.
Qed.

Lemma apply_hunt_step_preserves_range_witness :
  exists values',
    _apply_hunt_step [1; 199; 0; 80; 200] 50 [0.2; 0.4; 0.6; 0.8; 1]%float
      (constant_source 0.3) 0%nat = Returns values' 1%nat /\
    in_range 0 NOTORIETY_CAP values' /\
    forall (j : nat) (v v' : Z),
      [1; 199; 0; 80; 200] !! j = Some v -> values' !! j = Some v' ->
      (1 <= v -> 1 <= v') /\
      (v = 0 ->
       Z.of_nat j <> select_with_roll (random_at (constant_source 0.3) 0%nat)
                       [0.2; 0.4; 0.6; 0.8; 1]%float ->
       v' = 0).
Proof.
  apply (apply_hunt_step_preserves_range (constant_source 0.3) 0%nat [1; 199; 0; 80; 200] 50
           [0.2; 0.4; 0.6; 0.8; 1]%float).
  - simpl. lia.
  - lia.
  - unfold in_range, NOTORIETY_CAP. repeat (constructor; [lia|]). constructor.
Defined.

(** C1, as stated, fails: from the all-zero vector, which lies in [0, 200],
    a 50-point step leaves the four categories that were not selected at 0,
    outside [1, 200]. *)
Lemma apply_hunt_step_floor_counterexample :
  in_range 0 200 [0; 0; 0; 0; 0] /\
  _apply_hunt_step [0; 0; 0; 0; 0] 50 [0.2; 0.4; 0.6; 0.8; 1]%float (constant_source 0.3) 0%nat
    = Returns [0; 50; 0; 0; 0] 1%nat /\
  ~ in_range 1 200 [0; 50; 0; 0; 0].
Proof.
  split; [|split].
  - unfold in_range. repeat (constructor; [lia|]). constructor.
  - vm_compute. reflexivity.
  - unfold in_range. intros H. apply Forall_cons in H as [H _]. lia.
Qed.

(** C1, amended. After one step with a token of magnitude at least 1, every
    entry of a vector in [0, 200] is in [0, 200], and it is in [1, 200] when
    it was at least 1 before the step or belongs to the selected category.  A
    category at 1 that is not selected stays at 1, and the selected category
    at 199 with a 50-point token becomes 200. *)
Theorem apply_hunt_step_floor_and_cap src n (values : list Z) cheese_value cumulative_weights :
  (0 < length cumulative_weights <= length values)%nat ->
  1 <= cheese_value ->
  in_range 0 NOTORIETY_CAP values ->
  exists values',
    _apply_hunt_step values cheese_value cumulative_weights src n = Returns values' (S n) /\
    length values' = length values /\
    forall (j : nat) (v v' : Z), values !! j = Some v -> values' !! j = Some v' ->
      let selected := select_with_roll (random_at src n) cumulative_weights in
      0 <= v' <= 200 /\
      (1 <= v \/ Z.of_nat j = selected -> 1 <= v' <= 200) /\
      (v = 1 -> Z.of_nat j <> selected -> v' = 1) /\
      (v = 199 -> Z.of_nat j = selected -> cheese_value = 50 -> v' = 200).
Proof.
  intros Hlen Hc Hrange.
  destruct (apply_hunt_step_spec src n values cheese_value cumulative_weights Hlen)
    as (values' & Hrun & Hl & Hv).
  exists values'. split; [done|]. split; [done|].
  unfold in_range, NOTORIETY_CAP in *. rewrite Forall_lookup in Hrange.
  intros j v v' Hvj Hj.
  specialize (Hv j v Hvj). specialize (Hrange j v Hvj).
  rewrite Hv in Hj. injection Hj as <-.
  repeat split; intros; repeat case_bool_decide; lia.
Qed.

Lemma apply_hunt_step_floor_and_cap_witness :
  exists values',
    _apply_hunt_step [1; 199; 0; 80; 200] 50 [0.2; 0.4; 0.6; 0.8; 1]%float
      (constant_source 0.3) 0%nat = Returns values' 1%nat /\
    length values' = length [1; 199; 0; 80; 200] /\
    forall (j : nat) (v v' : Z),
      [1; 199; 0; 80; 200] !! j = Some v -> values' !! j = Some v' ->
      let selected := select_with_roll (random_at (constant_source 0.3) 0%nat)
                        [0.2; 0.4; 0.6; 0.8; 1]%float in
      0 <= v' <= 200 /\
      (1 <= v \/ Z.of_nat j = selected -> 1 <= v' <= 200) /\
      (v = 1 -> Z.of_nat j <> selected -> v' = 1) /\
      (v = 199 -> Z.of_nat j = selected -> 50 = 50 -> v' = 200).
Proof.
  apply (apply_hunt_step_floor_and_cap (constant_source 0.3) 0%nat [1; 199; 0; 80; 200] 50
           [0.2; 0.4; 0.6; 0.8; 1]%float).
  - simpl. lia.
  - lia.
  - unfold in_range, NOTORIETY_CAP. repeat (constructor; [lia|]). constructor.
Defined.

End StepEngine.

(** ** The extension policy *)

Section ExtensionPolicy.
Import PostscriptBase DualPostscriptSimulator DualPostscriptPrunedSimulator.

Lemma foldl_max_spec (l : list Z) : forall x,
  (foldl Z.max x l = x \/ foldl Z.max x l ∈ l) /\
  x <= foldl Z.max x l /\
  Forall (fun y => y <= foldl Z.max x l) l.
Proof.
  induction l as [|y l IH]; intros x; simpl.
  - split; [by left|]. split; [lia | constructor].
  - destruct (IH (Z.max x y)) as (Hin & Hle & Hall). split; [|split].
    + destruct Hin as [Heq|Hin]; [|right; by constructor].
      destruct (Z.max_spec x y) as [[_ Hm]|[_ Hm]]; rewrite Hm in *.
      * right. rewrite Heq. constructor.
      * by left.
    + lia.
    + constructor; [lia | done].
Qed.

Lemma max_list_spec (l : list Z) (m : Z) :
  Py.max_list l = Some m -> m ∈ l /\ Forall (fun y => y <= m) l.
Proof.
  destruct l as [|x l]; simpl; [done|]. intros [= <-].
  destruct (foldl_max_spec l x) as (Hin & Hle & Hall). split.
  - destruct Hin as [->|Hin]; [constructor | by constructor].
  - by constructor.
Qed.

Lemma elem_of_top_of (page_counts : list Z) (max_pages : Z) (idx : nat) :
  idx ∈ top_of page_counts max_pages <-> page_counts !! idx = Some max_pages.
Proof.
  unfold top_of, Py.enumerate. rewrite list_elem_of_fmap. split.
  - intros ([i c] & -> & Hin). apply list_elem_of_filter in Hin as [Hc Hin]. simpl in *.
    apply elem_of_lookup_imap in Hin as (j & c' & [= -> ->] & Hj). by subst.
  - intros Hlk. exists (idx, max_pages). split; [done|].
    apply list_elem_of_filter. split; [done|].
    apply elem_of_lookup_imap. by exists idx, max_pages.
Qed.

(** What [config_of_counts] builds, when it builds a dict. *)
Lemma config_of_counts_spec setup_data setup page_counts config :
  config_of_counts setup_data setup page_counts = Some (Some config) ->
  exists max_pages,
    auto_extend_var setup = true /\
    Py.max_list page_counts = Some max_pages /\ 0 < max_pages /\
    top_indices config = top_of page_counts max_pages /\
    threshold_ready config = 80 + m_value setup /\
    threshold_high config = 33 + m_value setup /\
    extra_hunts config = 3%nat /\
    setup_data !! setup_index config = Some setup.
Proof.
  unfold config_of_counts.
  destruct (auto_extend_var setup); simpl; [|done].
  destruct (Py.max_list page_counts) as [max_pages|]; [|done].
  case_bool_decide; [done|].
  destruct (list_find (fun s => s = setup) setup_data) as [[i s]|] eqn:Hfind; simpl; [|done].
  intros [= <-]. simpl. exists max_pages.
  apply list_find_Some in Hfind as (Hi & -> & _).
  repeat split; try done. lia.
Qed.

(** The loop of the special case never reaches its [return False] on indices
    whose page count is positive. *)
Lemma zero_page_block_positive (page_counts values : list Z) (indices : list nat) :
  Forall (fun idx => exists c, page_counts !! idx = Some c /\ 0 < c) indices ->
  zero_page_block page_counts values indices = Some false.
Proof.
  induction 1 as [|idx rest (c & Hc & Hpos) _ IH]; simpl; [done|].
  rewrite Hc. simpl. by rewrite bool_decide_eq_false_2 by lia.
Qed.

Lemma any_below_spec (values : list Z) (threshold : Z) (indices : list nat) :
  Forall (fun idx => (idx < length values)%nat) indices ->
  exists b, any_below values threshold indices = Some b /\
    (b = true <-> exists idx v, idx ∈ indices /\ values !! idx = Some v /\ v < threshold).
Proof.
  induction 1 as [|idx rest Hidx _ IH]; simpl.
  - exists false. split; [done|]. split; [done|]. intros (idx & v & Hin & _). by apply elem_of_nil in Hin.
  - destruct (lookup_lt_is_Some_2 values idx Hidx) as [v Hv]. rewrite Hv. simpl.
    case_bool_decide as Hlt.
    + exists true. split; [done|]. split; [|done]. intros _. exists idx, v. split; [constructor | done].
    + destruct IH as (b & Hb & Hiff). exists b. split; [done|]. rewrite Hiff. split.
      * intros (i & w & Hin & Hw & Hlt'). exists i, w. split; [by constructor | done].
      * intros (i & w & Hin & Hw & Hlt'). apply elem_of_cons in Hin as [->|Hin].
        -- rewrite Hv in Hw. injection Hw as <-. lia.
        -- by exists i, w.
Qed.

Lemma top_of_in_range (page_counts : list Z) (max_pages : Z) (values : list Z) :
  (length page_counts <= length values)%nat ->
  Forall (fun idx => (idx < length values)%nat) (top_of page_counts max_pages).
Proof.
  intros Hlen. apply Forall_forall. intros idx Hin.
  apply elem_of_top_of, lookup_lt_Some in Hin. lia.
Qed.

Lemma top_of_positive (page_counts : list Z) (max_pages : Z) :
  0 < max_pages ->
  Forall (fun idx => exists c, page_counts !! idx = Some c /\ 0 < c) (top_of page_counts max_pages).
Proof.
  intros Hpos. apply Forall_forall. intros idx Hin.
  apply elem_of_top_of in Hin. by exists max_pages.
Qed.

Lemma trigger_with_counts_reduces page_counts (values : list Z) config max_pages :
  0 < max_pages ->
  top_indices config = top_of page_counts max_pages ->
  zero_page_block page_counts values (top_indices config) = Some false /\
  trigger_with_counts (Some page_counts) values config =
    any_below values (threshold_ready config) (top_indices config).
Proof.
  intros Hpos Htop.
  assert (zero_page_block page_counts values (top_indices config) = Some false) as Hblock.
  { rewrite Htop. by apply zero_page_block_positive, top_of_positive. }
  split; [done|]. unfold trigger_with_counts.
  case_bool_decide; simpl; [by rewrite Hblock | done].
Qed.

(** C5. With auto-extend on and a positive page count somewhere, the first
    setup's trigger is raised exactly when some top category (one whose page
    count is the maximum) has a value strictly below 80 + m; values equal to
    80 + m raise nothing. *)
Theorem first_stage_extension_trigger setup_data setup (values : list Z) :
  setup_data !! 0%nat = Some setup ->
  auto_extend_var setup = true ->
  (exists c, c ∈ page_vars setup /\ 0 < c) ->
  (length (page_vars setup) <= length values)%nat ->
  exists config max_pages triggered,
    _extension_config setup_data setup = Some (Some config) /\
    Py.max_list (page_vars setup) = Some max_pages /\
    (forall idx, idx ∈ top_indices config <-> page_vars setup !! idx = Some max_pages) /\
    _should_trigger_extension setup_data values config = Some triggered /\
    (triggered = true <->
       exists idx v, idx ∈ top_indices config /\ values !! idx = Some v /\
                     v < 80 + m_value setup) /\
    ((forall idx v, idx ∈ top_indices config -> values !! idx = Some v ->
                    v = 80 + m_value setup) ->
     triggered = false).
Proof.
  intros Hfirst Hauto (c & Hc & Hpos) Hlen.
  destruct (Py.max_list (page_vars setup)) as [max_pages|] eqn:Hmax;
    [|destruct (page_vars setup); [by apply elem_of_nil in Hc | done]].
  destruct (max_list_spec _ _ Hmax) as [_ Hall].
  rewrite Forall_forall in Hall. specialize (Hall c Hc).
  set (config := {| top_indices := top_of (page_vars setup) max_pages;
                    threshold_ready := 80 + m_value setup;
                    threshold_high := 33 + m_value setup;
                    extra_hunts := 3;
                    setup_index := 0 |}).
  assert (_extension_config setup_data setup = Some (Some config)) as Hconfig.
  { unfold _extension_config, config_of_counts. rewrite Hauto, Hmax. simpl.
    rewrite bool_decide_eq_false_2 by lia.
    destruct setup_data as [|s0 rest]; [done|]. injection Hfirst as ->.
    simpl. by rewrite decide_True. }
  destruct (any_below_spec values (80 + m_value setup) (top_indices config)) as (b & Hb & Hiff).
  { by apply top_of_in_range. }
  exists config, max_pages, b. split; [done|]. split; [done|].
  split; [intros idx; apply elem_of_top_of|].
  split; [by unfold _should_trigger_extension, trigger_with_counts|].
  split; [done|].
  intros Heq. destruct b; [|done].
  destruct Hiff as [Hiff _]. destruct (Hiff eq_refl) as (idx & v & Hin & Hv & Hlt).
  specialize (Heq idx v Hin Hv). lia.
Qed.

Lemma any_below_Some (values : list Z) (threshold : Z) (indices : list nat) (b : bool) :
  any_below values threshold indices = Some b ->
  (b = true <-> exists idx v, idx ∈ indices /\ values !! idx = Some v /\ v < threshold).
Proof.
  revert b. induction indices as [|idx rest IH]; intros b; simpl.
  - intros [= <-]. split; [done|]. intros (idx & v & Hin & _). by apply elem_of_nil in Hin.
  - destruct (values !! idx) as [v|] eqn:Hv; simpl; [|done].
    case_bool_decide as Hlt.
    + intros [= <-]. split; [|done]. intros _. exists idx, v. split; [constructor | done].
    + intros Hrest. rewrite (IH b Hrest). split.
      * intros (i & w & Hin & Hw & Hlt'). exists i, w. split; [by constructor | done].
      * intros (i & w & Hin & Hw & Hlt'). apply elem_of_cons in Hin as [->|Hin].
        -- rewrite Hv in Hw. injection Hw as <-. lia.
        -- by exists i, w.
Qed.

(** The same decision, read off the flag [_execute_setup] returns for the
    first setup: the run was extended exactly when, after the hunts of the
    sequence, some top category was strictly below 80 + m. *)
Lemma execute_setup_first_extended setup_data setup start_values sequences cumulative_weights
    src n final ready extended n' :
  setup_data !! 0%nat = Some setup ->
  auto_extend_var setup = true ->
  (exists c, c ∈ page_vars setup /\ 0 < c) ->
  _execute_setup setup_data start_values 0 sequences cumulative_weights src n
    = Returns (final, ready, extended) n' ->
  exists sequence cumulative values ready0 n1 max_pages,
    sequences !! 0%nat = Some sequence /\
    cumulative_weights !! 0%nat = Some cumulative /\
    _simulate_sequence start_values sequence cumulative src n = Returns (values, ready0) n1 /\
    Py.max_list (page_vars setup) = Some max_pages /\
    (extended = true <->
       exists idx v, page_vars setup !! idx = Some max_pages /\ values !! idx = Some v /\
                     v < 80 + m_value setup).
Proof.
  intros Hfirst Hauto (c & Hc & Hpos). unfold _execute_setup.
  intros (sequence & n0 & [Hseq ->]%lift_Returns & Hrest)%bind_Returns.
  apply bind_Returns in Hrest as (cumulative & n0' & [Hcum ->]%lift_Returns & Hrest).
  apply bind_Returns in Hrest as ([values ready0] & n1 & Hsim & Hrest).
  apply bind_Returns in Hrest as (setup' & n2 & [Hsetup ->]%lift_Returns & Hrest).
  rewrite Hfirst in Hsetup. injection Hsetup as <-.
  apply bind_Returns in Hrest as (config & n3 & [Hconfig ->]%lift_Returns & Hrest).
  apply bind_Returns in Hrest as ([values' extended'] & n4 & Hbranch & Hret).
  apply ret_Returns in Hret as [[= -> _ ->] ->].
  destruct (Py.max_list (page_vars setup)) as [max_pages|] eqn:Hmax;
    [|destruct (page_vars setup); [by apply elem_of_nil in Hc | done]].
  destruct (max_list_spec _ _ Hmax) as [_ Hall].
  rewrite Forall_forall in Hall. specialize (Hall c Hc).
  unfold _extension_config, config_of_counts in Hconfig. rewrite Hauto, Hmax in Hconfig.
  simpl in Hconfig. rewrite bool_decide_eq_false_2 in Hconfig by lia.
  destruct setup_data as [|s0 rest]; [done|]. injection Hfirst as ->.
  simpl in Hconfig. rewrite decide_True in Hconfig by done. simpl in Hconfig.
  injection Hconfig as <-.
  exists sequence, cumulative, values, ready0, n1, max_pages.
  do 4 (split; [done|]).
  apply bind_Returns in Hbranch as (trigger & n5 & [Htrigger ->]%lift_Returns & Hbranch).
  unfold _should_trigger_extension, trigger_with_counts in Htrigger. simpl in Htrigger.
  apply any_below_Some in Htrigger.
  assert (extended = trigger) as ->.
  { destruct trigger.
    - apply bind_Returns in Hbranch as (? & ? & _ & Hret). by apply ret_Returns in Hret as [[= _ ->] _].
    - by apply ret_Returns in Hbranch as [[= _ ->] _]. }
  rewrite Htrigger. split; intros (idx & v & Hin & Hv & Hlt); exists idx, v;
    (split; [by apply elem_of_top_of | done]).
Qed.

Lemma first_stage_extension_trigger_witness :
  exists config max_pages triggered,
    _extension_config sample_setups sample_first = Some (Some config) /\
    Py.max_list (page_vars sample_first) = Some max_pages /\
    (forall idx, idx ∈ top_indices config <-> page_vars sample_first !! idx = Some max_pages) /\
    _should_trigger_extension sample_setups [100; 90; 89; 10; 80] config = Some triggered /\
    (triggered = true <->
       exists idx v, idx ∈ top_indices config /\ [100; 90; 89; 10; 80] !! idx = Some v /\
                     v < 80 + m_value sample_first) /\
    ((forall idx v, idx ∈ top_indices config -> [100; 90; 89; 10; 80] !! idx = Some v ->
                    v = 80 + m_value sample_first) ->
     triggered = false).
Proof.
  apply (first_stage_extension_trigger sample_setups sample_first [100; 90; 89; 10; 80]).
  - reflexivity.
  - reflexivity.
  - exists 5. split; [|lia]. apply (list_elem_of_lookup_2 _ 1%nat). reflexivity.
  - simpl. lia.
Defined.

(** C10. A config is built only when the maximum page count is positive, and
    its top indices are exactly the indices holding that maximum; so the
    special case of the second setup (page count 0 and value below 83) never
    reaches its [return False], in the plain and in the pruned simulator, and
    the trigger is "some top category is strictly below 80 + m". *)
Theorem zero_page_special_case_unreachable setup_data setup (custom_counts values : list Z)
    config custom_config :
  _extension_config setup_data setup = Some (Some config) ->
  _extension_config_with_counts setup_data setup custom_counts = Some (Some custom_config) ->
  (exists max_pages,
     0 < max_pages /\ Py.max_list (page_vars setup) = Some max_pages /\
     (forall idx, idx ∈ top_indices config <-> page_vars setup !! idx = Some max_pages) /\
     (setup_index config = 1%nat ->
        page_vars <$> setup_data !! 1%nat = Some (page_vars setup) /\
        zero_page_block (page_vars setup) values (top_indices config) = Some false) /\
     _should_trigger_extension setup_data values config =
       any_below values (80 + m_value setup) (top_indices config)) /\
  (exists max_pages,
     0 < max_pages /\ Py.max_list custom_counts = Some max_pages /\
     (forall idx, idx ∈ top_indices custom_config <-> custom_counts !! idx = Some max_pages) /\
     zero_page_block custom_counts values (top_indices custom_config) = Some false /\
     _should_trigger_extension_with_counts values custom_config custom_counts =
       any_below values (80 + m_value setup) (top_indices custom_config)).
Proof.
  intros Hconfig Hcustom. split.
  - apply config_of_counts_spec in Hconfig
      as (max_pages & _ & Hmax & Hpos & Htop & Hready & _ & _ & Hidx).
    destruct (trigger_with_counts_reduces (page_vars setup) values config max_pages Hpos Htop)
      as [Hblock Htrigger].
    exists max_pages. split; [done|]. split; [done|].
    split; [intros idx; rewrite Htop; apply elem_of_top_of|].
    split.
    + intros Hone. rewrite Hone in Hidx. by rewrite Hidx.
    + rewrite <- Hready. unfold _should_trigger_extension.
      unfold trigger_with_counts in *. case_bool_decide as Hone; simpl in *; [|done].
      rewrite Hone in Hidx. by rewrite Hidx.
  - apply config_of_counts_spec in Hcustom
      as (max_pages & _ & Hmax & Hpos & Htop & Hready & _ & _ & _).
    destruct (trigger_with_counts_reduces custom_counts values custom_config max_pages Hpos Htop)
      as [Hblock Htrigger].
    exists max_pages. split; [done|]. split; [done|].
    split; [intros idx; rewrite Htop; apply elem_of_top_of|].
    split; [done|]. by rewrite <- Hready.
Qed.

Lemma zero_page_special_case_unreachable_witness :
  let config := {| top_indices := [3; 4]%nat; threshold_ready := 80; threshold_high := 33;
                   extra_hunts := 3; setup_index := 1 |} in
  let custom_config := {| top_indices := [3]%nat; threshold_ready := 80; threshold_high := 33;
                          extra_hunts := 3; setup_index := 1 |} in
  (exists max_pages,
     0 < max_pages /\ Py.max_list (page_vars sample_second) = Some max_pages /\
     (forall idx, idx ∈ top_indices config <-> page_vars sample_second !! idx = Some max_pages) /\
     (setup_index config = 1%nat ->
        page_vars <$> sample_setups !! 1%nat = Some (page_vars sample_second) /\
        zero_page_block (page_vars sample_second) [100; 70; 95; 82; 94] (top_indices config)
          = Some false) /\
     _should_trigger_extension sample_setups [100; 70; 95; 82; 94] config =
       any_below [100; 70; 95; 82; 94] (80 + m_value sample_second) (top_indices config)) /\
  (exists max_pages,
     0 < max_pages /\ Py.max_list [0; 2; 0; 7; 0] = Some max_pages /\
     (forall idx, idx ∈ top_indices custom_config <-> [0; 2; 0; 7; 0] !! idx = Some max_pages) /\
     zero_page_block [0; 2; 0; 7; 0] [100; 70; 95; 82; 94] (top_indices custom_config)
       = Some false /\
     _should_trigger_extension_with_counts [100; 70; 95; 82; 94] custom_config [0; 2; 0; 7; 0] =
       any_below [100; 70; 95; 82; 94] (80 + m_value sample_second)
         (top_indices custom_config)).
Proof.
  apply (zero_page_special_case_unreachable sample_setups sample_second [0; 2; 0; 7; 0]
           [100; 70; 95; 82; 94]); reflexivity.
Defined.

Lemma prune_from_spec (counts notoriety_values : list Z) (threshold : Z) : forall idx,
  (idx + length counts <= length notoriety_values)%nat ->
  exists pruned,
    prune_from idx counts notoriety_values threshold = Some pruned /\
    length pruned = length counts /\
    forall (i : nat) (count v : Z),
      counts !! i = Some count -> notoriety_values !! (idx + i)%nat = Some v ->
      pruned !! i = Some (if bool_decide (threshold < v) then 0 else count).
Proof.
  induction counts as [|count rest IH]; intros idx Hlen; simpl in *.
  - exists []. split; [done|]. split; [done|]. intros i c v Hc. done.
  - destruct (lookup_lt_is_Some_2 notoriety_values idx) as [v0 Hv0]; [lia|].
    rewrite Hv0. simpl.
    destruct (IH (S idx)) as (pruned & Hrun & Hl & Hspec); [lia|].
    rewrite Hrun. simpl. eexists. split; [reflexivity|]. split; [simpl; lia|].
    intros [|i] c v Hc Hv; simpl in *.
    + injection Hc as <-. rewrite Nat.add_0_r in Hv. rewrite Hv0 in Hv. by injection Hv as <-.
    + apply (Hspec i c v Hc). by rewrite <- Nat.add_succ_comm in Hv.
Qed.

(** C6. In the pruned variant the page count of a category becomes 0 for the
    second setup exactly when its value after the first setup is strictly
    above the threshold, 93 when the second setup's extend flag is set and 90
    otherwise; at the threshold the count is kept, one above it is dropped. *)
Theorem pruned_page_counts_threshold setup_data second (notoriety_values : list Z) :
  setup_data !! 1%nat = Some second ->
  (length (page_vars second) <= length notoriety_values)%nat ->
  let threshold := if extend_var second then 93 else 90 in
  exists pruned,
    _second_setup_prune_threshold setup_data = Some threshold /\
    _build_pruned_page_counts setup_data notoriety_values = Some pruned /\
    length pruned = length (page_vars second) /\
    forall (idx : nat) (count v : Z),
      page_vars second !! idx = Some count -> notoriety_values !! idx = Some v ->
      (threshold < v -> pruned !! idx = Some 0) /\
      (v <= threshold -> pruned !! idx = Some count) /\
      (v = threshold -> pruned !! idx = Some count) /\
      (v = threshold + 1 -> pruned !! idx = Some 0).
Proof.
  intros Hsecond Hlen threshold.
  destruct (prune_from_spec (page_vars second) notoriety_values threshold 0)
    as (pruned & Hrun & Hl & Hspec); [simpl; lia|].
  exists pruned.
  assert (_second_setup_prune_threshold setup_data = Some threshold) as Hthr.
  { unfold _second_setup_prune_threshold. by rewrite Hsecond. }
  split; [done|]. split.
  { unfold _build_pruned_page_counts. rewrite Hsecond. simpl. by rewrite Hthr. }
  split; [done|].
  intros idx count v Hc Hv. specialize (Hspec idx count v Hc Hv). rewrite Hspec.
  repeat split; intros; case_bool_decide; (done || lia).
Qed.

Lemma pruned_page_counts_threshold_witness :
  let threshold := if extend_var sample_second then 93 else 90 in
  exists pruned,
    _second_setup_prune_threshold sample_setups = Some threshold /\
    _build_pruned_page_counts sample_setups [100; 70; 95; 93; 94] = Some pruned /\
    length pruned = length (page_vars sample_second) /\
    forall (idx : nat) (count v : Z),
      page_vars sample_second !! idx = Some count -> [100; 70; 95; 93; 94] !! idx = Some v ->
      (threshold < v -> pruned !! idx = Some 0) /\
      (v <= threshold -> pruned !! idx = Some count) /\
      (v = threshold -> pruned !! idx = Some count) /\
      (v = threshold + 1 -> pruned !! idx = Some 0).
Proof.
  apply (pruned_page_counts_threshold sample_setups sample_second [100; 70; 95; 93; 94]).
  - reflexivity.
  - simpl. lia.
Defined.

Lemma extension_cheese_spec (values : list Z) config switch cheese_value switch' :
  extension_cheese values config switch = Some (cheese_value, switch') ->
  (switch = true -> cheese_value = 50 /\ switch' = true) /\
  (switch = false ->
     (cheese_value = 125 /\ switch' = false /\
      any_below values (threshold_high config) (top_indices config) = Some true) \/
     (cheese_value = 50 /\ switch' = true /\
      any_below values (threshold_high config) (top_indices config) = Some false)).
Proof.
  unfold extension_cheese. destruct switch.
  - intros [= <- <-]. by split.
  - destruct (any_below _ _ _) as [[|]|]; simpl; [intros [= <- <-]..|done]; split; auto; done.
Qed.

(** The log of the loop: the 125-point hunts form a prefix, each made while
    some top category was below the threshold; the hunt after the prefix saw
    none below it, and from there on every hunt is a 50-point one. *)
Lemma extension_loop_log cumulative_weights config src : forall hunts values switch n final used n',
  extension_loop hunts values switch cumulative_weights config src n = Returns (final, used) n' ->
  length used = hunts /\
  exists k, (k <= hunts)%nat /\ (switch = true -> k = 0%nat) /\
    (forall i e, used !! i = Some e -> (i < k)%nat ->
       e.2 = 125 /\ any_below e.1 (threshold_high config) (top_indices config) = Some true) /\
    (forall i e, used !! i = Some e -> (k <= i)%nat -> e.2 = 50) /\
    (switch = false -> forall e, used !! k = Some e ->
       any_below e.1 (threshold_high config) (top_indices config) = Some false).
Proof.
  induction hunts as [|hunts IH]; intros values switch n final used n'; simpl.
  - intros [[= <- <-] _]%ret_Returns. split; [done|]. exists 0%nat. by repeat split.
  - intros ([cheese_value switch'] & n1 & Hchoice & Hrest)%bind_Returns.
    apply lift_Returns in Hchoice as [Hchoice ->].
    apply bind_Returns in Hrest as (values' & n2 & Hstep & Hrest).
    apply bind_Returns in Hrest as ([final' used'] & n3 & Hloop & Hret).
    apply ret_Returns in Hret as [[= <- <-] ->].
    apply IH in Hloop as (Hlen & k & Hk & Hsw & Hhigh & Hmid & Hfirst).
    split; [simpl; lia|].
    destruct (extension_cheese_spec _ _ _ _ _ Hchoice) as [Hon Hoff].
    destruct switch.
    + destruct (Hon eq_refl) as [-> ->]. specialize (Hsw eq_refl) as ->.
      exists 0%nat. split; [lia|]. split; [done|]. split; [intros; lia|]. split; [|done].
      intros [|i] e He _; simpl in He; [by injection He as <- | eapply Hmid; [done | lia]].
    + destruct (Hoff eq_refl) as [(-> & -> & Hbelow)|(-> & -> & Hbelow)].
      * exists (S k). split; [lia|]. split; [done|]. split; [|split].
        -- intros [|i] e He Hi; simpl in He; [by injection He as <-|]. apply (Hhigh i e He). lia.
        -- intros [|i] e He Hi; simpl in He; [lia|]. apply (Hmid i e He). lia.
        -- intros _ e He. simpl in He. by apply Hfirst.
      * specialize (Hsw eq_refl) as ->.
        exists 0%nat. split; [lia|]. split; [done|]. split; [intros; lia|]. split.
        -- intros [|i] e He _; simpl in He; [by injection He as <- | eapply Hmid; [done | lia]].
        -- intros _ e He. simpl in He. by injection He as <-.
Qed.

(** C7. The three extra hunts of an extension switch one way: a hunt uses the
    125-point cheese while some top category is below 33 + m, the first hunt
    that finds none below it uses the 50-point cheese, and so does every hunt
    after it. *)
Theorem extension_one_way_switch setup_data setup page_counts (values : list Z)
    cumulative_weights config src n final used n' :
  config_of_counts setup_data setup page_counts = Some (Some config) ->
  extension_loop (extra_hunts config) values false cumulative_weights config src n
    = Returns (final, used) n' ->
  _apply_extension values cumulative_weights config src n = Returns final n' /\
  length used = 3%nat /\
  (exists k, (k <= 3)%nat /\
     (forall i e, used !! i = Some e -> (i < k)%nat ->
        e.2 = 125 /\ any_below e.1 (33 + m_value setup) (top_indices config) = Some true) /\
     (forall e, used !! k = Some e ->
        any_below e.1 (33 + m_value setup) (top_indices config) = Some false) /\
     (forall i e, used !! i = Some e -> (k <= i)%nat -> e.2 = 50)) /\
  (forall i j ei ej, used !! i = Some ei -> used !! j = Some ej -> (i <= j)%nat ->
     ei.2 = 50 -> ej.2 = 50).
Proof.
  intros Hconfig Hloop.
  apply config_of_counts_spec in Hconfig as (_ & _ & _ & _ & _ & _ & Hhigh' & Hhunts & _).
  pose proof (extension_loop_log _ _ _ _ _ _ _ _ _ _ Hloop)
    as (Hlen & k & Hk & _ & Hhigh & Hmid & Hfirst).
  rewrite Hhigh' in Hhigh, Hfirst. rewrite Hhunts in Hlen, Hk.
  split; [|split; [done|split]].
  - unfold _apply_extension, mbind, M_bind, bind. by rewrite Hloop.
  - exists k. split; [done|]. split; [done|]. split; [by apply Hfirst | done].
  - intros i j ei ej Hi Hj Hij Hfifty.
    destruct (decide (i < k)%nat) as [Hlt|Hge].
    + destruct (Hhigh i ei Hi Hlt) as [H125 _]. lia.
    + apply (Hmid j ej Hj). lia.
Qed.

Lemma extension_one_way_switch_witness :
  let config := {| top_indices := [1; 2]%nat; threshold_ready := 90; threshold_high := 43;
                   extra_hunts := 3; setup_index := 0 |} in
  let used := [([0; 20; 50; 0; 0], 125); ([0; 145; 49; 0; 0], 50); ([0; 195; 48; 0; 0], 50)] in
  _apply_extension [0; 20; 50; 0; 0] sample_table config (constant_source 0.3) 0%nat
    = Returns [0; 200; 47; 0; 0] 3%nat /\
  length used = 3%nat /\
  (exists k, (k <= 3)%nat /\
     (forall i e, used !! i = Some e -> (i < k)%nat ->
        e.2 = 125 /\
        any_below e.1 (33 + m_value sample_first) (top_indices config) = Some true) /\
     (forall e, used !! k = Some e ->
        any_below e.1 (33 + m_value sample_first) (top_indices config) = Some false) /\
     (forall i e, used !! i = Some e -> (k <= i)%nat -> e.2 = 50)) /\
  (forall i j ei ej, used !! i = Some ei -> used !! j = Some ej -> (i <= j)%nat ->
     ei.2 = 50 -> ej.2 = 50).
Proof.
  apply (extension_one_way_switch sample_setups sample_first (page_vars sample_first)
           [0; 20; 50; 0; 0] sample_table
           {| top_indices := [1; 2]%nat; threshold_ready := 90; threshold_high := 43;
              extra_hunts := 3; setup_index := 0 |} (constant_source 0.3) 0%nat).
  - reflexivity.
  - vm_compute. reflexivity.
Defined.

End ExtensionPolicy.

(** ** The weighted selector *)

Section WeightedSelector.
Import PostscriptBase.

Lemma all_on_table (A : genre) :
  _prepare_weight_cumulative (all_on A) =
    replicate (Z.to_nat (genre_index A)) 0%float ++
    replicate (5 - Z.to_nat (genre_index A)) 1%float.
Proof. by destruct A. Qed.

Lemma first_threshold_skip_zeros roll (k : nat) rest : forall idx,
  (roll <=? 0)%float = false ->
  first_threshold roll idx (replicate k 0%float ++ rest) =
    first_threshold roll (idx + Z.of_nat k) rest.
Proof.
  induction k as [|k IH]; intros idx Hroll; simpl.
  - f_equal. lia.
  - rewrite Hroll, IH by done. f_equal. lia.
Qed.

(** C3, as stated, fails at the sample 0.0, which lies in [0, 1): with all
    the weight on Adventure (index 1) the table starts with the threshold
    0.0 of Romance, and [0.0 <= 0.0] selects index 0. *)
Lemma select_all_on_counterexample :
  (0 <=? 0)%float = true /\ (0 <? 1)%float = true /\
  _prepare_weight_cumulative (all_on Adventure) = [0; 1; 1; 1; 1]%float /\
  _select_genre_index (_prepare_weight_cumulative (all_on Adventure)) (constant_source 0) 0%nat
    = Returns 0 1%nat /\
  genre_index Adventure = 1.
Proof. repeat split; vm_compute; reflexivity. Qed.

(** C3, amended. With all the weight on category A, every sample strictly
    between 0 and 1 selects A; the sample 0.0 selects A when A is the first
    category. *)
Theorem select_all_on (A : genre) src n :
  let roll := random_at src n in
  (roll <? 1)%float = true ->
  (0 <? roll)%float = true \/ (roll = 0%float /\ A = Romance) ->
  select_with_roll roll (_prepare_weight_cumulative (all_on A)) = genre_index A /\
  _select_genre_index (_prepare_weight_cumulative (all_on A)) src n
    = Returns (genre_index A) (S n).
Proof.
  intros roll Hlt Hpos.
  assert (select_with_roll roll (_prepare_weight_cumulative (all_on A)) = genre_index A) as Hsel.
  { destruct Hpos as [Hpos|[Hzero ->]].
    - rewrite all_on_table. unfold select_with_roll.
      rewrite first_threshold_skip_zeros by by apply zero_ltb_not_leb.
      apply ltb_leb in Hlt. destruct A; simpl; by rewrite Hlt.
    - rewrite Hzero. reflexivity. }
  split; [done|].
  unfold _select_genre_index, mbind, M_bind, bind, random, ret. fold roll. by rewrite Hsel.
Qed.

Lemma select_all_on_witness :
  select_with_roll (random_at (constant_source 0.3) 0%nat)
    (_prepare_weight_cumulative (all_on Tragedy)) = genre_index Tragedy /\
  _select_genre_index (_prepare_weight_cumulative (all_on Tragedy)) (constant_source 0.3) 0%nat
    = Returns (genre_index Tragedy) 1%nat.
Proof.
  apply (select_all_on Tragedy (constant_source 0.3) 0%nat).
  - reflexivity.
  - left. reflexivity.
Defined.

Lemma nonneg_zero : nonneg 0.
Proof. exact I. Qed.

(** The table of any non-negative weights: the running sums grow up to the
    entry before the last, and the last entry is 1.0. *)
Lemma prepare_weight_cumulative_shape (weights : genre -> float) :
  (forall g, nonneg (weights g)) ->
  let table := _prepare_weight_cumulative weights in
  length table = length GENRES /\
  last table = Some 1%float /\
  non_decreasing (take 4 table) = true /\
  (non_decreasing table = true <-> exists s, table !! 3%nat = Some s /\ (s <=? 1)%float = true).
Proof.
  intros Hw table. subst table. unfold _prepare_weight_cumulative. simpl.
  destruct (add_nonneg_mono 0 (weights Romance) nonneg_zero (Hw _)) as [H1 _].
  destruct (add_nonneg_mono _ (weights Adventure) H1 (Hw _)) as [H2 L2].
  destruct (add_nonneg_mono _ (weights Comedy) H2 (Hw _)) as [H3 L3].
  destruct (add_nonneg_mono _ (weights Tragedy) H3 (Hw _)) as [H4 L4].
  rewrite L2, L3, L4. simpl. repeat split; try done.
  - rewrite andb_true_r. intros Hle. by eexists.
  - rewrite andb_true_r. by intros (s & [= <-] & Hle).
Qed.

Lemma weights_of_page_counts_nonneg (page_counts : list Z) :
  length page_counts = length GENRES ->
  Forall (fun c => 0 <= c) page_counts ->
  Py.sum page_counts < 2 ^ 63 ->
  exists weights,
    weights_of_page_counts page_counts = Some weights /\ forall g, nonneg (weights g).
Proof.
  intros Hlen Hpos Hsum.
  destruct page_counts as [|a [|b [|c [|d [|e [|]]]]]]; try done.
  apply Forall_cons in Hpos as [Ha Hpos]. apply Forall_cons in Hpos as [Hb Hpos].
  apply Forall_cons in Hpos as [Hc Hpos]. apply Forall_cons in Hpos as [Hd Hpos].
  apply Forall_cons in Hpos as [He _].
  unfold weights_of_page_counts. simpl mapM. cbn [mbind mret option_bind option_ret].
  unfold Py.sum in *. simpl foldl in *.
  case_bool_decide as Htotal.
  - eexists. split; [reflexivity|]. intros g. apply truediv_is_nonneg. simpl. lia.
  - unfold genre_dict. simpl. eexists. split; [reflexivity|].
    intros []; apply truediv_is_nonneg; lia.
Qed.

(** C2, as stated, fails in binary64: the page counts (2, 4, 3, 1, 0) give
    the weights 0.2, 0.4, 0.3, 0.1 and 0.0, whose running sum reaches
    1.0000000000000002 at the fourth entry, above the forced last entry 1.0. *)
Lemma cumulative_table_counterexample :
  CheeseAllocator._prepare_weight_cumulative [2; 4; 3; 1; 0] =
    Some [0.2; 0.6000000000000001; 0.9000000000000001; 1.0000000000000002; 1]%float /\
  (1.0000000000000002 <=? 1)%float = false /\
  non_decreasing [0.2; 0.6000000000000001; 0.9000000000000001; 1.0000000000000002; 1]%float
    = false.
Proof. repeat split; vm_compute; reflexivity. Qed.

(** C2, amended. For non-negative page counts, one per genre, the table has
    one entry per genre, its last entry is exactly 1.0, and its entries before
    the last are non-decreasing; the whole table is non-decreasing exactly
    when the running sum before the last entry does not exceed 1.0. *)
Theorem cumulative_table_shape (genre_page_vars : list Z) :
  length genre_page_vars = length GENRES ->
  Forall (fun c => 0 <= c) genre_page_vars ->
  Py.sum genre_page_vars < 2 ^ 53 ->
  exists table,
    CheeseAllocator._prepare_weight_cumulative genre_page_vars = Some table /\
    length table = length GENRES /\
    last table = Some 1%float /\
    non_decreasing (take 4 table) = true /\
    (non_decreasing table = true <->
       exists s, table !! 3%nat = Some s /\ (s <=? 1)%float = true).
Proof.
  intros Hlen Hpos Hsum.
  destruct (weights_of_page_counts_nonneg genre_page_vars Hlen Hpos) as (weights & Hw & Hnonneg);
    [lia|].
  exists (_prepare_weight_cumulative weights). split.
  - unfold CheeseAllocator._prepare_weight_cumulative, CheeseAllocator.get_genre_weight_distribution.
    by rewrite Hw.
  - by apply prepare_weight_cumulative_shape.
Qed.

Lemma cumulative_table_shape_witness :
  exists table,
    CheeseAllocator._prepare_weight_cumulative [3; 5; 5; 0; 1] = Some table /\
    length table = length GENRES /\
    last table = Some 1%float /\
    non_decreasing (take 4 table) = true /\
    (non_decreasing table = true <->
       exists s, table !! 3%nat = Some s /\ (s <=? 1)%float = true).
Proof.
  apply (cumulative_table_shape [3; 5; 5; 0; 1]).
  - reflexivity.
  - repeat (constructor; [lia|]). constructor.
  - reflexivity.
Defined.

End WeightedSelector.

(** ** Termination of the optimizer *)

Section OptimizerTermination.
Import PostscriptBase PostscriptOptimizer.

Lemma zero_times_floored (x : float) : Py.fmax 0 (0 * x)%float = 0%float.
Proof.
  unfold Py.fmax.
  assert ((0 <? 0 * x)%float = false) as ->; [|done].
  rewrite FloatAxioms.ltb_spec, FloatAxioms.mul_spec. unfold SFltb.
  change (Prim2SF 0) with (S754_zero false).
  by destruct (Prim2SF x) as [[]|[]| |[] ? ?].
Qed.

Lemma fsum_all_zero (counts : list float) : all_zero counts -> Py.fsum counts = 0%float.
Proof.
  unfold Py.fsum. induction 1 as [|c rest -> _ IH]; simpl; [done|].
  by change (0 + 0)%float with 0%float.
Qed.

Lemma all_zero_lookup (counts : list float) (idx : nat) (c : float) :
  all_zero counts -> counts !! idx = Some c -> c = 0%float.
Proof. intros Hz Hc. by eapply (Forall_lookup_1 _ _ _ _ Hz Hc). Qed.

Lemma all_zero_insert (counts : list float) (idx : nat) :
  all_zero counts -> <[idx := 0%float]> counts = counts.
Proof.
  intros Hz. destruct (counts !! idx) as [c|] eqn:Hc.
  - apply list_insert_id. by rewrite Hc, (all_zero_lookup _ _ _ Hz Hc).
  - apply list_insert_ge. by apply lookup_ge_None.
Qed.

(** From an all-zero vector every randomized candidate is all-zero again:
    each perturbed entry is [max(0.0, 0 * (1 + delta))]. *)
Lemma perturb_on_zeros base_counts dial_range direction_bias src idx n :
  all_zero base_counts ->
  (idx < length base_counts)%nat ->
  perturb base_counts dial_range direction_bias base_counts idx src n
    = Returns base_counts (S n).
Proof.
  intros Hz Hidx. unfold perturb, uniform, mbind, M_bind, bind, random, ret.
  destruct (lookup_lt_is_Some_2 base_counts idx Hidx) as [c Hc].
  rewrite Hc. simpl. rewrite (all_zero_lookup _ _ _ Hz Hc).
  by rewrite zero_times_floored, all_zero_insert.
Qed.

Lemma perturb_all_on_zeros base_counts dial_range direction_bias src (selected : list nat) :
  all_zero base_counts ->
  forall n,
    (exists n', for_each selected (perturb base_counts dial_range direction_bias) base_counts src n
                = Returns base_counts n') \/
    (for_each selected (perturb base_counts dial_range direction_bias) base_counts src n = Raises /\
     ~ Forall (fun idx => (idx < length base_counts)%nat) selected).
Proof.
  intros Hz. induction selected as [|idx rest IH]; intros n; simpl.
  - left. by exists n.
  - unfold mbind, M_bind, bind.
    destruct (decide (idx < length base_counts)%nat) as [Hidx|Hidx].
    + rewrite perturb_on_zeros by done.
      destruct (IH (S n)) as [?|[? Hbad]]; [by left|]. right. split; [done|].
      intros Hall. apply Hbad. by apply Forall_cons in Hall as [_ ?].
    + right. split.
      * unfold perturb, mbind, M_bind, bind. by rewrite lookup_ge_None_2 by lia.
      * intros Hall. by apply Forall_cons in Hall as [? _].
Qed.

Lemma positive_indices_in_range (base_counts : list float) :
  Forall (fun idx => (idx < length base_counts)%nat)
    (filter (fun item : nat * float => (0 <? item.2)%float = true) (Py.enumerate base_counts)).*1.
Proof.
  apply Forall_forall. intros idx ([i c] & -> & Hin)%list_elem_of_fmap.
  apply list_elem_of_filter in Hin as [_ Hin].
  apply elem_of_lookup_imap in Hin as (j & c' & [= -> ->] & Hj). simpl.
  by eapply lookup_lt_Some.
Qed.

Lemma perturbed_indices_returns base_counts src n :
  exists selected n',
    perturbed_indices base_counts src n = Returns selected n' /\
    (sample_in_population src -> Forall (fun idx => (idx < length base_counts)%nat) selected).
Proof.
  unfold perturbed_indices.
  set (positive := (filter _ (Py.enumerate base_counts)).*1).
  set (population := match positive with [] => seq 0 (length base_counts) | _ => positive end).
  assert (Forall (fun idx => (idx < length base_counts)%nat) population) as Hpop.
  { subst population. destruct positive eqn:E.
    - apply Forall_forall. intros idx Hin%elem_of_seq. lia.
    - rewrite <- E. apply positive_indices_in_range. }
  case_bool_decide.
  - eexists _, _. split; [reflexivity|]. intros Hsrc.
    rewrite Forall_forall in Hpop |- *. intros idx Hin. apply Hpop. by eapply Hsrc.
  - by eexists _, _.
Qed.

(** From an all-zero vector every randomized candidate is all-zero again:
    each perturbed entry is [max(0.0, 0 * (1 + delta))]. *)
Lemma generate_on_zeros base_counts dial_range direction_bias src n :
  all_zero base_counts ->
  (exists n', _generate_candidate_counts base_counts dial_range direction_bias src n
              = Returns base_counts n') \/
  (_generate_candidate_counts base_counts dial_range direction_bias src n = Raises /\
   ~ sample_in_population src).
Proof.
  intros Hz. unfold _generate_candidate_counts, mbind, M_bind, bind.
  destruct (perturbed_indices_returns base_counts src n) as (selected & n1 & -> & Hin).
  destruct (perturb_all_on_zeros base_counts dial_range direction_bias src selected Hz n1)
    as [?|[? Hbad]]; [by left|]. right. split; [done|]. intros Hsrc. by apply Hbad, Hin.
Qed.

(** Once the best counts are all zero the [while] loop cannot finish: it
    never appends a candidate, whatever the draws. *)
Lemma regenerate_stuck base_counts current_range direction_bias candidates current_candidates src :
  all_zero base_counts ->
  Z.of_nat (length candidates) < current_candidates ->
  forall fuel n,
    regenerate fuel candidates current_candidates base_counts current_range direction_bias src n
      = OutOfFuel \/
    (regenerate fuel candidates current_candidates base_counts current_range direction_bias src n
       = Raises /\ ~ sample_in_population src).
Proof.
  intros Hz Hlen. induction fuel as [|fuel IH]; intros n; simpl;
    rewrite bool_decide_eq_true_2 by done; [by left|].
  unfold mbind, M_bind, bind.
  destruct (generate_on_zeros base_counts current_range direction_bias src n Hz)
    as [[n' ->]|[-> ?]]; [|by right].
  rewrite (fsum_all_zero _ Hz). change (0 =? 0)%float with true. simpl. apply IH.
Qed.

Lemma regenerate_eq fuel candidates current_candidates base_counts current_range direction_bias :
  regenerate fuel candidates current_candidates base_counts current_range direction_bias =
    if bool_decide (Z.of_nat (length candidates) < current_candidates) then
      match fuel with
      | O => out_of_fuel
      | S fuel' =>
          candidate ← _generate_candidate_counts base_counts current_range direction_bias;
          if (Py.fsum candidate =? 0)%float then
            regenerate fuel' candidates current_candidates base_counts current_range direction_bias
          else
            regenerate fuel' (candidates ++ [candidate]) current_candidates base_counts
                       current_range direction_bias
      end
    else ret candidates.
Proof. by destruct fuel. Qed.

(** A loop that finished with some fuel finishes the same way with more. *)
Lemma regenerate_more_fuel base_counts current_range direction_bias current_candidates src extra :
  forall fuel candidates n result n',
    regenerate fuel candidates current_candidates base_counts current_range direction_bias src n
      = Returns result n' ->
    regenerate (fuel + extra) candidates current_candidates base_counts current_range
      direction_bias src n = Returns result n'.
Proof.
  induction fuel as [|fuel IH]; intros candidates n result n' Hrun;
    rewrite regenerate_eq in Hrun |- *; case_bool_decide; try done.
  rewrite Nat.add_succ_l. unfold mbind, M_bind, bind in *.
  destruct (_generate_candidate_counts _ _ _ src n) as [candidate n1| |]; [|done..].
  destruct (Py.fsum candidate =? 0)%float; by apply IH.
Qed.

Lemma iteration_more_fuel fuel extra p st iteration src n st' n' :
  optimization_iteration fuel p st iteration src n = Returns st' n' ->
  optimization_iteration (fuel + extra) p st iteration src n = Returns st' n'.
Proof.
  unfold optimization_iteration. intros (candidates & n1 & Hloop & Hrest)%bind_Returns.
  unfold mbind, M_bind, bind. by rewrite (regenerate_more_fuel _ _ _ _ _ _ _ _ _ _ _ Hloop).
Qed.

Lemma constant_source_sample u : sample_in_population (constant_source u).
Proof. intros n population k. apply subseteq_take. Qed.

(** An iteration that starts from all-zero best counts does not end. *)
Lemma iteration_stuck fuel p st iteration src n :
  sample_in_population src ->
  best_counts st <> [] ->
  all_zero (best_counts st) ->
  optimization_iteration fuel p st iteration src n = OutOfFuel.
Proof.
  intros Hsrc Hne Hz. unfold optimization_iteration, mbind, M_bind, bind.
  assert (_systematic_candidates (best_counts st) (current_range p iteration) = [best_counts st])
    as ->.
  { unfold _systematic_candidates.
    assert (forall counts, all_zero counts ->
              forall h : nat -> float -> list (list float),
                (forall idx, h idx 0%float = []) -> concat (imap h counts) = []) as Hnone.
    { induction 1 as [|c rest -> _ IH]; intros h Hh; simpl; [done|].
      rewrite Hh. simpl. apply IH. intros idx. apply Hh. }
    rewrite Hnone by done. by destruct (best_counts st). }
  destruct (regenerate_stuck (best_counts st) (current_range p iteration) (direction_bias st)
              [best_counts st] (current_candidates p iteration) src Hz) with (fuel := fuel) (n := n)
    as [->|[_ Hbad]]; [|done|done].
  unfold current_candidates. simpl. lia.
Qed.

(** C8, as the code runs: on [stuck_vars], with every [random()] equal to
    0.3, the first iteration adopts the all-zero blend and the [while] loop
    of the second iteration never ends, whatever the fuel. *)
Theorem optimizer_does_not_terminate (fuel : nat) :
  _run_optimization fuel stuck_vars (constant_source 0.3) 0%nat = OutOfFuel.
Proof.
  unfold _run_optimization, mbind at 1, M_bind at 1, bind at 1.
  change (search_params stuck_vars) with (Some (Some stuck_params)). cbn [lift ret].
  unfold mbind at 1, M_bind at 1, bind at 1.
  assert (evaluate stuck_params (initial_counts stuck_vars) (constant_source 0.3) 0%nat
          = Returns 0%float 10%nat) as -> by (vm_compute; reflexivity).
  change (initial_counts stuck_vars) with (best_counts stuck_initial).
  change (seq 0 (Z.to_nat (iterations stuck_params))) with [0; 1]%nat.
  unfold mbind, M_bind, bind, optimization_loop. cbn [for_each].
  unfold mbind, M_bind, bind.
  destruct fuel as [|fuel]; [vm_compute; reflexivity|].
  assert (optimization_iteration 1 stuck_params stuck_initial 0 (constant_source 0.3) 10%nat
          = Returns stuck_state 51%nat) as Hfirst by (vm_compute; reflexivity).
  apply (iteration_more_fuel 1 fuel) in Hfirst. simpl in Hfirst.
  change {| best_counts := best_counts stuck_initial; best_prob := 0%float;
            direction_bias := (fun _ => 0%float) <$> GENRES |} with stuck_initial.
  rewrite Hfirst.
  rewrite iteration_stuck; [done | apply constant_source_sample | done |].
  repeat constructor.
Qed.

End OptimizerTermination.

(** ** The best probability never decreases *)

Section OptimizerMonotone.
Import PostscriptBase PostscriptOptimizer.

Lemma evaluate_nonneg p counts src n prob n' :
  sims_per_distribution p < 2 ^ 63 ->
  evaluate p counts src n = Returns prob n' -> nonneg prob.
Proof.
  intros Hsims. unfold evaluate, _simulate_probability.
  intros (weights & n1 & _ & Hrest)%bind_Returns.
  apply bind_Returns in Hrest as (ready_runs & n2 & _ & Hret).
  apply ret_Returns in Hret as [<- _]. apply truediv_is_nonneg. lia.
Qed.

Lemma evaluate_all_nonneg p src : forall candidates n results n',
  sims_per_distribution p < 2 ^ 63 ->
  evaluate_all p candidates src n = Returns results n' ->
  Forall (fun item : float * list float => nonneg item.1) results.
Proof.
  induction candidates as [|candidate rest IH]; intros n results n' Hsims; simpl.
  - intros [<- _]%ret_Returns. constructor.
  - intros (prob & n1 & Hprob & Hrest)%bind_Returns.
    apply bind_Returns in Hrest as (results' & n2 & Hall & Hret).
    apply ret_Returns in Hret as [<- _]. constructor.
    + by eapply evaluate_nonneg.
    + by eapply IH.
Qed.

Lemma insert_desc_elem {A} (lt : A -> A -> bool) (x y : A) (l : list A) :
  y ∈ Py.insert_desc lt x l <-> y = x \/ y ∈ l.
Proof.
  induction l as [|z l IH]; simpl.
  - rewrite list_elem_of_singleton, elem_of_nil. tauto.
  - destruct (lt x z); rewrite !elem_of_cons; [rewrite IH|]; tauto.
Qed.

Lemma sorted_desc_elem {A} (lt : A -> A -> bool) (y : A) (l : list A) :
  y ∈ Py.sorted_desc lt l <-> y ∈ l.
Proof.
  induction l as [|x l IH]; simpl; [done|].
  rewrite insert_desc_elem, elem_of_cons, IH. tauto.
Qed.

Lemma insert_desc_headed (x : float * list float) (l : list (float * list float)) :
  nonneg x.1 -> Forall (fun item => nonneg item.1) l -> headed l ->
  headed (Py.insert_desc (fun a b => (a.1 <? b.1)%float) x l).
Proof.
  intros Hx Hl Hhead. destruct l as [|y rest]; simpl.
  - constructor; [by apply leb_refl | constructor].
  - simpl in Hhead. apply Forall_cons in Hl as [Hy Hrest].
    destruct (x.1 <? y.1)%float eqn:Hlt; simpl.
    + apply Forall_cons in Hhead as [Hyy Hhead]. constructor; [done|].
      apply Forall_forall. intros z Hz. apply insert_desc_elem in Hz as [->|Hz].
      * by apply ltb_leb.
      * by apply (proj1 (Forall_forall _ _) Hhead).
    + assert ((y.1 <=? x.1)%float = true) as Hyx by by apply leb_total.
      constructor; [by apply leb_refl|].
      eapply Forall_impl; [exact Hhead|]. simpl. intros z Hz. by eapply leb_trans.
Qed.

Lemma sort_results_headed (l : list (float * list float)) :
  Forall (fun item => nonneg item.1) l -> headed (sort_results l).
Proof.
  unfold sort_results. induction 1 as [|x l Hx Hl IH]; simpl; [done|].
  apply insert_desc_headed; [done| |done].
  apply Forall_forall. intros y Hy%sorted_desc_elem. by apply (proj1 (Forall_forall _ _) Hl).
Qed.

(** The first of the ranked results is at least as probable as any of them. *)
Lemma sort_results_top (l : list (float * list float)) top :
  Forall (fun item => nonneg item.1) l ->
  head (take 3 (sort_results l)) = Some top ->
  top ∈ l /\ Forall (fun item => (item.1 <=? top.1)%float = true) l.
Proof.
  intros Hl Htop. pose proof (sort_results_headed l Hl) as Hhead.
  assert (forall y, y ∈ sort_results l <-> y ∈ l) as Helem by (intros y; apply sorted_desc_elem).
  destruct (sort_results l) as [|t rest]; [done|]. simpl in Htop. injection Htop as ->.
  simpl in Hhead. split.
  - apply Helem. constructor.
  - apply Forall_forall. intros y Hy%Helem. by apply (proj1 (Forall_forall _ _) Hhead).
Qed.

Lemma select_best_monotone p st candidates src n st' n' :
  sims_per_distribution p < 2 ^ 63 ->
  nonneg (best_prob st) ->
  select_best p st candidates src n = Returns st' n' ->
  (best_prob st <=? best_prob st')%float = true /\ nonneg (best_prob st').
Proof.
  intros Hsims Hbest. unfold select_best.
  intros (results & n1 & Hresults & Hrest)%bind_Returns.
  apply bind_Returns in Hrest as (blended_counts & n2 & _ & Hrest).
  apply bind_Returns in Hrest as (blended_prob & n3 & Hblend & Hrest).
  apply bind_Returns in Hrest as (top & n4 & Htop & Hret).
  apply lift_Returns in Htop as [Htop _].
  apply evaluate_all_nonneg in Hresults; [|done].
  apply evaluate_nonneg in Hblend; [|done].
  assert (Forall (fun item : float * list float => nonneg item.1)
            (results ++ [(best_prob st, best_counts st)])) as Hall.
  { apply Forall_app. split; [done|]. by constructor. }
  destruct (sort_results_top _ _ Hall Htop) as [Hin Hmax].
  assert ((best_prob st <=? top.1)%float = true) as Hle.
  { apply (proj1 (Forall_forall _ _) Hmax (best_prob st, best_counts st)).
    apply elem_of_app. right. constructor. }
  assert (nonneg top.1) as Hnn by apply (proj1 (Forall_forall _ _) Hall top Hin).
  destruct top as [top_prob top_counts]. simpl in *.
  destruct (top_prob <=? blended_prob)%float eqn:Hcmp;
    apply ret_Returns in Hret as [<- _]; simpl; [|done].
  split; [by eapply leb_trans | done].
Qed.

Lemma iteration_monotone fuel p st iteration src n st' n' :
  sims_per_distribution p < 2 ^ 63 ->
  nonneg (best_prob st) ->
  optimization_iteration fuel p st iteration src n = Returns st' n' ->
  (best_prob st <=? best_prob st')%float = true /\ nonneg (best_prob st').
Proof.
  intros Hsims Hbest. unfold optimization_iteration. cbv zeta.
  intros (candidates & n1 & _ & Hselect)%bind_Returns.
  by eapply select_best_monotone.
Qed.

Lemma loop_monotone fuel p src : forall (steps : list nat) st n st' n',
  sims_per_distribution p < 2 ^ 63 ->
  nonneg (best_prob st) ->
  optimization_loop fuel p steps st src n = Returns st' n' ->
  (best_prob st <=? best_prob st')%float = true /\ nonneg (best_prob st').
Proof.
  unfold optimization_loop.
  induction steps as [|iteration rest IH]; intros st n st' n' Hsims Hbest; simpl.
  - intros [<- _]%ret_Returns. split; [by apply leb_refl | done].
  - intros (st1 & n1 & Hstep & Hrest)%bind_Returns.
    destruct (iteration_monotone _ _ _ _ _ _ _ _ Hsims Hbest Hstep) as [Hle1 Hnn1].
    destruct (IH _ _ _ _ Hsims Hnn1 Hrest) as [Hle2 Hnn2].
    split; [by eapply leb_trans | done].
Qed.

(** C4. In a run of [_run_optimization], whatever the draws, the best
    probability held when an iteration starts is at least the one the search
    began with, and the one held when the iteration ends is at least the one
    it started with. *)
Theorem best_prob_non_decreasing fuel vars p src (k : nat) prob0 n0 st n st' n' :
  search_params vars = Some (Some p) ->
  simulations_var vars < 2 ^ 63 ->
  evaluate p (initial_counts vars) src 0%nat = Returns prob0 n0 ->
  optimization_loop fuel p (seq 0 k)
    {| best_counts := initial_counts vars; best_prob := prob0;
       direction_bias := (fun _ => 0%float) <$> GENRES |} src n0 = Returns st n ->
  optimization_iteration fuel p st k src n = Returns st' n' ->
  (prob0 <=? best_prob st)%float = true /\
  (best_prob st <=? best_prob st')%float = true.
Proof.
  intros Hp Hsims Hinit Hloop Hiter.
  assert (sims_per_distribution p < 2 ^ 63) as Hsims'.
  { unfold search_params in Hp. case_bool_decide; [done|].
    destruct (_build_cheese_sequence _); [|done]. simpl in Hp. injection Hp as <-. simpl. lia. }
  pose proof (evaluate_nonneg _ _ _ _ _ _ Hsims' Hinit) as Hnn0.
  destruct (loop_monotone _ _ _ _ _ _ _ _ Hsims' (Hnn0 : nonneg (best_prob {|
              best_counts := initial_counts vars; best_prob := prob0;
              direction_bias := (fun _ => 0%float) <$> GENRES |})) Hloop) as [Hle Hnn].
  simpl in Hle.
  split; [done|].
  by destruct (iteration_monotone _ _ _ _ _ _ _ _ Hsims' Hnn Hiter).
Qed.

Lemma best_prob_non_decreasing_witness :
  (0 <=? best_prob stuck_initial)%float = true /\
  (best_prob stuck_initial <=? best_prob stuck_state)%float = true.
Proof.
  apply (best_prob_non_decreasing 1 stuck_vars stuck_params (constant_source 0.3) 0
           0%float 10 stuck_initial 10 stuck_state 51).
  - reflexivity.
  - reflexivity.
  - vm_compute. reflexivity.
  - reflexivity.
  - vm_compute. reflexivity.
Defined.

End OptimizerMonotone.

(** ** Binary64: quotients of ints *)

Section Binary64Quotient.

Abbreviation dig p := (Z.pos (digits2_pos p)).

(** The first step of a rounding, on a mantissa of at least 53 digits: the
    digits beyond the 53rd are shifted out. *)
Lemma shr_fexp_normal (m : positive) (e : Z) (l : location) :
  -1074 <= e -> 53 <= dig m ->
  exists mrs,
    shr_fexp prec emax (Z.pos m) e l = (mrs, e + (dig m - 53)) /\
    shr_m mrs = Z.pos m / 2 ^ (dig m - 53).
Proof.
  intros He Hd. unfold shr_fexp. simpl Zdigits2. rewrite fexp64.
  replace (Z.max (dig m + e - 53) (-1074) - e) with (dig m - 53) by lia.
  destruct (Z.eq_dec (dig m) 53) as [->|Hne].
  - simpl. eexists. split; [by rewrite Z.add_0_r|]. rewrite shr_record_of_loc_m, Z.div_1_r. done.
  - destruct (shr_pos (shr_record_of_loc (Z.pos m) l) e (dig m - 53)) as (mrs & Hs & Hm);
      [rewrite shr_record_of_loc_m; lia | lia |].
    exists mrs. split; [done|]. by rewrite Hm, shr_record_of_loc_m.
Qed.

(** Rounding a mantissa of at least 53 digits whose value is below [2^E]
    gives a finite number that is at most [2^E]. *)
Lemma binary_round_aux_below (m : positive) (e E : Z) (l : location) :
  -1074 <= e -> 53 <= dig m -> Z.pos m < 2 ^ (E - e) -> E <= 1023 ->
  exists (p : positive) (e' : Z),
    binary_round_aux prec emax false (Z.pos m) e l = S754_finite false p e' /\
    (e' < E - 52 \/ (e' = E - 52 /\ p = (2 ^ 52)%positive)).
Proof.
  intros He Hd Hm HE. unfold binary_round_aux.
  destruct (shr_fexp_normal m e l He Hd) as (mrs & -> & Hm1).
  set (n := dig m - 53) in *. set (e1 := e + n).
  pose proof (digits2_bounds m) as [Hlo Hhi].
  assert (0 <= n) as Hn by lia.
  replace (dig m - 1) with (52 + n) in Hlo by lia.
  replace (dig m) with (53 + n) in Hhi by lia.
  rewrite Z.pow_add_r in Hlo, Hhi by lia.
  assert (0 < 2 ^ n) as Hpow by (apply Z.pow_pos_nonneg; lia).
  assert (2 ^ 52 <= shr_m mrs < 2 ^ 53) as Hm1b.
  { rewrite Hm1. split; [apply Z.div_le_lower_bound | apply Z.div_lt_upper_bound]; lia. }
  assert (53 <= E - e1) as HE1.
  { destruct (Z_lt_le_dec (E - e1) 53) as [Hlt|]; [|done].
    assert (2 ^ (E - e) <= 2 ^ (52 + n)) by (apply Z.pow_le_mono_r; lia).
    rewrite Z.pow_add_r in * by lia. lia. }
  assert (shr_m mrs < 2 ^ (E - e1)) as Hm1E.
  { rewrite Hm1. apply Z.div_lt_upper_bound; [lia|].
    rewrite <- Z.pow_add_r by lia. replace (n + (E - e1)) with (E - e) by lia. done. }
  set (m2 := round_nearest_even (shr_m mrs) (loc_of_shr_record mrs)).
  assert (m2 = shr_m mrs \/ m2 = shr_m mrs + 1) as Hm2 by apply round_nearest_even_cases.
  assert (2 ^ 52 <= m2 <= 2 ^ 53) as Hm2b by lia.
  destruct m2 as [|p2|p2] eqn:Ep2; [lia| |lia].
  destruct (Z.eq_dec (Z.pos p2) (2 ^ 53)) as [Htop|Htop].
  - assert (dig p2 = 54) as Hd2 by (apply digits2_unique; rewrite Htop; simpl; lia).
    destruct (shr_fexp_normal p2 e1 loc_Exact) as (mrs2 & -> & Hm3); [lia | lia |].
    rewrite Hd2, Htop in Hm3. change (2 ^ 53 / 2 ^ (54 - 53)) with (Z.pos (2 ^ 52)) in Hm3.
    rewrite Hm3, Hd2.
    rewrite (proj2 (Z.leb_le (e1 + (54 - 53)) (emax - prec))) by (change (emax - prec) with 971; lia).
    eexists _, _. split; [reflexivity|].
    destruct (Z.eq_dec (e1 + (54 - 53)) (E - 52)); [by right | left; lia].
  - assert (dig p2 = 53) as Hd2 by (apply digits2_unique; simpl; lia).
    destruct (shr_fexp_normal p2 e1 loc_Exact) as (mrs2 & -> & Hm3); [lia | lia |].
    rewrite Hd2, Z.sub_diag, Z.div_1_r in Hm3. rewrite Hm3, Hd2, Z.sub_diag, Z.add_0_r.
    rewrite (proj2 (Z.leb_le e1 (emax - prec))) by (change (emax - prec) with 971; lia).
    eexists _, _. split; [reflexivity|]. left. lia.
Qed.

(** Converting a positive int below [2^53] is exact: the 53-digit mantissa is
    the int shifted left. *)
Lemma float_of_int_normal (n : positive) :
  Z.pos n < 2 ^ 53 ->
  exists p : positive,
    Prim2SF (Py.float_of_int (Z.pos n)) = S754_finite false p (dig n - 53) /\
    dig p = 53 /\ Z.pos p = Z.pos n * 2 ^ (53 - dig n).
Proof.
  intros Hn. unfold Py.float_of_int. rewrite FloatAxioms.of_uint63_spec, Uint63.of_Z_spec.
  change wB with (2 ^ 63). rewrite Z.mod_small by lia. simpl.
  pose proof (digits2_bounds n) as [Hlo Hhi].
  assert (dig n <= 53) as Hd.
  { destruct (Z_lt_le_dec 53 (dig n)) as [Hgt|]; [|done].
    assert (2 ^ 53 <= 2 ^ (dig n - 1)) by (apply Z.pow_le_mono_r; lia). lia. }
  unfold binary_round. rewrite Z.add_0_r, fexp64.
  replace (Z.max (dig n - 53) (-1074)) with (dig n - 53) by lia.
  destruct (shl_align_value n 0 (dig n - 53)) as [Hv Hdg]; [lia|].
  destruct (shl_align n 0 (dig n - 53)) as [mz ez] eqn:Ealign.
  assert (ez = dig n - 53) as ->.
  { unfold shl_align in Ealign. destruct (dig n - 53 - 0) as [|k|k] eqn:Ek; injection Ealign as <- <-; lia. }
  simpl fst in *.
  destruct (binary_round_aux_exact false mz (dig n - 53)) as [Hexact _]; [lia|].
  rewrite Hexact by (rewrite fexp64; lia).
  rewrite (proj2 (Z.leb_le _ 971)) by lia.
  exists mz. split; [done|]. split; [lia|]. rewrite Hv. do 2 f_equal. lia.
Qed.

Lemma SFdiv_self (m : positive) (e : Z) :
  dig m = 53 ->
  SFdiv prec emax (S754_finite false m e) (S754_finite false m e) = S754_finite false (2 ^ 52) (-52).
Proof.
  intros Hd. simpl. unfold SFdiv_core_binary. simpl Zdigits2. rewrite Hd.
  replace (53 + e - (53 + e)) with 0 by lia. rewrite Z.sub_diag. simpl Z.min. simpl Z.sub.
  change (Z.min (fexp prec emax 0) 0) with (-53). change (0 - -53) with 53. cbv iota.
  assert (IntDef.Z.div_eucl (Z.pos m ≪ 53) (Z.pos m) = (2 ^ 53, 0)) as ->.
  { rewrite Z.shiftl_mul_pow2 by lia. rewrite Z.mul_comm.
    pose proof (Z.div_mul (2 ^ 53) (Z.pos m) ltac:(lia)) as Hq.
    pose proof (Z.mod_mul (2 ^ 53) (Z.pos m) ltac:(lia)) as Hr.
    unfold Z.div, Z.modulo in Hq, Hr. change Z.div_eucl with IntDef.Z.div_eucl in *.
    destruct (IntDef.Z.div_eucl (2 ^ 53 * Z.pos m) (Z.pos m)) as [q r]. by subst. }
  assert (new_location (Z.pos m) 0 = loc_Exact) as ->.
  { unfold new_location. by destruct (IntDef.Z.even (Z.pos m)). }
  reflexivity.
Qed.

(** The quotient of two 53-digit numbers, the first with the smaller value,
    is at most 1.0 after rounding. *)
Lemma SFdiv_below_one (mx my : positive) (ex ey kx ky : Z) :
  dig mx = 53 -> dig my = 53 -> -52 <= ex <= 0 -> -52 <= ey <= 0 ->
  Z.pos mx = kx * 2 ^ (- ex) -> Z.pos my = ky * 2 ^ (- ey) -> kx < ky ->
  SFleb (SFdiv prec emax (S754_finite false mx ex) (S754_finite false my ey))
        (S754_finite false (2 ^ 52) (-52)) = true.
Proof.
  intros Hdx Hdy Hex Hey Hkx Hky Hlt. simpl. unfold SFdiv_core_binary. simpl Zdigits2.
  rewrite Hdx, Hdy, fexp64.
  replace (Z.min (Z.max (53 + ex - (53 + ey) - 53) (-1074)) (ex - ey)) with (ex - ey - 53) by lia.
  replace (ex - ey - (ex - ey - 53)) with 53 by lia. cbv iota.
  rewrite Z.shiftl_mul_pow2 by lia.
  pose proof (digits2_bounds mx) as [Hlox Hhix]. pose proof (digits2_bounds my) as [Hloy Hhiy].
  rewrite Hdx in Hlox, Hhix. rewrite Hdy in Hloy, Hhiy.
  change (53 - 1) with 52 in Hlox, Hloy.
  assert (2 ^ 52 <= Z.pos mx * 2 ^ 53 / Z.pos my) as Hqlo.
  { apply Z.div_le_lower_bound; [lia|]. clear - Hlox Hhiy. lia. }
  assert (Z.pos mx * 2 ^ 53 / Z.pos my < 2 ^ (0 - (ex - ey - 53))) as Hqhi.
  { apply Z.div_lt_upper_bound; [lia|].
    rewrite Hkx, Hky, <- !Z.mul_assoc.
    assert (2 ^ (- ex) * 2 ^ 53 = 2 ^ (53 - ex)) as ->
      by (rewrite <- Z.pow_add_r by lia; f_equal; lia).
    assert (2 ^ (- ey) * 2 ^ (0 - (ex - ey - 53)) = 2 ^ (53 - ex)) as ->
      by (rewrite <- Z.pow_add_r by lia; f_equal; lia).
    apply Z.mul_lt_mono_pos_r; [apply Z.pow_pos_nonneg; lia | done]. }
  unfold Z.div in Hqlo, Hqhi. change Z.div_eucl with IntDef.Z.div_eucl in *.
  destruct (IntDef.Z.div_eucl (Z.pos mx * 2 ^ 53) (Z.pos my)) as [q r]. simpl in Hqlo, Hqhi.
  destruct q as [|q|q]; [lia| |lia].
  destruct (binary_round_aux_below q (ex - ey - 53) 0 (new_location (Z.pos my) r))
    as (p & e' & -> & Hp); [lia | | done | lia |].
  { pose proof (digits2_bounds q) as [_ Hhi].
    destruct (Z_lt_le_dec (dig q) 53) as [Hlt'|]; [|done].
    assert (2 ^ dig q <= 2 ^ 52) by (apply Z.pow_le_mono_r; lia). lia. }
  apply SFleb_finite. destruct Hp as [Hp|[-> ->]]; [by left | right; split; [done | lia]].
Qed.

(** Python's [k / n] for ints [0 <= k <= n < 2^53] is at most 1.0. *)
Lemma truediv_le_one (k n : Z) :
  0 <= k <= n -> 1 <= n < 2 ^ 53 -> (Py.truediv k n <=? 1)%float = true.
Proof.
  intros Hk Hn. unfold Py.truediv. rewrite FloatAxioms.leb_spec, FloatAxioms.div_spec.
  change (Prim2SF 1) with (S754_finite false (2 ^ 52) (-52)).
  destruct n as [|n|n]; [lia| |lia].
  destruct (float_of_int_normal n) as (py & Hy & Hdy & Hvy); [lia|].
  pose proof (digits2_bounds n) as [Hlon Hhin].
  assert (1 <= dig n <= 53) as Hdn.
  { split; [lia|]. destruct (Z_lt_le_dec 53 (dig n)) as [Hgt|]; [|done].
    assert (2 ^ 53 <= 2 ^ (dig n - 1)) by (apply Z.pow_le_mono_r; lia). lia. }
  destruct k as [|k|k]; [| |lia].
  - rewrite Hy. reflexivity.
  - destruct (Z.eq_dec (Z.pos k) (Z.pos n)) as [Heq|Hne].
    + injection Heq as ->. rewrite Hy, SFdiv_self by done.
      apply SFleb_finite. right. split; [done | lia].
    + destruct (float_of_int_normal k) as (px & Hx & Hdx & Hvx); [lia|].
      pose proof (digits2_bounds k) as [Hlok Hhik].
      assert (1 <= dig k <= 53) as Hdk.
      { split; [lia|]. destruct (Z_lt_le_dec 53 (dig k)) as [Hgt|]; [|done].
        assert (2 ^ 53 <= 2 ^ (dig k - 1)) by (apply Z.pow_le_mono_r; lia). lia. }
      rewrite Hx, Hy.
      apply (SFdiv_below_one px py _ _ (Z.pos k) (Z.pos n)); try done; try lia.
      * rewrite Hvx. do 2 f_equal. lia.
      * rewrite Hvy. do 2 f_equal. lia.
Qed.

End Binary64Quotient.

(** ** The spend sequence, the selector and a whole run *)

Section SpendSequence.
Import PostscriptBase.

Lemma foldl_add_acc (l : list Z) : forall acc, foldl Z.add acc l = acc + foldl Z.add 0 l.
Proof.
  induction l as [|y l IH]; intros acc; simpl; [lia|].
  rewrite (IH (acc + y)), (IH (0 + y)). lia.
Qed.

Lemma sum_cons (x : Z) (l : list Z) : Py.sum (x :: l) = x + Py.sum l.
Proof. unfold Py.sum. simpl. rewrite foldl_add_acc. lia. Qed.

Lemma sum_app (l k : list Z) : Py.sum (l ++ k) = Py.sum l + Py.sum k.
Proof. induction l as [|x l IH]; simpl; [done|]. rewrite !sum_cons, IH. lia. Qed.

Lemma sum_replicate (n : nat) (x : Z) : Py.sum (replicate n x) = Z.of_nat n * x.
Proof. induction n as [|n IH]; [done|]. simpl replicate. rewrite sum_cons, IH. lia. Qed.

Lemma cheese_sequence_of_three (c25 c50 c125 : Z) (rest : list Z) :
  _build_cheese_sequence (c25 :: c50 :: c125 :: rest) =
    Some (replicate (Z.to_nat c125) 125 ++ replicate (Z.to_nat c50) 50 ++
          replicate (Z.to_nat c25) 25).
Proof. unfold _build_cheese_sequence. simpl. by rewrite app_nil_r. Qed.

(** X1. The spend sequence is read off the first three counts: the 125-point
    tokens come first, then the 50-point ones, then the 25-point ones, each as
    often as its count says (a negative count gives none); with fewer than
    three counts the subscript [counts[idx]] raises. *)
Theorem build_cheese_sequence_shape (counts : list Z) :
  match counts with
  | c25 :: c50 :: c125 :: _ =>
      _build_cheese_sequence counts =
        Some (replicate (Z.to_nat c125) 125 ++ replicate (Z.to_nat c50) 50 ++
              replicate (Z.to_nat c25) 25)
  | _ => _build_cheese_sequence counts = None
  end.
Proof.
  destruct counts as [|c25 [|c50 [|c125 rest]]]; try reflexivity.
  apply cheese_sequence_of_three.
Qed.

(** X2. A validated allocation is spent in full: three non-negative counts
    that sum to the target give a sequence of exactly that many tokens (10, or
    13 with the extension flag), each worth 125, 50 or 25 points. *)
Theorem cheese_sequence_spends_target (extend_flag : bool) (counts : list Z) :
  length counts = 3%nat ->
  Forall (fun count => 0 <= count) counts ->
  Py.sum counts = _compute_target_hunts extend_flag ->
  exists cheese_sequence,
    _build_cheese_sequence counts = Some cheese_sequence /\
    Z.of_nat (length cheese_sequence) = (if extend_flag then 13 else 10) /\
    Forall (fun cheese_value => cheese_value ∈ CHEESE_VALUES) cheese_sequence.
Proof.
  intros Hlen Hpos Hsum.
  destruct counts as [|c25 [|c50 [|c125 [|]]]]; try done.
  pose proof (cheese_sequence_of_three c25 c50 c125 []) as Hshape.
  apply Forall_cons in Hpos as [H25 Hpos]. apply Forall_cons in Hpos as [H50 Hpos].
  apply Forall_cons in Hpos as [H125 _].
  rewrite !sum_cons in Hsum. change (Py.sum []) with 0 in Hsum.
  eexists. split; [exact Hshape|]. split.
  - rewrite !length_app, !length_replicate.
    unfold _compute_target_hunts, BASE_HUNTS, EXTENDED_BONUS in Hsum. destruct extend_flag; lia.
  - rewrite !Forall_app. repeat split; apply Forall_replicate; unfold CHEESE_VALUES;
      rewrite !elem_of_cons; auto.
Qed.

Lemma cheese_sequence_spends_target_witness :
  exists cheese_sequence,
    _build_cheese_sequence [2; 7; 4] = Some cheese_sequence /\
    Z.of_nat (length cheese_sequence) = 13 /\
    Forall (fun cheese_value => cheese_value ∈ CHEESE_VALUES) cheese_sequence.
Proof.
  apply (cheese_sequence_spends_target true [2; 7; 4]).
  - reflexivity.
  - repeat (constructor; [lia|]). constructor.
  - reflexivity.
Defined.

Lemma first_threshold_spec roll (cumulative_weights : list float) : forall idx,
  match first_threshold roll idx cumulative_weights with
  | Some i =>
      exists (k : nat) threshold,
        i = idx + Z.of_nat k /\ cumulative_weights !! k = Some threshold /\
        (roll <=? threshold)%float = true /\
        forall (j : nat) t, (j < k)%nat -> cumulative_weights !! j = Some t ->
                            (roll <=? t)%float = false
  | None => Forall (fun t => (roll <=? t)%float = false) cumulative_weights
  end.
Proof.
  induction cumulative_weights as [|threshold rest IH]; intros idx; simpl; [constructor|].
  destruct (roll <=? threshold)%float eqn:Hroll.
  - exists 0%nat, threshold. split; [lia|]. split; [done|]. split; [done|]. intros j t Hj. lia.
  - specialize (IH (idx + 1)). destruct (first_threshold roll (idx + 1) rest) as [i|].
    + destruct IH as (k & t & -> & Hk & Hle & Hbefore).
      exists (S k), t. split; [lia|]. split; [done|]. split; [done|].
      intros [|j] t' Hj Hlk; simpl in Hlk; [by injection Hlk as <-|].
      apply (Hbefore j t'); [lia | done].
    + by constructor.
Qed.

(** X3. The selector draws once and returns the first index whose threshold
    is at least the sample; when no threshold is, it returns the last index
    of the table (which is -1 on an empty table). *)
Theorem select_genre_index_first_threshold src n (cumulative_weights : list float) :
  exists idx,
    _select_genre_index cumulative_weights src n = Returns idx (S n) /\
    ((exists (k : nat) threshold,
        idx = Z.of_nat k /\ cumulative_weights !! k = Some threshold /\
        (random_at src n <=? threshold)%float = true /\
        forall (j : nat) t, (j < k)%nat -> cumulative_weights !! j = Some t ->
                            (random_at src n <=? t)%float = false) \/
     (idx = Z.of_nat (length cumulative_weights) - 1 /\
      Forall (fun t => (random_at src n <=? t)%float = false) cumulative_weights)).
Proof.
  eexists. split; [reflexivity|]. unfold select_with_roll.
  pose proof (first_threshold_spec (random_at src n) cumulative_weights 0) as Hspec.
  destruct (first_threshold (random_at src n) 0 cumulative_weights) as [i|]; simpl.
  - left. destruct Hspec as (k & t & -> & Hrest). by exists k, t.
  - by right.
Qed.

(** What a whole run does to each entry of a vector in [0, 200]: it loses
    at most one point per hunt, gains at most the points of all the tokens,
    and stays at least 1 when it started there. *)
Lemma simulate_sequence_entries src cumulative_weights (cheese_sequence : list Z) :
  Forall (fun cheese_value => 0 <= cheese_value) cheese_sequence ->
  forall n (base_notoriety : list Z),
    (0 < length cumulative_weights <= length base_notoriety)%nat ->
    in_range 0 NOTORIETY_CAP base_notoriety ->
    exists values,
      _simulate_sequence base_notoriety cheese_sequence cumulative_weights src n
        = Returns (values, all_ready values) (n + length cheese_sequence)%nat /\
      length values = length base_notoriety /\
      in_range 0 NOTORIETY_CAP values /\
      forall (j : nat) (v : Z), base_notoriety !! j = Some v ->
        exists v', values !! j = Some v' /\
          v - Z.of_nat (length cheese_sequence) <= v' <= v + Py.sum cheese_sequence /\
          (1 <= v -> 1 <= v').
Proof.
  unfold _simulate_sequence, mbind, M_bind, bind.
  induction 1 as [|cheese_value rest Hc Hrest IH]; intros n base_notoriety Hlen Hrange; simpl.
  - exists base_notoriety. split; [unfold ret; f_equal; lia|]. split; [done|]. split; [done|].
    intros j v Hj. exists v. split; [done|]. change (Py.sum []) with 0. lia.
  - unfold mbind, M_bind, bind.
    destruct (apply_hunt_step_spec src n base_notoriety cheese_value cumulative_weights Hlen)
      as (values1 & Hstep & Hl1 & Hv1).
    destruct (apply_hunt_step_in_range src n base_notoriety cheese_value cumulative_weights
                Hlen Hc Hrange) as (values1' & Hstep' & _ & Hrange1).
    rewrite Hstep in Hstep'. injection Hstep' as <-. rewrite Hstep.
    destruct (IH (S n) values1) as (values & Hrun & Hl & Hr & Hv); [lia | done |].
    exists values. split; [|split; [lia|split; [done|]]].
    + destruct (for_each rest _ values1 src (S n)) as [w m| |]; [|done..].
      unfold ret in *. simplify_eq. f_equal. lia.
    + intros j v Hj. specialize (Hv1 j v Hj).
      destruct (Hv j _ Hv1) as (v' & Hv' & Hbound & Hfloor).
      exists v'. split; [done|]. rewrite sum_cons.
      assert (0 <= Py.sum rest) as Hsum.
      { clear -Hrest. induction Hrest as [|x l Hx _ IHl]; [done|]. rewrite sum_cons. lia. }
      unfold in_range, NOTORIETY_CAP in *. rewrite Forall_lookup in Hrange.
      specialize (Hrange j v Hj). simpl length.
      repeat case_bool_decide; lia.
Qed.

(** X4. A whole run of [_simulate_sequence] on a vector in [0, 200] returns
    after one draw per token with a vector of the same length, again in
    [0, 200]; its ready flag says whether every entry is at least 80; an entry
    loses at most one point per hunt, gains at most the points of all the
    tokens, and stays at least 1 when it started at least 1. *)
Theorem simulate_sequence_bounds src n cumulative_weights (base_notoriety cheese_sequence : list Z) :
  Forall (fun cheese_value => 0 <= cheese_value) cheese_sequence ->
  (0 < length cumulative_weights <= length base_notoriety)%nat ->
  in_range 0 NOTORIETY_CAP base_notoriety ->
  exists values ready,
    _simulate_sequence base_notoriety cheese_sequence cumulative_weights src n
      = Returns (values, ready) (n + length cheese_sequence)%nat /\
    (ready = true <-> Forall (fun value => 80 <= value) values) /\
    length values = length base_notoriety /\
    in_range 0 NOTORIETY_CAP values /\
    forall (j : nat) (v v' : Z), base_notoriety !! j = Some v -> values !! j = Some v' ->
      v - Z.of_nat (length cheese_sequence) <= v' /\
      v' <= v + Py.sum cheese_sequence /\
      (1 <= v -> 1 <= v').
Proof.
  intros Hseq Hlen Hrange.
  destruct (simulate_sequence_entries src cumulative_weights cheese_sequence Hseq n
              base_notoriety Hlen Hrange) as (values & Hrun & Hl & Hr & Hv).
  exists values, (all_ready values). split; [done|]. split.
  { unfold all_ready, Py.all. rewrite forallb_forall, Forall_forall.
    split; intros H x Hx.
    - apply list_elem_of_In in Hx. specialize (H x Hx). by apply bool_decide_eq_true in H.
    - apply bool_decide_eq_true. apply H. by apply list_elem_of_In. }
  split; [done|]. split; [done|].
  intros j v v' Hj Hj'. destruct (Hv j v Hj) as (v'' & Hv'' & Hbound & Hfloor).
  rewrite Hj' in Hv''. injection Hv'' as <-. lia.
Qed.

Lemma simulate_sequence_bounds_witness :
  exists values ready,
    _simulate_sequence [0; 30; 120; 1; 200] [125; 50; 50] sample_table (constant_source 0.3) 0%nat
      = Returns (values, ready) (0 + length [125; 50; 50])%nat /\
    (ready = true <-> Forall (fun value => 80 <= value) values) /\
    length values = length [0; 30; 120; 1; 200] /\
    in_range 0 NOTORIETY_CAP values /\
    forall (j : nat) (v v' : Z), [0; 30; 120; 1; 200] !! j = Some v -> values !! j = Some v' ->
      v - Z.of_nat (length [125; 50; 50]) <= v' /\
      v' <= v + Py.sum [125; 50; 50] /\
      (1 <= v -> 1 <= v').
Proof.
  apply (simulate_sequence_bounds (constant_source 0.3) 0%nat sample_table [0; 30; 120; 1; 200]
           [125; 50; 50]).
  - repeat (constructor; [lia|]). constructor.
  - simpl. lia.
  - unfold in_range, NOTORIETY_CAP. repeat (constructor; [lia|]). constructor.
Defined.

End SpendSequence.

(** ** The allocator tab *)

Section Allocator.
Import PostscriptBase CheeseAllocator.

Lemma sum_insert (l : list Z) : forall (i : nat) (c x : Z),
  l !! i = Some c -> Py.sum (<[i := x]> l) = Py.sum l - c + x.
Proof.
  induction l as [|y l IH]; intros [|i] c x Hc; simpl in *; try done.
  - injection Hc as ->. rewrite !sum_cons. lia.
  - rewrite !sum_cons, (IH i c x Hc). lia.
Qed.

(** The accumulation loop adds the vector to the totals, entry by entry. *)
Lemma add_to_totals_from (values : list Z) : forall (k : nat) (totals : list Z),
  (k + length values <= length totals)%nat ->
  exists totals',
    foldl (fun (acc : option (list Z)) (item : nat * Z) =>
             totals ← acc;
             total ← totals !! item.1;
             Some (<[item.1 := total + item.2]> totals))
          (Some totals) (imap (fun i v => ((k + i)%nat, v)) values) = Some totals' /\
    length totals' = length totals /\
    forall (j : nat) (t : Z), totals !! j = Some t ->
      totals' !! j = Some (t + (if decide (k <= j)%nat then default 0 (values !! (j - k)%nat) else 0)).
Proof.
  induction values as [|v values IH]; intros k totals Hlen; simpl in *.
  - exists totals. split; [done|]. split; [done|]. intros j t Hj. rewrite Hj.
    destruct (decide (k <= j)%nat); rewrite ?lookup_nil; simpl; f_equal; lia.
  - destruct (lookup_lt_is_Some_2 totals (k + 0)) as [t0 Ht0]; [lia|].
    rewrite Ht0. simpl.
    destruct (IH (S k) (<[(k + 0)%nat := t0 + v]> totals)) as (totals' & Hrun & Hl & Hspec);
      [rewrite length_insert; lia|].
    exists totals'. split.
    + rewrite <- Hrun. f_equal. apply imap_ext. intros i x _. simpl. f_equal. lia.
    + split; [by rewrite Hl, length_insert|].
      intros j t Hj. destruct (decide (j = k)) as [->|Hne].
      * rewrite (Hspec k (t0 + v)).
        -- rewrite Nat.add_0_r in Ht0. rewrite Hj in Ht0. injection Ht0 as <-.
           rewrite decide_False by lia. rewrite decide_True by lia.
           rewrite Nat.sub_diag. simpl. f_equal. lia.
        -- rewrite Nat.add_0_r. apply list_lookup_insert_eq. rewrite Nat.add_0_r in Ht0.
           by eapply lookup_lt_Some.
      * rewrite (Hspec j t) by ((rewrite list_lookup_insert_ne by lia); done).
        f_equal. f_equal.
        destruct (decide (S k <= j)%nat), (decide (k <= j)%nat); try lia.
        replace (j - k)%nat with (S (j - S k)) by lia. done.
Qed.

Lemma add_to_totals_spec (totals values : list Z) :
  (length values <= length totals)%nat ->
  exists totals',
    add_to_totals totals values = Some totals' /\
    length totals' = length totals /\
    forall (j : nat) (t : Z), totals !! j = Some t ->
      totals' !! j = Some (t + default 0 (values !! j)).
Proof.
  intros Hlen. destruct (add_to_totals_from values 0 totals) as (totals' & Hrun & Hl & Hspec);
    [simpl; lia|].
  exists totals'. split; [exact Hrun|]. split; [done|].
  intros j t Hj. rewrite (Hspec j t Hj). rewrite decide_True by lia. by rewrite Nat.sub_0_r.
Qed.

(** Adding a vector in [0, 200] to totals in [0, 200 k] gives totals in
    [0, 200 (k + 1)]. *)
Lemma add_to_totals_range (totals values : list Z) (k : Z) :
  length values = length totals ->
  in_range 0 NOTORIETY_CAP values ->
  in_range 0 (NOTORIETY_CAP * k) totals ->
  exists totals',
    add_to_totals totals values = Some totals' /\
    length totals' = length totals /\
    in_range 0 (NOTORIETY_CAP * (k + 1)) totals'.
Proof.
  intros Hlen Hv Ht.
  destruct (add_to_totals_spec totals values) as (totals' & Hrun & Hl & Hspec); [lia|].
  exists totals'. split; [done|]. split; [done|].
  unfold in_range, NOTORIETY_CAP in *. rewrite Forall_lookup in Hv, Ht. apply Forall_lookup.
  intros j t' Hj.
  destruct (lookup_lt_is_Some_2 totals j) as [t Htj]; [rewrite <- Hl; by eapply lookup_lt_Some|].
  rewrite (Hspec j t Htj) in Hj. injection Hj as <-.
  destruct (lookup_lt_is_Some_2 values j) as [v Hvj]; [rewrite Hlen; by eapply lookup_lt_Some|].
  rewrite Hvj. simpl. specialize (Hv j v Hvj). specialize (Ht j t Htj). lia.
Qed.

Lemma filter_all (P : Z -> Prop) `{!forall x, Decision (P x)} (l : list Z) :
  length (filter P l) = length l -> Forall P l.
Proof.
  induction l as [|x l IH]; [constructor|].
  rewrite filter_cons. destruct (decide (P x)) as [Hx|Hx]; simpl.
  - intros [= Hl]. constructor; [done | by apply IH].
  - intros Hl. pose proof (length_filter P l). lia.
Qed.

Lemma count_threshold_spec (values : list Z) (threshold_counts : gmap Z (list Z))
    (threshold k : Z) (counts : list Z) :
  length values = 5%nat ->
  threshold_counts !! threshold = Some counts ->
  bucket_ok k counts ->
  exists (above : nat) (count : Z),
    above = length (filter (fun val => threshold < val) values) /\
    counts !! above = Some count /\
    count_threshold values threshold_counts threshold =
      Some (<[threshold := <[above := count + 1]> counts]> threshold_counts) /\
    bucket_ok (k + 1) (<[above := count + 1]> counts).
Proof.
  intros Hlen Hlk (Hl & Hpos & Hsum).
  pose proof (length_filter (fun val => threshold < val) values) as Hle.
  destruct (lookup_lt_is_Some_2 counts (length (filter (fun val => threshold < val) values)))
    as [count Hcount]; [lia|].
  exists (length (filter (fun val => threshold < val) values)), count.
  split; [done|]. split; [done|]. split.
  - unfold count_threshold. rewrite Hlk. simpl. by rewrite Hcount.
  - split; [by rewrite length_insert|]. split.
    + pose proof (proj1 (Forall_lookup _ _) Hpos _ _ Hcount) as Hc. simpl in Hc.
      apply Forall_insert; [done | lia].
    + rewrite (sum_insert _ _ count) by done. lia.
Qed.

Lemma initial_hunt_stats_ok : hunt_stats_ok 0 initial_hunt_stats.
Proof.
  split; [done|]. split; [done|]. split.
  { unfold in_range. simpl. repeat (constructor; [done|]). constructor. }
  split.
  - intros threshold Hin. unfold THRESHOLD_BREAKPOINTS in Hin.
    rewrite !elem_of_cons, elem_of_nil in Hin.
    destruct Hin as [->|[->|[->|[]]]]; (eexists; split; [reflexivity|]);
      (split; [done|]; split; [|done]); simpl; repeat (constructor; [done|]); constructor.
  - by exists (replicate 6 0), 0.
Qed.

Lemma count_hunt_run_ok (k : Z) (values : list Z) (stats : HuntStats) :
  length values = 5%nat ->
  in_range 0 NOTORIETY_CAP values ->
  hunt_stats_ok k stats ->
  exists stats',
    count_hunt_run values (all_ready values) stats = Some stats' /\
    hunt_stats_ok (k + 1) stats'.
Proof.
  intros Hlen Hrange (Hready & Hl & Htotals & Hbuckets & Hall).
  destruct (add_to_totals_range (totals stats) values k) as (totals' & Hadd & Hl' & Hrange');
    [lia | done | done |].
  destruct (Hbuckets 80) as (c80 & H80 & Hok80);
    [unfold THRESHOLD_BREAKPOINTS; rewrite !elem_of_cons; auto|].
  destruct (Hbuckets 90) as (c90 & H90 & Hok90);
    [unfold THRESHOLD_BREAKPOINTS; rewrite !elem_of_cons; auto|].
  destruct (Hbuckets 93) as (c93 & H93 & Hok93);
    [unfold THRESHOLD_BREAKPOINTS; rewrite !elem_of_cons; auto|].
  destruct (count_threshold_spec values (threshold_counts stats) 80 k c80 Hlen H80 Hok80)
    as (a80 & n80 & Ha80 & Hn80 & Hrun80 & Hok80').
  set (tc1 := <[80 := <[a80 := n80 + 1]> c80]> (threshold_counts stats)) in *.
  destruct (count_threshold_spec values tc1 90 k c90 Hlen) as (a90 & n90 & Ha90 & Hn90 & Hrun90 & Hok90');
    [by subst tc1; rewrite lookup_insert_ne | done |].
  set (tc2 := <[90 := <[a90 := n90 + 1]> c90]> tc1) in *.
  destruct (count_threshold_spec values tc2 93 k c93 Hlen) as (a93 & n93 & Ha93 & Hn93 & Hrun93 & Hok93');
    [by subst tc2 tc1; rewrite !lookup_insert_ne | done |].
  set (tc3 := <[93 := <[a93 := n93 + 1]> c93]> tc2) in *.
  eexists. split.
  { unfold count_hunt_run. rewrite Hadd. simpl. rewrite Hrun80. simpl. rewrite Hrun90. simpl.
    rewrite Hrun93. simpl. reflexivity. }
  split; [simpl; destruct (all_ready values); lia|].
  split; [simpl; lia|]. split; [done|]. split.
  - simpl. intros threshold Hin. unfold THRESHOLD_BREAKPOINTS in Hin.
    rewrite !elem_of_cons, elem_of_nil in Hin. destruct Hin as [->|[->|[->|[]]]].
    + eexists. split; [|exact Hok80']. subst tc3 tc2 tc1.
      rewrite !lookup_insert_ne by done. by rewrite lookup_insert_eq.
    + eexists. split; [|exact Hok90']. subst tc3 tc2.
      rewrite lookup_insert_ne by done. by rewrite lookup_insert_eq.
    + eexists. split; [|exact Hok93']. subst tc3. by rewrite lookup_insert_eq.
  - simpl. destruct Hall as (c80' & all_above & H80' & Hfive & Hle).
    rewrite H80 in H80'. injection H80' as <-.
    exists (<[a80 := n80 + 1]> c80).
    destruct (decide (a80 = 5%nat)) as [Hfull|Hpart].
    + exists (n80 + 1). split.
      { subst tc3 tc2 tc1. rewrite !lookup_insert_ne by done. by rewrite lookup_insert_eq. }
      split.
      { rewrite Hfull. apply list_lookup_insert_eq. destruct Hok80 as [Hl80 _]. lia. }
      rewrite Hfull, Hfive in Hn80. injection Hn80 as <-.
      assert (all_ready values = true) as ->; [|lia].
      unfold all_ready, Py.all. apply forallb_forall. intros x Hx%list_elem_of_In.
      apply bool_decide_eq_true.
      assert (Forall (fun val => 80 < val) values) as Hall80.
      { apply (filter_all (fun val => 80 < val)). lia. }
      rewrite Forall_forall in Hall80. specialize (Hall80 x Hx). lia.
    + exists all_above. split.
      { subst tc3 tc2 tc1. rewrite !lookup_insert_ne by done. by rewrite lookup_insert_eq. }
      split; [by rewrite list_lookup_insert_ne|].
      destruct (all_ready values); lia.
Qed.

(** The loop over the runs, from any state that satisfies the invariant. *)
Lemma hunt_loop_ok src (base_notoriety cheese_sequence : list Z) cumulative_weights
    (steps : list nat) :
  Forall (fun cheese_value => 0 <= cheese_value) cheese_sequence ->
  length base_notoriety = 5%nat ->
  (0 < length cumulative_weights <= 5)%nat ->
  in_range 0 NOTORIETY_CAP base_notoriety ->
  forall (k : Z) (stats : HuntStats) n,
    hunt_stats_ok k stats ->
    exists stats',
      for_each steps
        (fun stats _ =>
           '(values, sim_ready) ← _simulate_sequence base_notoriety cheese_sequence cumulative_weights;
           lift (count_hunt_run values sim_ready stats))
        stats src n
        = Returns stats' (n + length steps * length cheese_sequence)%nat /\
      hunt_stats_ok (k + Z.of_nat (length steps)) stats'.
Proof.
  intros Hseq Hlen Htable Hrange.
  induction steps as [|step steps IH]; intros k stats n Hok; simpl.
  - exists stats. split; [unfold ret; f_equal; lia|]. by rewrite Z.add_0_r.
  - unfold mbind, M_bind, bind.
    destruct (simulate_sequence_in_range src cumulative_weights cheese_sequence Hseq n
                base_notoriety) as (values & -> & Hl & Hr); [lia | done |].
    destruct (count_hunt_run_ok k values stats) as (stats1 & -> & Hok1); [lia | done | done |].
    simpl. unfold ret.
    destruct (IH (k + 1) stats1 (n + length cheese_sequence)%nat Hok1) as (stats' & Hrun & Hok').
    exists stats'. split.
    + etrans; [exact Hrun|]. f_equal. lia.
    + replace (k + Z.of_nat (S (length steps))) with (k + 1 + Z.of_nat (length steps)) by lia. done.
Qed.

(** X5. With a valid cheese total, five notoriety entries and five page
    entries, [_run_hunt_simulation] returns after one draw per simulated
    hunt (100,001 runs of the sequence).  The single run ends in [0, 200].
    Over the 100,000 runs: the ready count is between 0 and 100,000; each
    total is between 0 and 200 * 100,000; for each breakpoint 80, 90 and 93
    the six buckets are non-negative and sum to 100,000; and the runs with
    all five categories above 80 are at most the ready runs. *)
Theorem run_hunt_simulation_statistics (vars : AllocatorVars) src n :
  (3 <= length (alloc_cheese_vars vars))%nat ->
  Py.sum (alloc_cheese_vars vars) = _target_hunts vars ->
  length (alloc_notoriety_vars vars) = 5%nat ->
  Forall (fun value => 0 <= value) (alloc_notoriety_vars vars) ->
  (5 <= length (alloc_page_vars vars))%nat ->
  exists cheese_sequence final_values stats,
    _build_cheese_sequence (alloc_cheese_vars vars) = Some cheese_sequence /\
    _run_hunt_simulation vars src n
      = Returns (Some (final_values, all_ready final_values, stats))
                (n + (Z.to_nat 100000 + 1) * length cheese_sequence)%nat /\
    in_range 0 NOTORIETY_CAP final_values /\
    0 <= ready_runs stats <= 100000 /\
    length (totals stats) = 5%nat /\
    in_range 0 (NOTORIETY_CAP * 100000) (totals stats) /\
    (forall threshold, threshold ∈ THRESHOLD_BREAKPOINTS ->
       exists counts,
         threshold_counts stats !! threshold = Some counts /\
         length counts = 6%nat /\ Forall (fun count => 0 <= count) counts /\
         Py.sum counts = 100000) /\
    (exists counts all_above,
       threshold_counts stats !! 80 = Some counts /\ counts !! 5%nat = Some all_above /\
       all_above <= ready_runs stats).
Proof.
  intros Hcheese Hsum Hnot Hpos Hpages.
  unfold _run_hunt_simulation. remember (Z.to_nat 100000) as runs eqn:Hruns.
  destruct (alloc_cheese_vars vars) as [|c25 [|c50 [|c125 rest]]] eqn:Ecounts;
    try (simpl in Hcheese; lia).
  pose proof (cheese_sequence_of_three c25 c50 c125 rest) as Hbuild.
  set (cheese_sequence := replicate (Z.to_nat c125) 125 ++ replicate (Z.to_nat c50) 50 ++
                          replicate (Z.to_nat c25) 25) in *.
  assert (Forall (fun cheese_value => 0 <= cheese_value) cheese_sequence) as Hseq.
  { subst cheese_sequence. rewrite !Forall_app. repeat split; by apply Forall_replicate. }
  set (base_notoriety := Z.min NOTORIETY_CAP <$> alloc_notoriety_vars vars).
  assert (length base_notoriety = 5%nat) as Hlen by (subst base_notoriety; by rewrite length_fmap).
  assert (in_range 0 NOTORIETY_CAP base_notoriety) as Hrange.
  { subst base_notoriety. unfold in_range, NOTORIETY_CAP. apply Forall_fmap.
    eapply Forall_impl; [exact Hpos|]. simpl. intros x Hx. lia. }
  assert (exists weights, get_genre_weight_distribution (alloc_page_vars vars) = Some weights)
    as [weights Hweights].
  { unfold get_genre_weight_distribution, weights_of_page_counts.
    destruct (alloc_page_vars vars) as [|a [|b [|c [|d [|e pages]]]]]; try (simpl in Hpages; lia).
    simpl mapM. cbn [mbind mret option_bind option_ret].
    case_bool_decide; [by eexists|]. unfold genre_dict. simpl. by eexists. }
  set (cumulative_weights := PostscriptBase._prepare_weight_cumulative weights).
  assert (length cumulative_weights = 5%nat) as Htable by reflexivity.
  destruct (simulate_sequence_in_range src cumulative_weights cheese_sequence Hseq n
              base_notoriety) as (final_values & Hsingle & _ & Hfinal); [lia | done |].
  destruct (hunt_loop_ok src base_notoriety cheese_sequence cumulative_weights
              (seq 0 runs) Hseq Hlen ltac:(lia) Hrange 0 initial_hunt_stats
              (n + length cheese_sequence)%nat initial_hunt_stats_ok)
    as (stats & Hloop & Hok).
  rewrite length_seq in Hloop, Hok. rewrite Hruns, Z2Nat.id in Hok by lia. simpl in Hok.
  exists cheese_sequence, final_values, stats. split; [done|]. split.
  { rewrite bool_decide_eq_false_2 by (intros Hne; by apply Hne).
    rewrite Hbuild. unfold mbind, M_bind, bind. cbn [lift ret].
    unfold CheeseAllocator._prepare_weight_cumulative. rewrite Hweights.
    cbn [lift ret mbind option_bind].
    fold base_notoriety cumulative_weights. rewrite Hsingle.
    unfold hunt_runs. rewrite Hloop. unfold ret. f_equal. lia. }
  destruct Hok as (Hready & Hl & Htotals & Hbuckets & Hall).
  split; [done|]. split; [done|]. split; [done|]. split; [done|]. split; [|done].
  intros threshold Hin. destruct (Hbuckets threshold Hin) as (counts & Hlk & Hl6 & Hnn & Hs).
  by exists counts.
Qed.

Lemma run_hunt_simulation_statistics_witness :
  exists cheese_sequence final_values stats,
    _build_cheese_sequence (alloc_cheese_vars sample_allocator_vars) = Some cheese_sequence /\
    _run_hunt_simulation sample_allocator_vars (constant_source 0.3) 0%nat
      = Returns (Some (final_values, all_ready final_values, stats))
                (0 + (Z.to_nat 100000 + 1) * length cheese_sequence)%nat /\
    in_range 0 NOTORIETY_CAP final_values /\
    0 <= ready_runs stats <= 100000 /\
    length (totals stats) = 5%nat /\
    in_range 0 (NOTORIETY_CAP * 100000) (totals stats) /\
    (forall threshold, threshold ∈ THRESHOLD_BREAKPOINTS ->
       exists counts,
         threshold_counts stats !! threshold = Some counts /\
         length counts = 6%nat /\ Forall (fun count => 0 <= count) counts /\
         Py.sum counts = 100000) /\
    (exists counts all_above,
       threshold_counts stats !! 80 = Some counts /\ counts !! 5%nat = Some all_above /\
       all_above <= ready_runs stats).
Proof.
  apply (run_hunt_simulation_statistics sample_allocator_vars (constant_source 0.3) 0%nat).
  - simpl. lia.
  - reflexivity.
  - reflexivity.
  - simpl. repeat (constructor; [lia|]). constructor.
  - simpl. lia.
Defined.

(** X6. The default counts put every hunt on the 50-point cheese: for the
    three cheese entries of the allocator tab, and of a setup of the dual
    simulator, they are 0, the target and 0; they pass the total check, and
    their spend sequence is the target number of 50-point tokens. *)
Theorem default_counts_pass_the_check (vars : AllocatorVars) (setup : Setup) :
  length (alloc_cheese_vars vars) = 3%nat ->
  length (cheese_vars setup) = 3%nat ->
  let target := _target_hunts vars in
  let setup_target := DualPostscriptSimulator._setup_target_hunts setup in
  _set_default_counts vars = Some [0; target; 0] /\
  Py.sum [0; target; 0] = target /\
  _build_cheese_sequence [0; target; 0] = Some (replicate (Z.to_nat target) 50) /\
  Z.to_nat target = (if alloc_extend_var vars then 13 else 10)%nat /\
  DualPostscriptSimulator._set_default_setup_counts setup = Some [0; setup_target; 0] /\
  Py.sum [0; setup_target; 0] = setup_target.
Proof.
  intros Hvars Hsetup target setup_target.
  unfold _set_default_counts, DualPostscriptSimulator._set_default_setup_counts.
  destruct (alloc_cheese_vars vars) as [|a [|b [|c [|]]]]; try done.
  destruct (cheese_vars setup) as [|a' [|b' [|c' [|]]]]; try done.
  repeat split.
  - rewrite !sum_cons. change (Py.sum []) with 0. lia.
  - rewrite cheese_sequence_of_three. simpl. by rewrite app_nil_r.
  - subst target. unfold _target_hunts, _compute_target_hunts. by destruct (alloc_extend_var vars).
  - rewrite !sum_cons. change (Py.sum []) with 0. lia.
Qed.

Lemma default_counts_pass_the_check_witness :
  let target := _target_hunts sample_allocator_vars in
  let setup_target := DualPostscriptSimulator._setup_target_hunts sample_second in
  _set_default_counts sample_allocator_vars = Some [0; target; 0] /\
  Py.sum [0; target; 0] = target /\
  _build_cheese_sequence [0; target; 0] = Some (replicate (Z.to_nat target) 50) /\
  Z.to_nat target = (if alloc_extend_var sample_allocator_vars then 13 else 10)%nat /\
  DualPostscriptSimulator._set_default_setup_counts sample_second = Some [0; setup_target; 0] /\
  Py.sum [0; setup_target; 0] = setup_target.
Proof.
  apply (default_counts_pass_the_check sample_allocator_vars sample_second); reflexivity.
Defined.

(** X7. A click on [+] or [-] changes one cheese count and leaves it
    non-negative: from non-negative counts, [+] then [-] on the same entry
    gives the counts back; [-] then [+] gives them back exactly when the
    entry was at least 1, since [-] stops at 0. *)
Theorem adjust_count_round_trip (cheese_vars : list Z) (index current : Z) :
  0 <= index < Z.of_nat (length cheese_vars) ->
  cheese_vars !! Z.to_nat index = Some current ->
  0 <= current ->
  exists up down,
    _adjust_count cheese_vars index 1 = Some up /\
    up = <[Z.to_nat index := current + 1]> cheese_vars /\
    _adjust_count up index (-1) = Some cheese_vars /\
    _adjust_count cheese_vars index (-1) = Some down /\
    down = <[Z.to_nat index := Z.max 0 (current - 1)]> cheese_vars /\
    (_adjust_count down index 1 = Some cheese_vars <-> 1 <= current).
Proof.
  intros Hindex Hcurrent Hpos.
  assert (forall counts x delta,
            length counts = length cheese_vars -> counts !! Z.to_nat index = Some x ->
            _adjust_count counts index delta = Some (<[Z.to_nat index := Z.max 0 (x + delta)]> counts))
    as Hstep.
  { intros counts x delta Hl Hx. unfold _adjust_count.
    rewrite index_in_range by lia. simpl. by rewrite Hx. }
  assert (Z.to_nat index < length cheese_vars)%nat as Hlt by lia.
  exists (<[Z.to_nat index := current + 1]> cheese_vars),
         (<[Z.to_nat index := Z.max 0 (current - 1)]> cheese_vars).
  split; [rewrite (Hstep _ current) by done; do 2 f_equal; lia|].
  split; [done|]. split; [|split; [|split; [done|]]].
  - rewrite (Hstep _ (current + 1)); [|by rewrite length_insert|by apply list_lookup_insert_eq].
    rewrite list_insert_insert_eq. f_equal. apply list_insert_id.
    rewrite Hcurrent. f_equal. lia.
  - rewrite (Hstep _ current) by done. do 2 f_equal.
  - rewrite (Hstep _ (Z.max 0 (current - 1)));
      [|by rewrite length_insert|by apply list_lookup_insert_eq].
    rewrite list_insert_insert_eq. split.
    + intros [= Heq]. apply (f_equal (fun l => l !! Z.to_nat index)) in Heq.
      rewrite list_lookup_insert_eq, Hcurrent in Heq by done. injection Heq as Heq. lia.
    + intros Hone. f_equal. apply list_insert_id. rewrite Hcurrent. f_equal. lia.
Qed.

Lemma adjust_count_round_trip_witness :
  exists up down,
    _adjust_count [0; 10; 0] 1 1 = Some up /\
    up = <[Z.to_nat 1 := 10 + 1]> [0; 10; 0] /\
    _adjust_count up 1 (-1) = Some [0; 10; 0] /\
    _adjust_count [0; 10; 0] 1 (-1) = Some down /\
    down = <[Z.to_nat 1 := Z.max 0 (10 - 1)]> [0; 10; 0] /\
    (_adjust_count down 1 1 = Some [0; 10; 0] <-> 1 <= 10).
Proof.
  apply (adjust_count_round_trip [0; 10; 0] 1 10).
  - simpl. lia.
  - reflexivity.
  - lia.
Defined.

End Allocator.

(** ** The two-stage simulators *)

Section TwoStages.
Import PostscriptBase DualPostscriptSimulator DualPostscriptPrunedSimulator.

Lemma weights_of_page_counts_is_Some (page_counts : list Z) :
  (5 <= length page_counts)%nat -> is_Some (weights_of_page_counts page_counts).
Proof.
  intros Hlen. unfold weights_of_page_counts.
  destruct page_counts as [|a [|b [|c [|d [|e pages]]]]]; try (simpl in Hlen; lia).
  simpl mapM. cbn [mbind mret option_bind option_ret].
  case_bool_decide; [by eexists|]. unfold genre_dict. simpl. by eexists.
Qed.

Lemma config_of_counts_is_Some setup_data setup page_counts :
  setup ∈ setup_data -> is_Some (config_of_counts setup_data setup page_counts).
Proof.
  intros Hin. unfold config_of_counts.
  destruct (auto_extend_var setup); simpl; [|by eexists].
  destruct (Py.max_list page_counts) as [max_pages|]; [|by eexists].
  case_bool_decide; [by eexists|].
  destruct (list_find_elem_of (fun s => s = setup) setup_data setup Hin eq_refl) as [[i s] ->].
  by eexists.
Qed.

(** The trigger of a config built from [page_counts] returns a flag when the
    page counts it consults for the second setup are those same counts. *)
Lemma trigger_with_counts_is_Some setup_data setup page_counts config consulted (values : list Z) :
  config_of_counts setup_data setup page_counts = Some (Some config) ->
  (setup_index config = 1%nat -> consulted = Some page_counts) ->
  (length page_counts <= length values)%nat ->
  is_Some (trigger_with_counts consulted values config) /\
  Forall (fun idx => (idx < length values)%nat) (top_indices config) /\
  extra_hunts config = 3%nat.
Proof.
  intros Hconfig Hsame Hlen.
  apply config_of_counts_spec in Hconfig
    as (max_pages & _ & _ & Hpos & Htop & _ & _ & Hhunts & _).
  assert (Forall (fun idx => (idx < length values)%nat) (top_indices config)) as Hin
    by (rewrite Htop; by apply top_of_in_range).
  split; [|done].
  destruct (any_below_spec values (threshold_ready config) (top_indices config) Hin)
    as (b & Hb & _).
  unfold trigger_with_counts. case_bool_decide as Hone; simpl.
  - rewrite (Hsame Hone). simpl.
    destruct (trigger_with_counts_reduces page_counts values config max_pages Hpos Htop)
      as [-> _]. simpl. rewrite Hb. by eexists.
  - rewrite Hb. by eexists.
Qed.

(** The extra hunts of an extension return after one draw each and keep the
    vector in [0, 200]. *)
Lemma extension_loop_returns src cumulative_weights config :
  forall (hunts : nat) (values : list Z) switch n,
    Forall (fun idx => (idx < length values)%nat) (top_indices config) ->
    (0 < length cumulative_weights <= length values)%nat ->
    in_range 0 NOTORIETY_CAP values ->
    exists final used,
      extension_loop hunts values switch cumulative_weights config src n
        = Returns (final, used) (n + hunts)%nat /\
      length final = length values /\
      in_range 0 NOTORIETY_CAP final.
Proof.
  induction hunts as [|hunts IH]; intros values switch n Hin Hlen Hrange; simpl.
  - exists values, []. split; [unfold ret; f_equal; lia | done].
  - assert (exists cheese_value switch',
              extension_cheese values config switch = Some (cheese_value, switch') /\
              0 <= cheese_value) as (cheese_value & switch' & -> & Hc).
    { unfold extension_cheese. destruct switch; [eexists _, _; split; [done | lia]|].
      destruct (any_below_spec values (threshold_high config) (top_indices config) Hin)
        as (b & -> & _). simpl. destruct b; eexists _, _; (split; [done | lia]). }
    unfold mbind, M_bind, bind. cbn [lift ret].
    destruct (apply_hunt_step_in_range src n values cheese_value cumulative_weights Hlen Hc Hrange)
      as (values' & -> & Hl & Hr).
    destruct (IH values' switch' (S n)) as (final & used & -> & Hl' & Hr');
      [by rewrite Hl | lia | done |].
    exists final, ((values, cheese_value) :: used). split; [unfold ret; f_equal; lia|].
    split; [lia | done].
Qed.

(** The tail shared by [_execute_setup] and
    [_execute_setup_with_custom_weights]: the extension, when its config
    exists and its trigger is raised, and the ready flag. *)
Lemma extension_tail_returns src n (values : list Z) cumulative_weights
    (config : option ExtensionConfig) (trigger : ExtensionConfig -> option bool) :
  (forall c, config = Some c ->
     is_Some (trigger c) /\
     Forall (fun idx => (idx < length values)%nat) (top_indices c) /\
     extra_hunts c = 3%nat) ->
  (0 < length cumulative_weights <= length values)%nat ->
  in_range 0 NOTORIETY_CAP values ->
  exists (final : list Z) (extended : bool),
    (('(values, extended) ←
        match config return M (list Z * bool) with
        | None => ret (values, false)
        | Some config =>
            trigger ← lift (trigger config);
            if (trigger : bool) then
              values' ← _apply_extension values cumulative_weights config;
              ret (values', true)
            else ret (values, false)
        end;
      ret (values, all_ready values, extended)) : M (list Z * bool * bool)) src n
      = Returns (final, all_ready final, extended) (n + (if extended then 3 else 0))%nat /\
    length final = length values /\
    in_range 0 NOTORIETY_CAP final.
Proof.
  intros Hconfig Hlen Hrange. unfold mbind, M_bind, bind.
  destruct config as [c|].
  - destruct (Hconfig c eq_refl) as ([b Hb] & Hin & Hhunts). rewrite Hb. cbn [lift ret].
    destruct b.
    + unfold _apply_extension, mbind, M_bind, bind. rewrite Hhunts.
      destruct (extension_loop_returns src cumulative_weights c 3 values false n Hin Hlen Hrange)
        as (final & used & -> & Hl & Hr).
      exists final, true. by unfold ret.
    + exists values, false. unfold ret. split; [f_equal; lia | done].
  - exists values, false. unfold ret. split; [f_equal; lia | done].
Qed.

(** [_execute_setup] returns: one draw per token of the sequence, three more
    when the run was extended; the vector keeps its length and stays in
    [0, 200], and the ready flag is computed on the final vector. *)
Lemma execute_setup_returns setup_data (start_values : list Z) (setup_index : nat) sequences
    cumulative_weights setup sequence cumulative src n :
  setup_data !! setup_index = Some setup ->
  sequences !! setup_index = Some sequence ->
  cumulative_weights !! setup_index = Some cumulative ->
  Forall (fun cheese_value => 0 <= cheese_value) sequence ->
  (0 < length cumulative <= length start_values)%nat ->
  (length (page_vars setup) <= length start_values)%nat ->
  in_range 0 NOTORIETY_CAP start_values ->
  exists (final : list Z) (extended : bool),
    _execute_setup setup_data start_values setup_index sequences cumulative_weights src n
      = Returns (final, all_ready final, extended)
                (n + length sequence + (if extended then 3 else 0))%nat /\
    length final = length start_values /\
    in_range 0 NOTORIETY_CAP final.
Proof.
  intros Hsetup Hseq Hcum Hpos Hlen Hpages Hrange.
  unfold _execute_setup. rewrite Hseq, Hcum.
  unfold mbind at 1 2 3, M_bind at 1 2 3, bind at 1 2 3. cbn [lift ret].
  destruct (simulate_sequence_in_range src cumulative sequence Hpos n start_values Hlen Hrange)
    as (values & -> & Hl & Hr).
  rewrite Hsetup. unfold mbind at 1 2, M_bind at 1 2, bind at 1 2. cbn [lift ret].
  destruct (config_of_counts_is_Some setup_data setup (page_vars setup)) as [config Hconfig];
    [by eapply list_elem_of_lookup_2|].
  unfold _extension_config. rewrite Hconfig. cbn [lift ret].
  destruct (extension_tail_returns src (n + length sequence) values cumulative config
              (_should_trigger_extension setup_data values)) as (final & extended & Hrun & Hl' & Hr');
    [|lia|done|].
  { intros c ->. unfold _should_trigger_extension.
    apply (trigger_with_counts_is_Some setup_data setup (page_vars setup)); [done| |lia].
    intros Hone. apply config_of_counts_spec in Hconfig as (? & _ & _ & _ & _ & _ & _ & _ & Hidx).
    rewrite Hone in Hidx. by rewrite Hidx. }
  exists final, extended. split; [|split; [lia | done]].
  etrans; [exact Hrun|]. f_equal.
Qed.

(** The same for [_execute_setup_with_custom_weights], called with the
    pruned counts or without them. *)
Lemma execute_custom_returns setup_data (start_values : list Z) (setup_index : nat) sequence
    cumulative_weights (custom_counts : option (list Z)) setup src n :
  setup_data !! setup_index = Some setup ->
  Forall (fun cheese_value => 0 <= cheese_value) sequence ->
  (0 < length cumulative_weights <= length start_values)%nat ->
  (length (default (page_vars setup) custom_counts) <= length start_values)%nat ->
  in_range 0 NOTORIETY_CAP start_values ->
  exists (final : list Z) (extended : bool),
    _execute_setup_with_custom_weights setup_data start_values setup_index sequence
      cumulative_weights custom_counts src n
      = Returns (final, all_ready final, extended)
                (n + length sequence + (if extended then 3 else 0))%nat /\
    length final = length start_values /\
    in_range 0 NOTORIETY_CAP final.
Proof.
  intros Hsetup Hpos Hlen Hpages Hrange.
  unfold _execute_setup_with_custom_weights.
  unfold mbind at 1, M_bind at 1, bind at 1.
  destruct (simulate_sequence_in_range src cumulative_weights sequence Hpos n start_values
              Hlen Hrange) as (values & -> & Hl & Hr).
  rewrite Hsetup. unfold mbind at 1 2, M_bind at 1 2, bind at 1 2. cbn [lift ret].
  set (counts := default (page_vars setup) custom_counts) in *.
  destruct (config_of_counts_is_Some setup_data setup counts) as [config Hconfig];
    [by eapply list_elem_of_lookup_2|].
  assert (match custom_counts with
          | None => _extension_config setup_data setup
          | Some counts => _extension_config_with_counts setup_data setup counts
          end = Some config) as ->.
  { subst counts. by destruct custom_counts. }
  cbn [lift ret].
  destruct (extension_tail_returns src (n + length sequence) values cumulative_weights config
              (fun config => match custom_counts with
                             | None => _should_trigger_extension setup_data values config
                             | Some counts =>
                                 _should_trigger_extension_with_counts values config counts
                             end)) as (final & extended & Hrun & Hl' & Hr');
    [|lia|done|].
  { intros c ->.
    assert (match custom_counts with
            | None => _should_trigger_extension setup_data values c
            | Some counts => _should_trigger_extension_with_counts values c counts
            end = trigger_with_counts
                    (match custom_counts with
                     | None => page_vars <$> setup_data !! 1%nat
                     | Some counts => Some counts
                     end) values c) as -> by by destruct custom_counts.
    apply (trigger_with_counts_is_Some setup_data setup counts); [done| |lia].
    intros Hone. subst counts. destruct custom_counts as [custom|]; [done|]. simpl in *.
    apply config_of_counts_spec in Hconfig as (? & _ & _ & _ & _ & _ & _ & _ & Hidx).
    rewrite Hone in Hidx. by rewrite Hidx. }
  exists final, extended. split; [|split; [lia | done]].
  etrans; [exact Hrun|]. f_equal.
Qed.

Lemma initial_stats_ok : dual_stats_ok 0 initial_stats.
Proof.
  split; [done|]. split; [done|]. split.
  { unfold in_range. simpl. repeat (constructor; [done|]). constructor. }
  by exists 0, 0.
Qed.

(** The bookkeeping of one pass keeps the invariant. *)
Lemma count_pass_ok (k : Z) (stats : DualStats) (end_values : list Z) (ext1 ext2 run_ready : bool) :
  dual_stats_ok k stats ->
  length end_values = 5%nat ->
  in_range 0 NOTORIETY_CAP end_values ->
  exists stats1 stats2 stats3,
    count_extension 0 ext1 stats = Some stats1 /\
    count_extension 1 ext2 stats1 = Some stats2 /\
    count_run end_values run_ready stats2 = Some stats3 /\
    dual_stats_ok (k + 1) stats3 /\
    total_extensions stats3 = total_extensions stats + Z.b2z ext1 + Z.b2z ext2.
Proof.
  intros (Hready & Hl & Htotals & first_count & second_count & Hcounts & Hfirst & Hsecond & Htotal)
    Hlen Hrange.
  destruct (add_to_totals_range (dual_totals stats) end_values k) as (totals' & Hadd & Hl' & Hr');
    [lia | done | done |].
  assert (forall stats0 a b idx ext,
            extend_counts stats0 = [a; b] -> (idx < 2)%nat ->
            exists a' b',
              count_extension idx ext stats0 =
                Some {| dual_totals := dual_totals stats0;
                        dual_ready_runs := dual_ready_runs stats0;
                        extend_counts := [a'; b'];
                        total_extensions := total_extensions stats0 + Z.b2z ext |} /\
              a' = (if decide (idx = 0%nat) then a + Z.b2z ext else a) /\
              b' = (if decide (idx = 0%nat) then b else b + Z.b2z ext)) as Hext.
  { intros stats0 a b idx ext Hab Hidx. unfold count_extension.
    destruct ext; simpl.
    - rewrite Hab. destruct idx as [|[|idx]]; simpl; [| |lia];
        eexists _, _; (split; [reflexivity|]); split; reflexivity.
    - exists a, b. split; [|destruct (decide (idx = 0%nat)); lia].
      destruct stats0; simpl in *. rewrite Hab. do 2 f_equal. lia. }
  destruct (Hext stats first_count second_count 0%nat ext1 Hcounts ltac:(lia))
    as (a1 & b1 & Hrun1 & Ha1 & Hb1).
  match type of Hrun1 with
  | _ = Some ?stats1 =>
      destruct (Hext stats1 a1 b1 1%nat ext2 eq_refl ltac:(lia))
        as (a2 & b2 & Hrun2 & Ha2 & Hb2)
  end.
  eexists _, _, _. split; [exact Hrun1|]. split; [exact Hrun2|]. split.
  { unfold count_run. simpl. rewrite Hadd. simpl. reflexivity. }
  simpl in Ha1, Hb1, Ha2, Hb2.
  split; [|simpl; lia].
  split; [simpl; destruct run_ready; lia|]. split; [simpl; lia|]. split; [done|].
  exists a2, b2. simpl. split; [done|].
  destruct ext1, ext2; simpl in *; lia.
Qed.

(** A loop whose body keeps the invariant and draws once per hunt. *)
Lemma stats_loop_ok (body : DualStats -> M DualStats) (hunts_per_pass : Z) src :
  (forall k stats n,
     dual_stats_ok k stats ->
     exists stats' n',
       body stats src n = Returns stats' n' /\
       dual_stats_ok (k + 1) stats' /\
       Z.of_nat n' =
         Z.of_nat n + hunts_per_pass + 3 * (total_extensions stats' - total_extensions stats)) ->
  forall (steps : list nat) k stats n,
    dual_stats_ok k stats ->
    exists stats' n',
      for_each steps (fun stats _ => body stats) stats src n = Returns stats' n' /\
      dual_stats_ok (k + Z.of_nat (length steps)) stats' /\
      Z.of_nat n' =
        Z.of_nat n + Z.of_nat (length steps) * hunts_per_pass +
        3 * (total_extensions stats' - total_extensions stats).
Proof.
  intros Hbody. induction steps as [|step steps IH]; intros k stats n Hok; simpl.
  - exists stats, n. split; [done|]. split; [by rewrite Z.add_0_r | lia].
  - unfold mbind, M_bind, bind.
    destruct (Hbody k stats n Hok) as (stats1 & n1 & -> & Hok1 & Hn1).
    destruct (IH (k + 1) stats1 n1 Hok1) as (stats' & n' & Hrun & Hok' & Hn').
    exists stats', n'. split; [exact Hrun|]. split.
    + replace (k + Z.of_nat (S (length steps))) with (k + 1 + Z.of_nat (length steps)) by lia. done.
    + lia.
Qed.

Lemma cheese_sequence_is_Some (counts : list Z) :
  (3 <= length counts)%nat ->
  exists cheese_sequence,
    _build_cheese_sequence counts = Some cheese_sequence /\
    Forall (fun cheese_value => 0 <= cheese_value) cheese_sequence.
Proof.
  intros Hlen. destruct counts as [|c25 [|c50 [|c125 rest]]]; try (simpl in Hlen; lia).
  rewrite cheese_sequence_of_three. eexists. split; [done|].
  rewrite !Forall_app. repeat split; by apply Forall_replicate.
Qed.

Lemma prepare_weight_cumulative_length (weights : genre -> float) :
  length (_prepare_weight_cumulative weights) = 5%nat.
Proof. reflexivity. Qed.

(** One pass of the plain simulator through the two setups. *)
Lemma dual_run_ok first second (base_notoriety first_sequence second_sequence : list Z)
    (first_cumulative second_cumulative : list float) src k stats n :
  length (page_vars first) = 5%nat -> length (page_vars second) = 5%nat ->
  Forall (fun cheese_value => 0 <= cheese_value) first_sequence ->
  Forall (fun cheese_value => 0 <= cheese_value) second_sequence ->
  length first_cumulative = 5%nat -> length second_cumulative = 5%nat ->
  length base_notoriety = 5%nat ->
  in_range 0 NOTORIETY_CAP base_notoriety ->
  dual_stats_ok k stats ->
  exists stats' n',
    dual_run [first; second] base_notoriety [first_sequence; second_sequence]
      [first_cumulative; second_cumulative] stats src n = Returns stats' n' /\
    dual_stats_ok (k + 1) stats' /\
    Z.of_nat n' =
      Z.of_nat n + Z.of_nat (length first_sequence + length second_sequence) +
      3 * (total_extensions stats' - total_extensions stats).
Proof.
  intros Hp1 Hp2 Hs1 Hs2 Hc1 Hc2 Hlen Hrange Hok. unfold dual_run.
  destruct (execute_setup_returns [first; second] base_notoriety 0
              [first_sequence; second_sequence] [first_cumulative; second_cumulative]
              first first_sequence first_cumulative src n)
    as (mid_values & ext1 & Hrun1 & Hl1 & Hr1); try done; try lia.
  destruct (execute_setup_returns [first; second] mid_values 1
              [first_sequence; second_sequence] [first_cumulative; second_cumulative]
              second second_sequence second_cumulative src
              (n + length first_sequence + (if ext1 then 3 else 0)))
    as (end_values & ext2 & Hrun2 & Hl2 & Hr2); try done; try lia.
  destruct (count_pass_ok k stats end_values ext1 ext2 (all_ready end_values) Hok)
    as (stats1 & stats2 & stats3 & Hcount1 & Hcount2 & Hcount3 & Hok3 & Htotal); [lia | done |].
  exists stats3, (n + length first_sequence + (if ext1 then 3 else 0) + length second_sequence +
                  (if ext2 then 3 else 0))%nat.
  split; [|split; [done|]].
  - unfold mbind, M_bind, bind. rewrite Hrun1, Hcount1. cbn [lift ret].
    rewrite Hrun2, Hcount2. cbn [lift ret]. by rewrite Hcount3.
  - rewrite Htotal. destruct ext1, ext2; simpl Z.b2z; lia.
Qed.

(** X8. With two setups that pass the cheese-total check and five entries
    everywhere, the plain two-stage simulator returns its report; the single
    pass and the 50,000 repeated passes keep the vectors in [0, 200], the
    counts of the report are consistent with each other, and one draw was
    made per simulated hunt. *)
Theorem run_dual_simulation_report first second (genre_notoriety_vars : list Z) src n :
  setup_ready first -> setup_ready second ->
  length genre_notoriety_vars = 5%nat ->
  Forall (fun value => 0 <= value) genre_notoriety_vars ->
  exists first_sequence second_sequence report n',
    _build_cheese_sequence (cheese_vars first) = Some first_sequence /\
    _build_cheese_sequence (cheese_vars second) = Some second_sequence /\
    DualPostscriptSimulator._run_dual_simulation [first; second] genre_notoriety_vars src n
      = Returns (Some report) n' /\
    dual_report_ok 50000 (Z.of_nat (length first_sequence + length second_sequence)) n n' report.
Proof.
  intros (Hcheese1 & Hsum1 & Hpages1) (Hcheese2 & Hsum2 & Hpages2) Hlen Hpos.
  destruct (cheese_sequence_is_Some _ Hcheese1) as (first_sequence & Hseq1 & Hs1).
  destruct (cheese_sequence_is_Some _ Hcheese2) as (second_sequence & Hseq2 & Hs2).
  destruct (weights_of_page_counts_is_Some (page_vars first)) as [weights1 Hw1]; [lia|].
  destruct (weights_of_page_counts_is_Some (page_vars second)) as [weights2 Hw2]; [lia|].
  set (base_notoriety := Z.min NOTORIETY_CAP <$> genre_notoriety_vars).
  assert (length base_notoriety = 5%nat) as Hbase by (subst base_notoriety; by rewrite length_fmap).
  assert (in_range 0 NOTORIETY_CAP base_notoriety) as Hrange.
  { subst base_notoriety. unfold in_range, NOTORIETY_CAP. apply Forall_fmap.
    eapply Forall_impl; [exact Hpos|]. simpl. intros x Hx. lia. }
  set (sequences := [first_sequence; second_sequence]).
  set (tables := [_prepare_weight_cumulative weights1; _prepare_weight_cumulative weights2]).
  destruct (execute_setup_returns [first; second] base_notoriety 0 sequences tables
              first first_sequence (_prepare_weight_cumulative weights1) src n)
    as (first_values & ext1 & Hrun1 & Hl1 & Hr1); try done;
    try (rewrite ?prepare_weight_cumulative_length; lia).
  destruct (execute_setup_returns [first; second] first_values 1 sequences tables
              second second_sequence (_prepare_weight_cumulative weights2) src
              (n + length first_sequence + (if ext1 then 3 else 0)))
    as (final_values & ext2 & Hrun2 & Hl2 & Hr2); try done;
    try (rewrite ?prepare_weight_cumulative_length; lia).
  unfold DualPostscriptSimulator._run_dual_simulation.
  remember MULTI_RUNS as runs eqn:Hruns.
  destruct (stats_loop_ok
              (dual_run [first; second] base_notoriety sequences tables)
              (Z.of_nat (length first_sequence + length second_sequence)) src) with
      (steps := seq 0 runs) (k := 0) (stats := initial_stats)
      (n := (n + length first_sequence + (if ext1 then 3 else 0) + length second_sequence +
             (if ext2 then 3 else 0))%nat)
    as (stats & n' & Hloop & Hok & Hn'); [|apply initial_stats_ok|].
  { intros k stats0 n0 Hok0. by apply dual_run_ok. }
  rewrite length_seq in Hok, Hn'.
  assert (Z.of_nat runs = 50000) as Hruns' by (rewrite Hruns; unfold MULTI_RUNS; lia).
  rewrite Hruns' in Hok, Hn'. simpl in Hok.
  eexists first_sequence, second_sequence, _, n'. split; [done|]. split; [done|]. split.
  { unfold Py.all. cbn [forallb]. unfold _get_counts, _setup_target_hunts. rewrite Hsum1, Hsum2.
    rewrite !bool_decide_eq_true_2 by done. cbn [andb negb].
    simpl mapM. rewrite Hseq1, Hseq2. cbn [mbind mret option_bind option_ret].
    unfold _get_weight_distribution. rewrite Hw1, Hw2. cbn [mbind mret option_bind option_ret].
    unfold mbind, M_bind, bind. cbn [lift ret].
    fold base_notoriety sequences tables. unfold mret, option_ret. cbn [lift ret].
    rewrite Hrun1, Hrun2, Hloop. reflexivity. }
  destruct Hok as (Hready & Hl & Htotals & Hcounts).
  unfold dual_report_ok. simpl.
  split; [done|]. split; [done|]. split; [done|]. split; [done|]. split; [done|].
  split; [done|]. split; [done|].
  change (total_extensions initial_stats) with 0 in Hn'.
  destruct ext1, ext2; simpl Z.b2z; lia.
Qed.

Lemma run_dual_simulation_report_witness :
  exists first_sequence second_sequence report n',
    _build_cheese_sequence (cheese_vars sample_first) = Some first_sequence /\
    _build_cheese_sequence (cheese_vars sample_second) = Some second_sequence /\
    DualPostscriptSimulator._run_dual_simulation [sample_first; sample_second] [0; 0; 0; 0; 0]
      (constant_source 0.3) 0%nat = Returns (Some report) n' /\
    dual_report_ok 50000 (Z.of_nat (length first_sequence + length second_sequence)) 0 n' report.
Proof.
  apply (run_dual_simulation_report sample_first sample_second [0; 0; 0; 0; 0]
           (constant_source 0.3) 0%nat).
  - repeat split. simpl. lia.
  - repeat split. simpl. lia.
  - reflexivity.
  - repeat (constructor; [lia|]). constructor.
Defined.

Lemma prepare_pruned_is_Some setup_data second (notoriety_values : list Z) :
  setup_data !! 1%nat = Some second ->
  length (page_vars second) = 5%nat ->
  length notoriety_values = 5%nat ->
  exists table pruned_counts,
    _prepare_pruned_cumulative setup_data notoriety_values = Some (table, pruned_counts) /\
    length table = 5%nat /\ length pruned_counts = 5%nat.
Proof.
  intros Hsecond Hpages Hlen.
  destruct (prune_from_spec (page_vars second) notoriety_values
              (if extend_var second then 93 else 90) 0) as (pruned & Hrun & Hl & _);
    [simpl; lia|].
  unfold _prepare_pruned_cumulative, _build_pruned_page_counts, _second_setup_prune_threshold.
  rewrite Hsecond. simpl. rewrite Hrun. simpl.
  assert (is_Some (_weights_from_counts_list pruned)) as [weights ->].
  { unfold _weights_from_counts_list.
    destruct pruned as [|a [|b [|c [|d [|e [|]]]]]]; try (simpl in Hl; lia).
    case_bool_decide; [by eexists|]. unfold genre_dict. simpl. by eexists. }
  simpl. eexists _, _. split; [reflexivity|]. split; [done | lia].
Qed.

(** One pass of the pruned simulator through the two setups. *)
Lemma pruned_run_ok first second (base_notoriety first_sequence second_sequence : list Z)
    (first_cumulative : list float) src k stats n :
  length (page_vars first) = 5%nat -> length (page_vars second) = 5%nat ->
  Forall (fun cheese_value => 0 <= cheese_value) first_sequence ->
  Forall (fun cheese_value => 0 <= cheese_value) second_sequence ->
  length first_cumulative = 5%nat ->
  length base_notoriety = 5%nat ->
  in_range 0 NOTORIETY_CAP base_notoriety ->
  dual_stats_ok k stats ->
  exists stats' n',
    pruned_run [first; second] base_notoriety [first_sequence; second_sequence]
      first_cumulative stats src n = Returns stats' n' /\
    dual_stats_ok (k + 1) stats' /\
    Z.of_nat n' =
      Z.of_nat n + Z.of_nat (length first_sequence + length second_sequence) +
      3 * (total_extensions stats' - total_extensions stats).
Proof.
  intros Hp1 Hp2 Hs1 Hs2 Hc1 Hlen Hrange Hok. unfold pruned_run.
  destruct (execute_custom_returns [first; second] base_notoriety 0 first_sequence
              first_cumulative None first src n)
    as (mid_values & ext1 & Hrun1 & Hl1 & Hr1); try done; try (simpl; lia).
  destruct (prepare_pruned_is_Some [first; second] second mid_values)
    as (table & pruned_counts & Hpruned & Htable & Hcounts); [done | done | lia |].
  destruct (execute_custom_returns [first; second] mid_values 1 second_sequence
              table (Some pruned_counts) second src
              (n + length first_sequence + (if ext1 then 3 else 0)))
    as (end_values & ext2 & Hrun2 & Hl2 & Hr2); try done; try (simpl; lia).
  destruct (count_pass_ok k stats end_values ext1 ext2 (all_ready end_values) Hok)
    as (stats1 & stats2 & stats3 & Hcount1 & Hcount2 & Hcount3 & Hok3 & Htotal); [lia | done |].
  exists stats3, (n + length first_sequence + (if ext1 then 3 else 0) + length second_sequence +
                  (if ext2 then 3 else 0))%nat.
  split; [|split; [done|]].
  - unfold mbind, M_bind, bind. cbn [lookup list_lookup lift ret].
    rewrite Hrun1, Hcount1. cbn [lift ret]. rewrite Hpruned. cbn [lift ret].
    rewrite Hrun2, Hcount2. cbn [lift ret]. by rewrite Hcount3.
  - rewrite Htotal. destruct ext1, ext2; simpl Z.b2z; lia.
Qed.

(** X9. The same for the pruned two-stage simulator, whose second stage
    draws with the table of the pruned page counts. *)
Theorem run_pruned_simulation_report first second (genre_notoriety_vars : list Z) src n :
  setup_ready first -> setup_ready second ->
  length genre_notoriety_vars = 5%nat ->
  Forall (fun value => 0 <= value) genre_notoriety_vars ->
  exists first_sequence second_sequence report n',
    _build_cheese_sequence (cheese_vars first) = Some first_sequence /\
    _build_cheese_sequence (cheese_vars second) = Some second_sequence /\
    DualPostscriptPrunedSimulator._run_dual_simulation [first; second] genre_notoriety_vars src n
      = Returns (Some report) n' /\
    dual_report_ok 50000 (Z.of_nat (length first_sequence + length second_sequence)) n n' report.
Proof.
  intros (Hcheese1 & Hsum1 & Hpages1) (Hcheese2 & Hsum2 & Hpages2) Hlen Hpos.
  destruct (cheese_sequence_is_Some _ Hcheese1) as (first_sequence & Hseq1 & Hs1).
  destruct (cheese_sequence_is_Some _ Hcheese2) as (second_sequence & Hseq2 & Hs2).
  destruct (weights_of_page_counts_is_Some (page_vars first)) as [weights1 Hw1]; [lia|].
  set (base_notoriety := Z.min NOTORIETY_CAP <$> genre_notoriety_vars).
  assert (length base_notoriety = 5%nat) as Hbase by (subst base_notoriety; by rewrite length_fmap).
  assert (in_range 0 NOTORIETY_CAP base_notoriety) as Hrange.
  { subst base_notoriety. unfold in_range, NOTORIETY_CAP. apply Forall_fmap.
    eapply Forall_impl; [exact Hpos|]. simpl. intros x Hx. lia. }
  set (sequences := [first_sequence; second_sequence]).
  set (first_cumulative := _prepare_weight_cumulative weights1).
  destruct (execute_custom_returns [first; second] base_notoriety 0 first_sequence
              first_cumulative None first src n)
    as (first_values & ext1 & Hrun1 & Hl1 & Hr1); try done; try (simpl; lia).
  destruct (prepare_pruned_is_Some [first; second] second first_values)
    as (table & pruned_counts & Hpruned & Htable & Hcounts); [done | done | lia |].
  destruct (execute_custom_returns [first; second] first_values 1 second_sequence
              table (Some pruned_counts) second src
              (n + length first_sequence + (if ext1 then 3 else 0)))
    as (final_values & ext2 & Hrun2 & Hl2 & Hr2); try done; try (simpl; lia).
  unfold DualPostscriptPrunedSimulator._run_dual_simulation.
  remember MULTI_RUNS as runs eqn:Hruns.
  destruct (stats_loop_ok
              (pruned_run [first; second] base_notoriety sequences first_cumulative)
              (Z.of_nat (length first_sequence + length second_sequence)) src) with
      (steps := seq 0 runs) (k := 0) (stats := initial_stats)
      (n := (n + length first_sequence + (if ext1 then 3 else 0) + length second_sequence +
             (if ext2 then 3 else 0))%nat)
    as (stats & n' & Hloop & Hok & Hn'); [|apply initial_stats_ok|].
  { intros k stats0 n0 Hok0. by apply pruned_run_ok. }
  rewrite length_seq in Hok, Hn'.
  assert (Z.of_nat runs = 50000) as Hruns' by (rewrite Hruns; unfold MULTI_RUNS; lia).
  rewrite Hruns' in Hok, Hn'. simpl in Hok.
  eexists first_sequence, second_sequence, _, n'. split; [done|]. split; [done|]. split.
  { unfold Py.all. cbn [forallb]. unfold _get_counts, _setup_target_hunts. rewrite Hsum1, Hsum2.
    rewrite !bool_decide_eq_true_2 by done. cbn [andb negb].
    simpl mapM. rewrite Hseq1, Hseq2. cbn [mbind mret option_bind option_ret].
    unfold mbind, M_bind, bind. unfold mret, option_ret.
    cbn [lookup list_lookup lift ret].
    unfold _get_weight_distribution. rewrite Hw1. cbn [lift ret].
    fold base_notoriety sequences first_cumulative.
    rewrite Hrun1, Hpruned. cbn [lift ret]. rewrite Hrun2, Hloop. reflexivity. }
  destruct Hok as (Hready & Hl & Htotals & Hcounts').
  unfold dual_report_ok. simpl.
  split; [done|]. split; [done|]. split; [done|]. split; [done|]. split; [done|].
  split; [done|]. split; [done|].
  change (total_extensions initial_stats) with 0 in Hn'.
  destruct ext1, ext2; simpl Z.b2z; lia.
Qed.

Lemma run_pruned_simulation_report_witness :
  exists first_sequence second_sequence report n',
    _build_cheese_sequence (cheese_vars sample_first) = Some first_sequence /\
    _build_cheese_sequence (cheese_vars sample_second) = Some second_sequence /\
    DualPostscriptPrunedSimulator._run_dual_simulation [sample_first; sample_second]
      [0; 0; 0; 0; 0] (constant_source 0.3) 0%nat = Returns (Some report) n' /\
    dual_report_ok 50000 (Z.of_nat (length first_sequence + length second_sequence)) 0 n' report.
Proof.
  apply (run_pruned_simulation_report sample_first sample_second [0; 0; 0; 0; 0]
           (constant_source 0.3) 0%nat).
  - repeat split. simpl. lia.
  - repeat split. simpl. lia.
  - reflexivity.
  - repeat (constructor; [lia|]). constructor.
Defined.

(** X10. Called without custom counts, the pruned simulator's
    [_execute_setup_with_custom_weights] is the plain simulator's
    [_execute_setup] on the sequence and the table of that setup: the first
    stage of the two simulators is the same computation. *)
Theorem pruned_first_stage_is_plain setup_data (start_values : list Z) (setup_index : nat)
    sequences cumulative_weights sequence cumulative src n :
  sequences !! setup_index = Some sequence ->
  cumulative_weights !! setup_index = Some cumulative ->
  _execute_setup_with_custom_weights setup_data start_values setup_index sequence cumulative None
    src n
  = _execute_setup setup_data start_values setup_index sequences cumulative_weights src n.
Proof.
  intros Hseq Hcum. unfold _execute_setup, _execute_setup_with_custom_weights.
  rewrite Hseq, Hcum. reflexivity.
Qed.

Lemma pruned_first_stage_is_plain_witness :
  _execute_setup_with_custom_weights sample_setups [0; 0; 0; 0; 0] 0 [125; 50]
    [0.21428571428571427; 0.5714285714285714; 0.9285714285714286; 0.9285714285714286; 1]%float
    None (constant_source 0.5) 0%nat
  = _execute_setup sample_setups [0; 0; 0; 0; 0] 0 sample_sequences sample_tables
      (constant_source 0.5) 0%nat.
Proof.
  apply (pruned_first_stage_is_plain sample_setups [0; 0; 0; 0; 0] 0 sample_sequences
           sample_tables); reflexivity.
Defined.

(** X11. What [_extension_config] answers, case by case: no config when
    auto-extend is off or no page count is positive; a config whose index
    locates the setup in [setup_data] when auto-extend is on and some page
    count is positive; and the ValueError of [setup_data.index] only for a
    setup that is not in [setup_data]. *)
Theorem extension_config_cases setup_data setup :
  match _extension_config setup_data setup with
  | Some None =>
      auto_extend_var setup = false \/ Forall (fun count => count <= 0) (page_vars setup)
  | Some (Some config) =>
      auto_extend_var setup = true /\
      (exists count, count ∈ page_vars setup /\ 0 < count) /\
      setup_data !! setup_index config = Some setup /\
      extra_hunts config = 3%nat
  | None =>
      auto_extend_var setup = true /\
      (exists count, count ∈ page_vars setup /\ 0 < count) /\
      setup ∉ setup_data
  end.
Proof.
  destruct (_extension_config setup_data setup) as [[config|]|] eqn:Hconfig.
  - apply config_of_counts_spec in Hconfig
      as (max_pages & Hauto & Hmax & Hpos & _ & _ & _ & Hhunts & Hidx).
    split; [done|]. split; [|done].
    exists max_pages. split; [|done]. by apply max_list_spec in Hmax as [? _].
  - unfold _extension_config, config_of_counts in Hconfig.
    destruct (auto_extend_var setup); [|by left]. right. simpl in Hconfig.
    destruct (Py.max_list (page_vars setup)) as [max_pages|] eqn:Hmax.
    + case_bool_decide as Hle.
      * apply max_list_spec in Hmax as [_ Hall]. eapply Forall_impl; [exact Hall|].
        simpl. intros. lia.
      * by destruct (list_find _ setup_data) as [[]|].
    + destruct (page_vars setup); [constructor | done].
  - unfold _extension_config, config_of_counts in Hconfig.
    destruct (auto_extend_var setup); [|done]. simpl in Hconfig.
    destruct (Py.max_list (page_vars setup)) as [max_pages|] eqn:Hmax; [|done].
    case_bool_decide as Hle; [done|].
    split; [done|]. split.
    + exists max_pages. split; [by apply max_list_spec in Hmax as [? _] | lia].
    + intros Hin.
      destruct (list_find_elem_of (fun s => s = setup) setup_data setup Hin eq_refl) as [[i s] Hf].
      by rewrite Hf in Hconfig.
Qed.

End TwoStages.

(** ** Page weights *)

Section PageWeights.
Import PostscriptBase DualPostscriptSimulator DualPostscriptPrunedSimulator.

Lemma nonneg_leb_zero (x : float) : nonneg x -> (0 <=? x)%float = true.
Proof.
  unfold nonneg. rewrite FloatAxioms.leb_spec. change (Prim2SF 0) with (S754_zero false).
  by destruct (Prim2SF x) as [[]|[]| |[] ? ?].
Qed.

Lemma truediv_in_unit_interval (k n : Z) :
  0 <= k <= n -> 1 <= n < 2 ^ 53 -> in_unit_interval (Py.truediv k n).
Proof.
  intros Hk Hn. split.
  - apply nonneg_leb_zero, truediv_is_nonneg. lia.
  - by apply truediv_le_one.
Qed.

Lemma sum_nonneg (l : list Z) : Forall (fun x => 0 <= x) l -> 0 <= Py.sum l.
Proof. induction 1 as [|x l Hx _ IH]; [done|]. rewrite sum_cons. lia. Qed.

Lemma sum_bounds (l : list Z) (x : Z) :
  Forall (fun x => 0 <= x) l -> x ∈ l -> x <= Py.sum l.
Proof.
  induction 1 as [|y l Hy Hl IH]; [by intros ?%elem_of_nil|].
  rewrite sum_cons. pose proof (sum_nonneg l Hl). intros [->|Hin]%elem_of_cons; [lia|].
  specialize (IH Hin). lia.
Qed.

(** X12. For five non-negative page counts with a total below 2^53, every
    weight of the distribution is a binary64 number between 0.0 and 1.0; with
    a zero total every weight is [1 / 5]. *)
Theorem page_weights_in_unit_interval (page_counts : list Z) :
  length page_counts = 5%nat ->
  Forall (fun count => 0 <= count) page_counts ->
  Py.sum page_counts < 2 ^ 53 ->
  exists weights,
    weights_of_page_counts page_counts = Some weights /\
    (forall g, in_unit_interval (weights g)) /\
    (Py.sum page_counts = 0 -> forall g, weights g = Py.truediv 1 5).
Proof.
  intros Hlen Hpos Hsum.
  assert (forall x, x ∈ page_counts -> 0 <= x <= Py.sum page_counts) as Hin.
  { intros x Hx. split; [by apply (proj1 (Forall_forall _ _) Hpos) | by apply sum_bounds]. }
  destruct page_counts as [|a [|b [|c [|d [|e [|]]]]]]; try done.
  unfold weights_of_page_counts. simpl mapM. cbn [mbind mret option_bind option_ret].
  case_bool_decide as Htotal.
  - eexists. split; [reflexivity|]. split; [|done].
    intros g. apply truediv_in_unit_interval; simpl; lia.
  - unfold genre_dict. simpl. eexists. split; [reflexivity|]. split; [|done].
    pose proof (sum_nonneg _ Hpos).
    intros []; apply truediv_in_unit_interval; try lia; apply Hin; repeat constructor.
Qed.

Lemma page_weights_in_unit_interval_witness :
  exists weights,
    weights_of_page_counts [3; 5; 5; 0; 1] = Some weights /\
    (forall g, in_unit_interval (weights g)) /\
    (Py.sum [3; 5; 5; 0; 1] = 0 -> forall g, weights g = Py.truediv 1 5).
Proof.
  apply (page_weights_in_unit_interval [3; 5; 5; 0; 1]).
  - reflexivity.
  - repeat (constructor; [lia|]). constructor.
  - reflexivity.
Defined.

(** X13. On five non-negative counts the weights the pruned simulator builds
    from a list of counts are those the plain simulator builds from the page
    entries, and so are the two tables: the test [total <= 0] of the one
    and the test [total == 0] of the other then agree. *)
Theorem weight_builders_agree (counts : list Z) :
  length counts = 5%nat ->
  Forall (fun count => 0 <= count) counts ->
  exists weights custom_weights,
    weights_of_page_counts counts = Some weights /\
    _weights_from_counts_list counts = Some custom_weights /\
    (forall g, custom_weights g = weights g) /\
    _prepare_weight_cumulative custom_weights = _prepare_weight_cumulative weights.
Proof.
  intros Hlen Hpos. pose proof (sum_nonneg _ Hpos) as Hsum.
  destruct counts as [|a [|b [|c [|d [|e [|]]]]]]; try done.
  unfold weights_of_page_counts, _weights_from_counts_list. simpl mapM.
  cbn [mbind mret option_bind option_ret].
  destruct (decide (Py.sum [a; b; c; d; e] = 0)) as [Hzero|Hne].
  - rewrite !bool_decide_eq_true_2 by lia. by eexists _, _.
  - rewrite !bool_decide_eq_false_2 by lia. unfold genre_dict. simpl. by eexists _, _.
Qed.

Lemma weight_builders_agree_witness :
  exists weights custom_weights,
    weights_of_page_counts [0; 2; 0; 7; 0] = Some weights /\
    _weights_from_counts_list [0; 2; 0; 7; 0] = Some custom_weights /\
    (forall g, custom_weights g = weights g) /\
    _prepare_weight_cumulative custom_weights = _prepare_weight_cumulative weights.
Proof.
  apply (weight_builders_agree [0; 2; 0; 7; 0]).
  - reflexivity.
  - repeat (constructor; [lia|]). constructor.
Defined.

(** X14. When every category of the second setup that has pages ended the
    first stage strictly above the prune threshold, all the page counts are
    pruned: the second stage draws with the uniform table, gets no extension
    config, and so runs its sequence without the extra hunts. *)
Theorem all_pruned_second_stage setup_data second (notoriety_values sequence : list Z) src n :
  setup_data !! 1%nat = Some second ->
  length (page_vars second) = 5%nat ->
  length notoriety_values = 5%nat ->
  in_range 0 NOTORIETY_CAP notoriety_values ->
  Forall (fun cheese_value => 0 <= cheese_value) sequence ->
  (forall (idx : nat) (count v : Z),
     page_vars second !! idx = Some count -> notoriety_values !! idx = Some v ->
     count <> 0 -> (if extend_var second then 93 else 90) < v) ->
  _prepare_pruned_cumulative setup_data notoriety_values
    = Some (uniform_table, [0; 0; 0; 0; 0]) /\
  _extension_config_with_counts setup_data second [0; 0; 0; 0; 0] = Some None /\
  exists final,
    _execute_setup_with_custom_weights setup_data notoriety_values 1 sequence uniform_table
      (Some [0; 0; 0; 0; 0]) src n
      = Returns (final, all_ready final, false) (n + length sequence)%nat /\
    in_range 0 NOTORIETY_CAP final.
Proof.
  intros Hsecond Hpages Hlen Hrange Hseq Habove.
  assert (_extension_config_with_counts setup_data second [0; 0; 0; 0; 0] = Some None) as Hconfig.
  { unfold _extension_config_with_counts, config_of_counts. by destruct (auto_extend_var second). }
  split; [|split; [done|]].
  - destruct (prune_from_spec (page_vars second) notoriety_values
                (if extend_var second then 93 else 90) 0) as (pruned & Hrun & Hl & Hspec);
      [simpl; lia|].
    assert (pruned = [0; 0; 0; 0; 0]) as ->.
    { apply list_eq. intros idx. destruct (decide (idx < 5)%nat) as [Hidx|Hidx].
      - destruct (lookup_lt_is_Some_2 (page_vars second) idx) as [count Hc]; [lia|].
        destruct (lookup_lt_is_Some_2 notoriety_values idx) as [v Hv]; [lia|].
        rewrite (Hspec idx count v Hc Hv).
        assert ((if bool_decide ((if extend_var second then 93 else 90) < v) then 0 else count) = 0)
          as ->.
        { case_bool_decide as Hlt; [done|]. destruct (decide (count = 0)) as [->|Hne]; [done|].
          specialize (Habove idx count v Hc Hv Hne). lia. }
        by do 5 (destruct idx as [|idx]; [done|]); lia.
      - rewrite !lookup_ge_None_2; [done | simpl; lia | lia]. }
    unfold _prepare_pruned_cumulative, _build_pruned_page_counts, _second_setup_prune_threshold.
    rewrite Hsecond. simpl. rewrite Hrun. reflexivity.
  - unfold _execute_setup_with_custom_weights.
    destruct (simulate_sequence_in_range src uniform_table sequence Hseq n notoriety_values)
      as (final & Hrun & _ & Hfinal); [simpl; lia | done |].
    exists final. split; [|done].
    unfold mbind, M_bind, bind. rewrite Hrun, Hsecond. cbn [lift ret]. rewrite Hconfig.
    cbn [lift ret]. reflexivity.
Qed.

Lemma all_pruned_second_stage_witness :
  _prepare_pruned_cumulative sample_setups [10; 100; 5; 94; 200]
    = Some (uniform_table, [0; 0; 0; 0; 0]) /\
  _extension_config_with_counts sample_setups sample_second [0; 0; 0; 0; 0] = Some None /\
  exists final,
    _execute_setup_with_custom_weights sample_setups [10; 100; 5; 94; 200] 1 [50; 50]
      uniform_table (Some [0; 0; 0; 0; 0]) (constant_source 0.3) 0%nat
      = Returns (final, all_ready final, false) (0 + length [50; 50])%nat /\
    in_range 0 NOTORIETY_CAP final.
Proof.
  apply (all_pruned_second_stage sample_setups sample_second [10; 100; 5; 94; 200] [50; 50]
           (constant_source 0.3) 0%nat).
  - reflexivity.
  - reflexivity.
  - reflexivity.
  - unfold in_range, NOTORIETY_CAP. repeat (constructor; [lia|]). constructor.
  - repeat (constructor; [lia|]). constructor.
  - intros idx count v Hc Hv Hne.
    do 5 (destruct idx as [|idx]; [simpl in *; simplify_eq; try lia|]). done.
Defined.

(** X15. A wrong cheese total stops every driver before its first draw: the
    allocator run, the two two-stage simulators and the optimizer return
    early, and the allocator shows its error message. *)
Theorem wrong_total_returns_early (vars : AllocatorVars) (setup_data : list Setup)
    (genre_notoriety_vars : list Z) (optimizer_vars : OptimizerVars) (fuel : nat) src n :
  Py.sum (alloc_cheese_vars vars) <> CheeseAllocator._target_hunts vars ->
  (exists setup, setup ∈ setup_data /\
     Py.sum (cheese_vars setup) <> _compute_target_hunts (extend_var setup)) ->
  Py.sum (opt_cheese_vars optimizer_vars)
    <> _compute_target_hunts (opt_extend_var optimizer_vars) ->
  CheeseAllocator._update_totals vars = true /\
  CheeseAllocator._run_hunt_simulation vars src n = Returns None n /\
  DualPostscriptSimulator._run_dual_simulation setup_data genre_notoriety_vars src n
    = Returns None n /\
  DualPostscriptPrunedSimulator._run_dual_simulation setup_data genre_notoriety_vars src n
    = Returns None n /\
  PostscriptOptimizer._run_optimization fuel optimizer_vars src n = Returns None n.
Proof.
  intros Hvars (setup & Hin & Hsetup) Hopt.
  assert (Py.all (fun setup =>
                    bool_decide (Py.sum (_get_counts setup) = _setup_target_hunts setup))
                 setup_data = false) as Hguard.
  { unfold Py.all. apply not_true_is_false. intros Hall.
    rewrite forallb_forall in Hall. apply list_elem_of_In in Hin.
    specialize (Hall setup Hin). by apply bool_decide_eq_true in Hall. }
  split; [by apply bool_decide_eq_true|]. split; [|split; [|split]].
  - unfold CheeseAllocator._run_hunt_simulation. by rewrite bool_decide_eq_true_2.
  - unfold DualPostscriptSimulator._run_dual_simulation. by rewrite Hguard.
  - unfold DualPostscriptPrunedSimulator._run_dual_simulation. by rewrite Hguard.
  - unfold PostscriptOptimizer._run_optimization, PostscriptOptimizer.search_params.
    by rewrite bool_decide_eq_true_2.
Qed.

Lemma wrong_total_returns_early_witness :
  CheeseAllocator._update_totals short_allocator_vars = true /\
  CheeseAllocator._run_hunt_simulation short_allocator_vars (constant_source 0.3) 0%nat
    = Returns None 0%nat /\
  DualPostscriptSimulator._run_dual_simulation short_setups [0; 0; 0; 0; 0]
    (constant_source 0.3) 0%nat = Returns None 0%nat /\
  DualPostscriptPrunedSimulator._run_dual_simulation short_setups [0; 0; 0; 0; 0]
    (constant_source 0.3) 0%nat = Returns None 0%nat /\
  PostscriptOptimizer._run_optimization 0 short_optimizer_vars (constant_source 0.3) 0%nat
    = Returns None 0%nat.
Proof.
  apply (wrong_total_returns_early short_allocator_vars short_setups [0; 0; 0; 0; 0]
           short_optimizer_vars 0 (constant_source 0.3) 0%nat).
  - vm_compute. intros Heq. discriminate Heq.
  - exists (default inhabitant (head short_setups)).
    split; [|vm_compute; intros Heq; discriminate Heq].
    apply (list_elem_of_lookup_2 _ 0%nat). reflexivity.
  - vm_compute. intros Heq. discriminate Heq.
Defined.

End PageWeights.

(** ** The optimizer: what it returns *)

Section OptimizerResults.
Import PostscriptBase PostscriptOptimizer.

Lemma weights_from_counts_is_Some (counts : list float) :
  (5 <= length counts)%nat -> is_Some (_weights_from_counts counts).
Proof.
  intros Hlen. unfold _weights_from_counts.
  destruct (Py.fsum counts <=? 0)%float; [by eexists|].
  destruct counts as [|a [|b [|c [|d [|e rest]]]]]; try (simpl in Hlen; lia).
  unfold genre_dict. simpl. by eexists.
Qed.

(** The loop of [_simulate_probability] counts at most one ready run per
    simulation. *)
Lemma ready_runs_loop src (base_notoriety cheese_sequence : list Z) cumulative_weights :
  Forall (fun cheese_value => 0 <= cheese_value) cheese_sequence ->
  (0 < length cumulative_weights <= length base_notoriety)%nat ->
  in_range 0 NOTORIETY_CAP base_notoriety ->
  forall (steps : list nat) (ready_runs : Z) n,
    exists ready_runs',
      for_each steps
        (fun (ready_runs : Z) _ =>
           '(_, ready) ← _simulate_sequence base_notoriety cheese_sequence cumulative_weights;
           ret (if (ready : bool) then ready_runs + 1 else ready_runs))
        ready_runs src n
        = Returns ready_runs' (n + length steps * length cheese_sequence)%nat /\
      ready_runs <= ready_runs' <= ready_runs + Z.of_nat (length steps).
Proof.
  intros Hseq Hlen Hrange. induction steps as [|step steps IH]; intros ready_runs n; simpl.
  - exists ready_runs. split; [unfold ret; f_equal; lia | lia].
  - unfold mbind, M_bind, bind.
    destruct (simulate_sequence_in_range src cumulative_weights cheese_sequence Hseq n
                base_notoriety Hlen Hrange) as (values & -> & _ & _).
    unfold ret at 1.
    destruct (IH (if all_ready values then ready_runs + 1 else ready_runs)
                 (n + length cheese_sequence)%nat) as (ready_runs' & Hrun & Hbound).
    exists ready_runs'. split.
    + etrans; [exact Hrun|]. f_equal. lia.
    + destruct (all_ready values); lia.
Qed.

Lemma simulate_probability_returns (counts : list float) (base_notoriety cheese_sequence : list Z)
    (simulations : Z) src n :
  (5 <= length counts)%nat ->
  length base_notoriety = 5%nat ->
  in_range 0 NOTORIETY_CAP base_notoriety ->
  Forall (fun cheese_value => 0 <= cheese_value) cheese_sequence ->
  simulations < 2 ^ 53 ->
  exists prob,
    _simulate_probability counts base_notoriety cheese_sequence simulations src n
      = Returns prob (n + Z.to_nat simulations * length cheese_sequence)%nat /\
    in_unit_interval prob.
Proof.
  intros Hcounts Hlen Hrange Hseq Hsims. unfold _simulate_probability.
  destruct (weights_from_counts_is_Some counts Hcounts) as [weights ->].
  unfold mbind, M_bind, bind. cbn [lift ret].
  destruct (ready_runs_loop src base_notoriety cheese_sequence
              (_prepare_weight_cumulative weights) Hseq) with
      (steps := seq 0 (Z.to_nat simulations)) (ready_runs := 0) (n := n)
    as (ready_runs & Hrun & Hbound); [rewrite prepare_weight_cumulative_length; lia | done |].
  rewrite length_seq in Hrun, Hbound.
  eexists. split.
  - etrans; [|reflexivity]. unfold mbind, M_bind, bind in Hrun. rewrite Hrun. reflexivity.
  - apply truediv_in_unit_interval; lia.
Qed.

(** X16. The estimate of [_simulate_probability] is a binary64 number between
    0.0 and 1.0: the runs are simulated with one draw per hunt, and the ready
    runs counted are at most the simulations. *)
Theorem simulate_probability_in_unit_interval (counts : list float)
    (base_notoriety cheese_sequence : list Z) (simulations : Z) src n :
  (5 <= length counts)%nat ->
  length base_notoriety = 5%nat ->
  in_range 0 NOTORIETY_CAP base_notoriety ->
  Forall (fun cheese_value => 0 <= cheese_value) cheese_sequence ->
  simulations < 2 ^ 53 ->
  exists prob,
    _simulate_probability counts base_notoriety cheese_sequence simulations src n
      = Returns prob (n + Z.to_nat simulations * length cheese_sequence)%nat /\
    (0 <=? prob)%float = true /\ (prob <=? 1)%float = true.
Proof. apply simulate_probability_returns. Qed.

Lemma simulate_probability_in_unit_interval_witness :
  exists prob,
    _simulate_probability [5; 0; 0; 0; 0]%float [200; 0; 200; 200; 200]
      [50; 50; 50; 50; 50; 50; 50; 50; 50; 50] 1 (constant_source 0.3) 0%nat
      = Returns prob (0 + Z.to_nat 1 * length [50; 50; 50; 50; 50; 50; 50; 50; 50; 50])%nat /\
    (0 <=? prob)%float = true /\ (prob <=? 1)%float = true.
Proof.
  apply (simulate_probability_in_unit_interval [5; 0; 0; 0; 0]%float [200; 0; 200; 200; 200]
           [50; 50; 50; 50; 50; 50; 50; 50; 50; 50] 1 (constant_source 0.3) 0%nat).
  - simpl. lia.
  - reflexivity.
  - unfold in_range, NOTORIETY_CAP. repeat (constructor; [lia|]). constructor.
  - repeat (constructor; [lia|]). constructor.
  - reflexivity.
Defined.

Lemma fmax_zero_not_negative (x : float) : (Py.fmax 0 x <? 0)%float = false.
Proof.
  unfold Py.fmax. destruct (0 <? x)%float eqn:Hpos; [|reflexivity].
  revert Hpos. rewrite !FloatAxioms.ltb_spec. unfold SFltb.
  change (Prim2SF 0) with (S754_zero false).
  by destruct (Prim2SF x) as [[]|[]| |[] ? ?].
Qed.

Lemma varied_from_refl (base_counts : list float) : varied_from base_counts base_counts.
Proof. split; [done|]. intros idx value Hv. by left. Qed.

Lemma varied_from_insert (base_counts candidate : list float) (idx : nat) (x : float) :
  varied_from base_counts candidate ->
  varied_from base_counts (<[idx := Py.fmax 0 x]> candidate).
Proof.
  intros [Hlen Hentries]. split; [by rewrite length_insert|].
  intros j value Hj. destruct (decide (j = idx)) as [->|Hne].
  - destruct (decide (idx < length candidate)%nat) as [Hlt|Hge].
    + rewrite list_lookup_insert_eq in Hj by done. injection Hj as <-.
      right. apply fmax_zero_not_negative.
    + rewrite list_insert_ge in Hj by lia. by apply Hentries.
  - rewrite list_lookup_insert_ne in Hj by done. by apply Hentries.
Qed.

(** The randomized candidate: with a sample that stays in its population it
    is always produced, and it is the base vector with some entries replaced
    by numbers that are not negative. *)
Lemma generate_candidate_returns base_counts dial_range direction_bias src n :
  sample_in_population src ->
  exists candidate n',
    _generate_candidate_counts base_counts dial_range direction_bias src n
      = Returns candidate n' /\
    varied_from base_counts candidate.
Proof.
  intros Hsrc. unfold _generate_candidate_counts, mbind, M_bind, bind.
  destruct (perturbed_indices_returns base_counts src n) as (selected & n1 & -> & Hin).
  specialize (Hin Hsrc).
  assert (forall varied m, varied_from base_counts varied ->
            exists candidate m',
              for_each selected (perturb base_counts dial_range direction_bias) varied src m
                = Returns candidate m' /\ varied_from base_counts candidate) as Hloop.
  { clear n n1. induction Hin as [|idx rest Hidx _ IH]; intros varied m Hvaried; simpl.
    - by exists varied, m.
    - unfold mbind, M_bind, bind, perturb at 1, uniform, random.
      destruct (lookup_lt_is_Some_2 base_counts idx Hidx) as [value ->].
      unfold mbind, M_bind, bind. cbn [lift ret].
      apply IH. by apply varied_from_insert. }
  apply Hloop, varied_from_refl.
Qed.




(** The [while] loop of an iteration, with a sample that stays in its
    population: it never raises, and what it returns is the list it was given
    followed by randomized candidates, none of which sums to 0. *)
Lemma regenerate_outcome base_counts current_range direction_bias current_candidates src :
  sample_in_population src ->
  forall fuel candidates n,
    match regenerate fuel candidates current_candidates base_counts current_range direction_bias
            src n with
    | Returns result _ =>
        exists appended,
          result = candidates ++ appended /\
          Forall (fun candidate => varied_from base_counts candidate /\
                                   (Py.fsum candidate =? 0)%float = false) appended /\
          ~ Z.of_nat (length result) < current_candidates /\
          (appended <> [] -> Z.of_nat (length result) = current_candidates)
    | Raises => False
    | OutOfFuel => True
    end.
Proof.
  intros Hsrc. induction fuel as [|fuel IH]; intros candidates n; rewrite regenerate_eq.
  - case_bool_decide as Hlt; [done|].
    exists []. by rewrite app_nil_r.
  - case_bool_decide as Hlt; [|exists []; by rewrite app_nil_r].
    unfold mbind, M_bind, bind.
    destruct (generate_candidate_returns base_counts current_range direction_bias src n Hsrc)
      as (candidate & n1 & -> & Hvaried).
    destruct (Py.fsum candidate =? 0)%float eqn:Hzero.
    + apply IH.
    + specialize (IH (candidates ++ [candidate]) n1).
      destruct (regenerate fuel (candidates ++ [candidate]) _ _ _ _ src n1)
        as [result n2| |]; [|done..].
      destruct IH as (appended & -> & Hall & Hfull & Hexact).
      exists (candidate :: appended). split; [by rewrite <- app_assoc|].
      split; [by constructor|]. split; [done|]. intros _.
      destruct appended as [|c rest]; [|by apply Hexact].
      rewrite app_nil_r, length_app in *. simpl in *. lia.
Qed.

(** X18. When the [while] loop of an iteration ends, the candidates are those
    it started with followed by the randomized ones it appended; no appended
    candidate sums to 0, there are at least [current_candidates] candidates,
    and exactly that many when one was appended. *)
Theorem regenerate_appends_nonzero (fuel : nat) (candidates : list (list float))
    (current_candidates : Z) (best_counts : list float) (current_range : float)
    (direction_bias : list float) src n result n' :
  sample_in_population src ->
  regenerate fuel candidates current_candidates best_counts current_range direction_bias src n
    = Returns result n' ->
  exists appended,
    result = candidates ++ appended /\
    Forall (fun candidate => length candidate = length best_counts /\
                             (Py.fsum candidate =? 0)%float = false) appended /\
    ~ Z.of_nat (length result) < current_candidates /\
    (appended <> [] -> Z.of_nat (length result) = current_candidates).
Proof.
  intros Hsrc Hrun.
  pose proof (regenerate_outcome best_counts current_range direction_bias current_candidates
                src Hsrc fuel candidates n) as Hout.
  rewrite Hrun in Hout. destruct Hout as (appended & Hresult & Hall & Hfull & Hexact).
  exists appended. split; [done|]. split; [|done].
  eapply Forall_impl; [exact Hall|]. simpl. by intros c [[Hlen _] Hsum].
Qed.

Lemma regenerate_appends_nonzero_witness :
  exists appended,
    [[10; 0; 0; 0; 0]; [0; 0; 0; 0; 0]; [3; 0; 0; 0; 0]]%float
      = [[10; 0; 0; 0; 0]; [0; 0; 0; 0; 0]]%float ++ appended /\
    Forall (fun candidate => length candidate = length [5; 0; 0; 0; 0]%float /\
                             (Py.fsum candidate =? 0)%float = false) appended /\
    ~ Z.of_nat (length [[10; 0; 0; 0; 0]; [0; 0; 0; 0; 0]; [3; 0; 0; 0; 0]]%float) < 3 /\
    (appended <> [] ->
     Z.of_nat (length [[10; 0; 0; 0; 0]; [0; 0; 0; 0; 0]; [3; 0; 0; 0; 0]]%float) = 3).
Proof.
  apply (regenerate_appends_nonzero 1 [[10; 0; 0; 0; 0]; [0; 0; 0; 0; 0]]%float 3
           [5; 0; 0; 0; 0]%float 100 [0; 0; 0; 0; 0]%float (constant_source 0.3) 10%nat
           [[10; 0; 0; 0; 0]; [0; 0; 0; 0; 0]; [3; 0; 0; 0; 0]]%float 11%nat).
  - apply constant_source_sample.
  - vm_compute. reflexivity.
Defined.











(** X20. Once the best counts are all 0.0 the search cannot complete another
    iteration, whatever the parameters and the draws: every randomized
    candidate sums to 0 and is dropped, so the [while] loop runs out of any
    fuel. *)
Theorem zero_best_counts_never_finish (fuel : nat) p st (iteration : nat) (rest : list nat) src n :
  sample_in_population src ->
  best_counts st <> [] ->
  Forall (fun count => count = 0%float) (best_counts st) ->
  optimization_loop fuel p (iteration :: rest) st src n = OutOfFuel.
Proof.
  intros Hsrc Hne Hzero. unfold optimization_loop. simpl.
  unfold mbind, M_bind, bind. by rewrite iteration_stuck.
Qed.

Lemma zero_best_counts_never_finish_witness :
  optimization_loop 7 stuck_params [1; 2]%nat stuck_state (constant_source 0.3) 51%nat
    = OutOfFuel.
Proof.
  apply (zero_best_counts_never_finish 7 stuck_params stuck_state 1 [2%nat]
           (constant_source 0.3) 51%nat).
  - apply constant_source_sample.
  - done.
  - repeat constructor.
Defined.

End OptimizerResults.

(** ** The reroll simulation *)

Section RerollSimulation.
Import Rerolls.

Lemma constant_source_well_formed u : sample_well_formed (constant_source u).
Proof.
  intros n population k Hk Hnodup. simpl. split; [|split].
  - rewrite length_take. lia.
  - eapply sublist_NoDup; [exact Hnodup | apply sublist_take].
  - apply subseteq_take.
Qed.

Lemma generate_options_spec (choices : ChoiceSource) (num_genres : Z) src n :
  3 <= num_genres ->
  sample_well_formed src ->
  exists short medium long,
    generate_options choices num_genres src n
      = Returns [(Short, short); (Medium, medium); (Long, long)] (S n) /\
    short <> medium /\ short <> long /\ medium <> long /\
    0 <= short < num_genres /\ 0 <= medium < num_genres /\ 0 <= long < num_genres.
Proof.
  intros Hpool Hsample. unfold generate_options.
  rewrite bool_decide_eq_false_2 by (simpl; lia).
  unfold mbind, M_bind, bind, sample.
  destruct (Hsample n (seq 0 (Z.to_nat num_genres)) (length LENGTHS))
    as (Hlen & Hnodup & Hsub); [rewrite length_seq; simpl; lia | apply NoDup_seq |].
  destruct (sample_at src n (seq 0 (Z.to_nat num_genres)) (length LENGTHS))
    as [|a [|b [|c [|]]]]; try done.
  exists (Z.of_nat a), (Z.of_nat b), (Z.of_nat c). split; [reflexivity|].
  apply NoDup_cons in Hnodup as [Hab Hnodup]. apply NoDup_cons in Hnodup as [Hbc _].
  rewrite !elem_of_cons, elem_of_nil in Hab. rewrite !elem_of_cons, elem_of_nil in Hbc.
  assert (forall x, x ∈ [a; b; c] -> (x < Z.to_nat num_genres)%nat) as Hin.
  { intros x Hx. apply Hsub, elem_of_seq in Hx. lia. }
  pose proof (Hin a ltac:(repeat constructor)). pose proof (Hin b ltac:(repeat constructor)).
  pose proof (Hin c ltac:(repeat constructor)).
  repeat split; try lia; intros Heq; apply Nat2Z.inj in Heq; tauto.
Qed.

Lemma rotating_source_well_formed u : sample_well_formed (rotating_source u).
Proof.
  intros n population k Hk Hnodup. simpl.
  assert (rotate n population ≡ₚ population) as Hperm.
  { unfold rotate. etrans; [apply Permutation_app_comm|]. by rewrite take_drop. }
  split; [|split].
  - rewrite length_take, length_rotate. lia.
  - eapply sublist_NoDup; [|apply sublist_take]. by rewrite Hperm.
  - intros x Hx. rewrite <- Hperm. by apply (subseteq_take k).
Qed.

(** X21. From a pool of at least three genres, [generate_options] makes one
    draw and gives the three lengths, in order, three genres of the pool that
    are all different. *)
Theorem generate_options_distinct (choices : ChoiceSource) (num_genres : Z) src n :
  3 <= num_genres ->
  sample_well_formed src ->
  exists short medium long,
    generate_options choices num_genres src n
      = Returns [(Short, short); (Medium, medium); (Long, long)] (S n) /\
    short <> medium /\ short <> long /\ medium <> long /\
    0 <= short < num_genres /\ 0 <= medium < num_genres /\ 0 <= long < num_genres.
Proof. apply generate_options_spec. Qed.

Lemma generate_options_distinct_witness :
  exists short medium long,
    generate_options first_choices 5 (constant_source 0.3) 0%nat
      = Returns [(Short, short); (Medium, medium); (Long, long)] 1%nat /\
    short <> medium /\ short <> long /\ medium <> long /\
    0 <= short < 5 /\ 0 <= medium < 5 /\ 0 <= long < 5.
Proof.
  apply (generate_options_distinct first_choices 5 (constant_source 0.3) 0%nat).
  - lia.
  - apply constant_source_well_formed.
Defined.

(** The draws one call of [generate_options] makes when it returns. *)
Lemma generate_options_draws (choices : ChoiceSource) (num_genres : Z) src n opts n' :
  generate_options choices num_genres src n = Returns opts n' ->
  n' = (n + (if bool_decide (num_genres < 3)%Z then 3 else 1))%nat.
Proof.
  unfold generate_options. change (Z.of_nat (length LENGTHS)) with 3.
  case_bool_decide as Hsmall.
  - simpl. unfold mbind, M_bind, bind, randrange, ret.
    case_bool_decide; [|done]. intros [= _ <-]. lia.
  - unfold mbind, M_bind, bind, sample.
    intros [_ ->]%lift_Returns. lia.
Qed.

(** The loop of [simulate_mallet_usage]: three mallets per failed roll. *)
Lemma reroll_counts (choices : ChoiceSource) check_func (num_genres : Z) src :
  forall (fuel : nat) (mallets_spent : Z) n result n',
    reroll fuel choices check_func num_genres mallets_spent src n = Returns result n' ->
    exists rolls : nat,
      result = mallets_spent + 3 * Z.of_nat rolls /\
      n' = (n + (rolls + 1) * (if bool_decide (num_genres < 3)%Z then 3 else 1))%nat.
Proof.
  induction fuel as [|fuel IH]; intros mallets_spent n result n'; simpl; [done|].
  intros (opts & n1 & Hopts & Hrest)%bind_Returns.
  apply generate_options_draws in Hopts. subst n1.
  apply bind_Returns in Hrest as (passed & n2 & [_ Hn2]%lift_Returns & Hrest). subst n2.
  destruct passed.
  - apply ret_Returns in Hrest as [<- ->]. exists 0%nat. split; lia.
  - apply IH in Hrest as (rolls & -> & ->). exists (S rolls). split; lia.
Qed.

(** X22. When [simulate_mallet_usage] returns, it returns three mallets for
    each roll that failed the check, and it has drawn once per roll from a
    pool of at least three genres (three times per roll from a smaller one);
    so the result is a multiple of 3 that the number of draws determines. *)
Theorem mallet_usage_counts_rolls (fuel : nat) (choices : ChoiceSource) check_func
    (num_genres : Z) src n result n' :
  simulate_mallet_usage fuel choices check_func num_genres src n = Returns result n' ->
  exists failed_rolls : nat,
    result = 3 * Z.of_nat failed_rolls /\
    n' = (n + (failed_rolls + 1) * (if bool_decide (num_genres < 3)%Z then 3 else 1))%nat.
Proof.
  intros Hrun. apply reroll_counts in Hrun as (rolls & -> & ->). exists rolls. split; lia.
Qed.

Lemma mallet_usage_counts_rolls_witness :
  exists failed_rolls : nat,
    6 = 3 * Z.of_nat failed_rolls /\
    3%nat = (0 + (failed_rolls + 1) * (if bool_decide (5 < 3)%Z then 3 else 1))%nat.
Proof.
  apply (mallet_usage_counts_rolls 3 first_choices (genre_check 4) 5 (rotating_source 0.3) 0%nat
           6 3%nat).
  vm_compute. reflexivity.
Defined.

(** The five areas of an iteration: the mallets added to the two totals, and
    the draws made, two per area and one per failed roll. *)
Lemma five_areas_counts (fuel : nat) (choices : ChoiceSource) (num_genres target_genre : Z)
    (target_length : area_length) src :
  3 <= num_genres ->
  forall (steps : list nat) (totals : Z * Z) n totals' n',
    for_each steps
      (fun (totals : Z * Z) _ =>
         genre_mallets ←
           simulate_mallet_usage fuel choices (genre_check target_genre) num_genres;
         combo_mallets ←
           simulate_mallet_usage fuel choices (combo_check target_genre target_length) num_genres;
         ret (totals.1 + genre_mallets, totals.2 + combo_mallets))
      totals src n = Returns totals' n' ->
    exists genre_rolls combo_rolls : nat,
      totals' = (totals.1 + 3 * Z.of_nat genre_rolls, totals.2 + 3 * Z.of_nat combo_rolls) /\
      n' = (n + 2 * length steps + genre_rolls + combo_rolls)%nat.
Proof.
  intros Hpool. induction steps as [|step steps IH]; intros totals n totals' n'; simpl.
  - intros [<- ->]%ret_Returns. exists 0%nat, 0%nat. destruct totals. split; [f_equal; simpl; lia | lia].
  - intros ([g c] & n1 & Hstep & Hrest)%bind_Returns.
    apply bind_Returns in Hstep as (genre_mallets & n2 & Hgenre & Hstep).
    apply bind_Returns in Hstep as (combo_mallets & n3 & Hcombo & Hret).
    apply ret_Returns in Hret as [[= <- <-] ->].
    apply reroll_counts in Hgenre as (a & -> & ->).
    apply reroll_counts in Hcombo as (b & -> & ->).
    rewrite bool_decide_eq_false_2 in Hrest by lia.
    apply IH in Hrest as (a' & b' & -> & ->). simpl.
    exists (a + a')%nat, (b + b')%nat. split; [f_equal; lia | lia].
Qed.

(** X23. The loop of [run_simulation] on a pool of at least three genres:
    when it returns, both totals are non-negative multiples of 3, and every
    draw is accounted for: twelve per iteration (the target genre, the
    target length and the ten successful rolls) and one for each roll that
    failed, which cost three mallets. *)
Theorem run_totals_account_for_draws (fuel : nat) (choices : ChoiceSource)
    (num_genres iterations : Z) src n total_genre_mallets total_combo_mallets n' :
  3 <= num_genres ->
  run_totals fuel choices num_genres iterations src n
    = Returns (total_genre_mallets, total_combo_mallets) n' ->
  exists genre_rolls combo_rolls : nat,
    total_genre_mallets = 3 * Z.of_nat genre_rolls /\
    total_combo_mallets = 3 * Z.of_nat combo_rolls /\
    n' = (n + 12 * Z.to_nat iterations + genre_rolls + combo_rolls)%nat.
Proof.
  intros Hpool. unfold run_totals.
  assert (forall (steps : list nat) (totals : Z * Z) m totals' m',
            for_each steps
              (fun (totals : Z * Z) _ =>
                 target_genre ← randrange choices num_genres;
                 target_length ← choice choices LENGTHS;
                 five_areas fuel choices num_genres target_genre target_length totals)
              totals src m = Returns totals' m' ->
            exists genre_rolls combo_rolls : nat,
              totals' = (totals.1 + 3 * Z.of_nat genre_rolls,
                         totals.2 + 3 * Z.of_nat combo_rolls) /\
              m' = (m + 12 * length steps + genre_rolls + combo_rolls)%nat) as Hloop.
  { induction steps as [|step steps IH]; intros totals m totals' m'; simpl.
    - intros [<- ->]%ret_Returns. exists 0%nat, 0%nat. destruct totals.
      split; [f_equal; simpl; lia | lia].
    - intros (totals1 & m1 & Hstep & Hrest)%bind_Returns.
      apply bind_Returns in Hstep as (target_genre & m2 & Hgenre & Hstep).
      apply bind_Returns in Hstep as (target_length & m3 & Hlength & Hareas).
      unfold randrange in Hgenre. case_bool_decide; [|done]. injection Hgenre as <- <-.
      unfold choice in Hlength.
      destruct (LENGTHS !! _) as [chosen|]; [|done]. injection Hlength as <- <-.
      apply five_areas_counts in Hareas as (a & b & -> & ->); [|done].
      apply IH in Hrest as (a' & b' & -> & ->). simpl.
      exists (a + a')%nat, (b + b')%nat. split; [f_equal; lia | lia]. }
  intros Hrun. apply Hloop in Hrun as (a & b & [= -> ->] & ->).
  exists a, b. rewrite length_seq. simpl. split; [lia|]. split; lia.
Qed.

Lemma run_totals_account_for_draws_witness :
  exists genre_rolls combo_rolls : nat,
    27 = 3 * Z.of_nat genre_rolls /\
    15 = 3 * Z.of_nat combo_rolls /\
    26%nat = (0 + 12 * Z.to_nat 1 + genre_rolls + combo_rolls)%nat.
Proof.
  apply (run_totals_account_for_draws 5 first_choices 5 1 (rotating_source 0.3) 0%nat 27 15 26%nat).
  - lia.
  - vm_compute. reflexivity.
Defined.

(** X24. With a pool of exactly three genres every roll shows all three, so a
    genre of the pool is matched by the first roll and costs no mallet. *)
Theorem pool_of_three_matches_at_once (fuel : nat) (choices : ChoiceSource) (target_genre : Z)
    src n :
  sample_well_formed src ->
  0 <= target_genre < 3 ->
  simulate_mallet_usage (S fuel) choices (genre_check target_genre) 3 src n = Returns 0 (S n).
Proof.
  intros Hsample Htarget. unfold simulate_mallet_usage. simpl.
  destruct (generate_options_spec choices 3 src n ltac:(lia) Hsample)
    as (short & medium & long & Hrun & Hsm & Hsl & Hml & Hs & Hm & Hl).
  unfold mbind, M_bind, bind. rewrite Hrun. unfold genre_check. cbn [lift ret]. simpl.
  assert (target_genre = short \/ target_genre = medium \/ target_genre = long) as Hcase by lia.
  repeat case_bool_decide; simpl; try done; lia.
Qed.

Lemma pool_of_three_matches_at_once_witness :
  simulate_mallet_usage 1 first_choices (genre_check 2) 3 (rotating_source 0.3) 7%nat
    = Returns 0 8%nat.
Proof.
  apply (pool_of_three_matches_at_once 0 first_choices 2 (rotating_source 0.3) 7%nat).
  - apply rotating_source_well_formed.
  - lia.
Defined.

(** X25. The edges of [run_simulation]: with no iteration it draws nothing
    and both averages are 0.0; with an iteration and an empty pool its first
    [randrange] raises. *)
Theorem run_simulation_edges (fuel : nat) (choices : ChoiceSource) (num_genres iterations : Z)
    src n :
  (iterations <= 0 ->
   run_simulation fuel choices num_genres iterations src n = Returns (0%float, 0%float) n) /\
  (1 <= iterations -> num_genres <= 0 ->
   run_simulation fuel choices num_genres iterations src n = Raises).
Proof.
  unfold run_simulation, run_totals. split.
  - intros Hnone. replace (Z.to_nat iterations) with 0%nat by lia.
    replace (Z.max 1 iterations) with 1 by lia. reflexivity.
  - intros Hsome Hempty. destruct (Z.to_nat iterations) as [|k] eqn:Hk; [lia|].
    simpl. unfold mbind, M_bind, bind, randrange.
    by rewrite bool_decide_eq_false_2 by lia.
Qed.

Lemma run_simulation_edges_witness :
  run_simulation 5 first_choices 5 0 (constant_source 0.3) 0%nat
    = Returns (0%float, 0%float) 0%nat /\
  run_simulation 5 first_choices 0 2 (constant_source 0.3) 0%nat = Raises.
Proof.
  split.
  - apply (proj1 (run_simulation_edges 5 first_choices 5 0 (constant_source 0.3) 0%nat)). lia.
  - apply (proj2 (run_simulation_edges 5 first_choices 0 2 (constant_source 0.3) 0%nat)); lia.
Defined.

End RerollSimulation.

(** ** The mallet farm *)

Section MalletFarm.
Import PostscriptBase MalletFarmSimulator.

Lemma first_choices_well_formed : choices_well_formed first_choices.
Proof. split; intros; simpl; lia. Qed.

(** The pages collected before the hunts: five counts, none negative, with a
    positive total, after seven draws that cost 60, 70 or 80 hunts. *)
Lemma collect_pages_returns (choices : ChoiceSource) src n :
  choices_well_formed choices ->
  exists pages hunts,
    for_each (seq 0 6) (collect_pages choices) ((fun _ => 0) <$> GENRES, 0) src n
      = Returns (pages, hunts) (n + 7)%nat /\
    length pages = 5%nat /\ Forall (fun count => 0 <= count) pages /\
    hunts ∈ [60; 70; 80] /\ Py.sum pages = 25 * hunts.
Proof.
  intros [Hrange Hchoice].
  assert (forall (idx : nat) pages hunts m hunts_needed,
            length pages = 5%nat -> Forall (fun count => 0 <= count) pages ->
            hunts_needed ∈ [10; 20; 30] ->
            exists pages',
              (genre_idx ← randrange choices (Z.of_nat (length GENRES));
               k ← lift (Py.index (length pages) genre_idx);
               current ← lift (pages !! k);
               ret (<[k := current + hunts_needed / 10 * 250]> pages, hunts + hunts_needed))
                src m = Returns (pages', hunts + hunts_needed) (S m) /\
              length pages' = 5%nat /\ Forall (fun count => 0 <= count) pages' /\
              Py.sum pages' = Py.sum pages + 25 * hunts_needed) as Hstep.
  { intros idx pages hunts m hunts_needed Hlen Hpos Hneeded.
    change (Z.of_nat (length GENRES)) with 5.
    unfold mbind, M_bind, bind, randrange. rewrite bool_decide_eq_true_2 by lia.
    specialize (Hrange m 5 ltac:(lia)).
    rewrite index_in_range by lia. cbn [lift ret].
    destruct (lookup_lt_is_Some_2 pages (Z.to_nat (randrange_at choices m 5)))
      as [current Hcurrent]; [lia|].
    rewrite Hcurrent. cbn [lift ret]. eexists. split; [reflexivity|].
    pose proof (proj1 (Forall_lookup _ _) Hpos _ _ Hcurrent) as Hc. simpl in Hc.
    assert (hunts_needed / 10 * 250 = 25 * hunts_needed /\ 0 <= hunts_needed) as [Heq Hnn].
    { rewrite !elem_of_cons, elem_of_nil in Hneeded.
      destruct Hneeded as [->|[->|[->|[]]]]; by split. }
    split; [by rewrite length_insert|]. split.
    - apply Forall_insert; [done | lia].
    - rewrite (sum_insert _ _ current) by done. lia. }
  assert (forall (idx : nat) pages hunts m,
            idx <> 0%nat -> length pages = 5%nat -> Forall (fun count => 0 <= count) pages ->
            exists pages',
              collect_pages choices (pages, hunts) idx src m = Returns (pages', hunts + 10) (S m) /\
              length pages' = 5%nat /\ Forall (fun count => 0 <= count) pages' /\
              Py.sum pages' = Py.sum pages + 250) as Hlater.
  { intros idx pages hunts m Hidx Hlen Hpos.
    destruct (Hstep idx pages hunts m 10 Hlen Hpos) as (pages' & Hrun & Hl & Hp & Hs);
      [constructor|].
    exists pages'. split; [|split; [done|split; [done | lia]]].
    unfold collect_pages. rewrite bool_decide_eq_false_2 by done.
    unfold mbind at 1, M_bind at 1, bind at 1. unfold ret at 1. exact Hrun. }
  assert (exists first pages',
            collect_pages choices ((fun _ => 0) <$> GENRES, 0) 0 src n
              = Returns (pages', first) (S (S n)) /\
            length pages' = 5%nat /\ Forall (fun count => 0 <= count) pages' /\
            Py.sum pages' = 25 * first /\ first ∈ [10; 20; 30])
    as (first & pages1 & Hrun1 & Hl1 & Hp1 & Hs1 & Hfirst).
  { specialize (Hchoice n 3%nat ltac:(lia)).
    destruct ([10; 20; 30] !! choice_at choices n 3) as [first|] eqn:Hfirst;
      [|apply lookup_ge_None in Hfirst; simpl in Hfirst; lia].
    pose proof (list_elem_of_lookup_2 _ _ _ Hfirst) as Hin.
    destruct (Hstep 0%nat ((fun _ => 0) <$> GENRES) 0 (S n) first) as (p1 & Hrun & Hl & Hp & Hs);
      [done | simpl; repeat (constructor; [done|]); constructor | done |].
    exists first, p1. split; [|split; [done|split; [done|split; [|done]]]].
    - unfold collect_pages. rewrite bool_decide_eq_true_2 by done.
      unfold mbind at 1, M_bind at 1, bind at 1. unfold choice.
      change (length [10; 20; 30]) with 3%nat. rewrite Hfirst.
      exact Hrun.
    - change (Py.sum ((fun _ => 0) <$> GENRES)) with 0 in Hs. lia. }
  assert (forall (indices : list nat), Forall (fun idx => idx <> 0%nat) indices ->
            forall pages hunts m,
              length pages = 5%nat -> Forall (fun count => 0 <= count) pages ->
              exists pages',
                for_each indices (collect_pages choices) (pages, hunts) src m
                  = Returns (pages', hunts + 10 * Z.of_nat (length indices))
                            (m + length indices)%nat /\
                length pages' = 5%nat /\ Forall (fun count => 0 <= count) pages' /\
                Py.sum pages' = Py.sum pages + 250 * Z.of_nat (length indices)) as Hrest.
  { induction 1 as [|idx rest Hidx _ IH]; intros pages hunts m Hlen Hpos.
    - exists pages. split; [simpl; unfold ret; f_equal; [f_equal|]; lia|]. split; [done|].
      split; [done|]. simpl. lia.
    - cbn [for_each]. unfold mbind at 1, M_bind at 1, bind at 1.
      destruct (Hlater idx pages hunts m Hidx Hlen Hpos) as (pages1' & -> & Hl1' & Hp1' & Hs1').
      destruct (IH pages1' (hunts + 10) (S m) Hl1' Hp1') as (pages' & -> & Hl & Hp & Hs).
      exists pages'. split; [simpl length; f_equal; [f_equal|]; lia|]. split; [done|].
      split; [done|]. simpl length. lia. }
  change (seq 0 6) with (0%nat :: seq 1 5). cbn [for_each].
  unfold mbind at 1, M_bind at 1, bind at 1. rewrite Hrun1.
  destruct (Hrest (seq 1 5)) with (pages := pages1) (hunts := first) (m := S (S n))
    as (pages & -> & Hl & Hp & Hs); [|done|done|].
  { apply Forall_forall. intros idx Hin%elem_of_seq. lia. }
  exists pages, (first + 10 * Z.of_nat (length (seq 1 5))).
  split; [simpl length; f_equal; lia|]. split; [done|]. split; [done|].
  rewrite !elem_of_cons, elem_of_nil in Hfirst. simpl length in *.
  split; [|lia]. rewrite !elem_of_cons. destruct Hfirst as [->|[->|[->|[]]]]; auto.
Qed.

Lemma cycling_choices_well_formed : choices_well_formed cycling_choices.
Proof.
  split; simpl; [|done]. intros n stop Hstop. by apply Z.mod_pos_bound.
Qed.

Lemma weights_from_page_counts_is_Some (counts : list Z) :
  length counts = 5%nat -> is_Some (_weights_from_page_counts counts).
Proof.
  intros Hlen. unfold _weights_from_page_counts.
  destruct counts as [|a [|b [|c [|d [|e [|]]]]]]; try done.
  case_bool_decide; [by eexists|]. unfold genre_dict. simpl. by eexists.
Qed.

(** One run of the farm: seven draws for the pages, one per hunt of the
    sequence; the hunts counted are those of the sequence and 60, 70 or 80
    for the pages; the vector stays in [0, 200], and stays as it was when the
    sequence is empty. *)
Lemma single_run_returns (choices : ChoiceSource) (notoriety : list Z)
    (cheese_mid cheese_high : Z) src n :
  choices_well_formed choices ->
  length notoriety = 5%nat ->
  in_range 0 NOTORIETY_CAP notoriety ->
  let sequence := _build_mallet_cheese_sequence cheese_mid cheese_high in
  exists hunts notoriety',
    _simulate_single_run choices notoriety cheese_mid cheese_high src n
      = Returns (hunts, notoriety') (n + 7 + length sequence)%nat /\
    length notoriety' = 5%nat /\
    in_range 0 NOTORIETY_CAP notoriety' /\
    60 + Z.of_nat (length sequence) <= hunts <= 80 + Z.of_nat (length sequence) /\
    (sequence = [] -> notoriety' = notoriety).
Proof.
  intros Hchoices Hlen Hrange sequence. unfold _simulate_single_run. fold sequence.
  destruct (collect_pages_returns choices src n Hchoices)
    as (pages & hunts & Hpages & Hl & Hpos & Hhunts & Hsum).
  unfold mbind at 1, M_bind at 1, bind at 1. rewrite Hpages.
  destruct (weights_from_page_counts_is_Some pages Hl) as [weights ->].
  unfold mbind at 1, M_bind at 1, bind at 1. cbn [lift ret].
  assert (Forall (fun cheese_value => 0 <= cheese_value) sequence) as Hseq.
  { subst sequence. unfold _build_mallet_cheese_sequence.
    apply Forall_app. split; by apply Forall_replicate. }
  destruct (simulate_sequence_in_range src (_prepare_weight_cumulative weights) sequence Hseq
              (n + 7) notoriety) as (values & Hrun & Hl' & Hr');
    [rewrite prepare_weight_cumulative_length; lia | done |].
  unfold _simulate_sequence, mbind, M_bind, bind in Hrun.
  unfold mbind, M_bind, bind.
  destruct (for_each sequence _ notoriety src (n + 7)%nat) as [values' m| |] eqn:Hloop;
    [|done..].
  unfold ret in Hrun. injection Hrun as -> _ ->.
  exists (hunts + Z.of_nat (length sequence)), values.
  split; [done|]. split; [lia|]. split; [done|]. split.
  - rewrite !elem_of_cons, elem_of_nil in Hhunts. lia.
  - intros Hempty. rewrite Hempty in Hloop. simpl in Hloop. unfold ret in Hloop. congruence.
Qed.

(** X26. One run of the mallet farm, for a [randrange] and a [choice] that stay
    in their ranges: it draws seven times for the pages and once per hunt of
    the cheese sequence, counts between 60 and 80 hunts for the pages and one
    per token, and keeps the five notoriety values in [0, 200]; without any cheese
    it leaves them as they are. *)
Theorem mallet_single_run (choices : ChoiceSource) (notoriety : list Z)
    (cheese_mid cheese_high : Z) src n :
  choices_well_formed choices ->
  length notoriety = 5%nat ->
  in_range 0 NOTORIETY_CAP notoriety ->
  exists hunts notoriety',
    _simulate_single_run choices notoriety cheese_mid cheese_high src n
      = Returns (hunts, notoriety')
                (n + 7 + length (_build_mallet_cheese_sequence cheese_mid cheese_high))%nat /\
    length notoriety' = 5%nat /\
    in_range 0 NOTORIETY_CAP notoriety' /\
    60 + Z.of_nat (length (_build_mallet_cheese_sequence cheese_mid cheese_high)) <= hunts /\
    hunts <= 80 + Z.of_nat (length (_build_mallet_cheese_sequence cheese_mid cheese_high)) /\
    (_build_mallet_cheese_sequence cheese_mid cheese_high = [] -> notoriety' = notoriety).
Proof.
  intros Hchoices Hlen Hrange.
  destruct (single_run_returns choices notoriety cheese_mid cheese_high src n Hchoices Hlen Hrange)
    as (hunts & notoriety' & Hrun & Hl & Hr & Hhunts & Hsame).
  exists hunts, notoriety'. repeat split; try done; lia.
Qed.

Lemma mallet_single_run_witness :
  exists hunts notoriety',
    _simulate_single_run first_choices [0; 0; 0; 0; 0] 8 2 (constant_source 0.3) 0%nat
      = Returns (hunts, notoriety')
                (0 + 7 + length (_build_mallet_cheese_sequence 8 2))%nat /\
    length notoriety' = 5%nat /\
    in_range 0 NOTORIETY_CAP notoriety' /\
    60 + Z.of_nat (length (_build_mallet_cheese_sequence 8 2)) <= hunts /\
    hunts <= 80 + Z.of_nat (length (_build_mallet_cheese_sequence 8 2)) /\
    (_build_mallet_cheese_sequence 8 2 = [] -> notoriety' = [0; 0; 0; 0; 0]).
Proof.
  apply (mallet_single_run first_choices [0; 0; 0; 0; 0] 8 2 (constant_source 0.3) 0%nat).
  - apply first_choices_well_formed.
  - reflexivity.
  - unfold in_range, NOTORIETY_CAP. repeat (constructor; [lia|]). constructor.
Defined.

(** The [while True] loop of a cycle, when it returns: at least one run, and
    for each run the draws and the hunts of one run. *)
Lemma cycle_counts (choices : ChoiceSource) (cheese_mid cheese_high : Z) src :
  choices_well_formed choices ->
  let hunts_per_run := Z.of_nat (length (_build_mallet_cheese_sequence cheese_mid cheese_high)) in
  forall (fuel : nat) (notoriety : list Z) (runs hunts : Z) n runs' hunts' n',
    length notoriety = 5%nat ->
    in_range 0 NOTORIETY_CAP notoriety ->
    cycle fuel choices cheese_mid cheese_high notoriety runs hunts src n
      = Returns (runs', hunts') n' ->
    exists k : Z,
      1 <= k /\ runs' = runs + k /\
      (60 + hunts_per_run) * k <= hunts' - hunts <= (80 + hunts_per_run) * k /\
      Z.of_nat n' = Z.of_nat n + k * (7 + hunts_per_run).
Proof.
  intros Hchoices hunts_per_run.
  induction fuel as [|fuel IH]; intros notoriety runs hunts n runs' hunts' n' Hlen Hrange; simpl;
    [done|].
  destruct (single_run_returns choices notoriety cheese_mid cheese_high src n Hchoices Hlen Hrange)
    as (run_hunts & notoriety' & Hrun & Hl & Hr & Hhunts & _).
  unfold mbind, M_bind, bind. rewrite Hrun.
  destruct (Py.all _ notoriety').
  - intros [[= <- <-] ->]%ret_Returns. exists 1. fold hunts_per_run in Hhunts. lia.
  - intros Hrest. apply IH in Hrest as (k & Hk & -> & Hbound & Hn'); [|done..].
    exists (k + 1). fold hunts_per_run in Hhunts. split; [lia|]. split; [lia|]. split; nia.
Qed.

(** Without cheese a cycle that has not ended cannot end. *)
Lemma cycle_without_cheese (choices : ChoiceSource) (cheese_mid cheese_high : Z) src :
  choices_well_formed choices ->
  _build_mallet_cheese_sequence cheese_mid cheese_high = [] ->
  forall (fuel : nat) (notoriety : list Z) (runs hunts : Z) n,
    length notoriety = 5%nat ->
    in_range 0 NOTORIETY_CAP notoriety ->
    Py.all (fun value => bool_decide (80 < value)) notoriety = false ->
    cycle fuel choices cheese_mid cheese_high notoriety runs hunts src n = OutOfFuel.
Proof.
  intros Hchoices Hempty.
  induction fuel as [|fuel IH]; intros notoriety runs hunts n Hlen Hrange Hnot; simpl; [done|].
  destruct (single_run_returns choices notoriety cheese_mid cheese_high src n Hchoices Hlen Hrange)
    as (run_hunts & notoriety' & Hrun & Hl & Hr & _ & Hsame).
  specialize (Hsame Hempty). subst notoriety'.
  unfold mbind, M_bind, bind. rewrite Hrun, Hnot. by apply IH.
Qed.

(** The loop over the cycles, when it returns: every step adds the runs,
    hunts and draws of one cycle and leaves that cycle as the last one. *)
Lemma cycles_steps_count (fuel : nat) (choices : ChoiceSource) (cheese_mid cheese_high : Z) src :
  choices_well_formed choices ->
  let hunts_per_run := Z.of_nat (length (_build_mallet_cheese_sequence cheese_mid cheese_high)) in
  forall (steps : list nat) (acc : CycleTotals) m totals' m',
    for_each steps
      (fun (totals : CycleTotals) _ =>
         '(runs, hunts) ← cycle fuel choices cheese_mid cheese_high
                            ((fun _ => 0) <$> GENRES) 0 0;
         ret {| total_runs := total_runs totals + runs;
                total_hunts := total_hunts totals + hunts;
                last_cycle_runs := runs;
                last_cycle_hunts := hunts |})
      acc src m = Returns totals' m' ->
    exists k : Z,
      Z.of_nat (length steps) <= k /\
      total_runs totals' = total_runs acc + k /\
      (60 + hunts_per_run) * k <= total_hunts totals' - total_hunts acc /\
      total_hunts totals' - total_hunts acc <= (80 + hunts_per_run) * k /\
      Z.of_nat m' = Z.of_nat m + k * (7 + hunts_per_run) /\
      (steps = [] -> totals' = acc) /\
      (steps <> [] -> 1 <= last_cycle_runs totals' <= k).
Proof.
  intros Hchoices hunts_per_run.
  induction steps as [|step steps IH]; intros acc m totals' m'; simpl.
  - intros [<- ->]%ret_Returns. exists 0. repeat split; try lia; done.
  - intros (acc1 & m1 & Hstep & Hrest)%bind_Returns.
    apply bind_Returns in Hstep as ([runs hunts] & m2 & Hcycle & Hret).
    apply ret_Returns in Hret as [<- ->].
    apply cycle_counts in Hcycle as (k1 & Hk1 & -> & Hb1 & Hm1); try done;
      [|unfold in_range, NOTORIETY_CAP; simpl; repeat (constructor; [lia|]); constructor].
    fold hunts_per_run in Hb1, Hm1.
    apply IH in Hrest as (k & Hk & Hruns & Hlo & Hhi & Hm' & Hnil & Hlast).
    cbn [total_runs total_hunts last_cycle_runs] in *.
    exists (k1 + k). split; [lia|]. split; [lia|]. split; [nia|]. split; [nia|].
    split; [nia|]. split; [done|]. intros _. destruct steps as [|step' steps'].
    + rewrite (Hnil eq_refl). cbn [last_cycle_runs]. simpl in Hk. lia.
    + specialize (Hlast ltac:(done)). lia.
Qed.

(** X27. When [_simulate_cycles] returns for a positive number of cycles, it
    made at least one run per cycle, each run cost the hunts of the cheese
    sequence and between 60 and 80 hunts for the pages, and each run made
    seven draws and one per hunt of the sequence; the last cycle, too, took
    at least one run. *)
Theorem simulate_cycles_accounts (fuel : nat) (choices : ChoiceSource) (cycles : Z)
    (mallets_per_run : float) (cheese_mid cheese_high : Z) src n report n' :
  choices_well_formed choices ->
  1 <= cycles ->
  _simulate_cycles fuel choices cycles mallets_per_run cheese_mid cheese_high src n
    = Returns report n' ->
  let hunts_per_run := Z.of_nat (length (_build_mallet_cheese_sequence cheese_mid cheese_high)) in
  exists totals,
    cycles_loop fuel choices cycles cheese_mid cheese_high src n = Returns totals n' /\
    cycles <= total_runs totals /\
    (60 + hunts_per_run) * total_runs totals <= total_hunts totals /\
    total_hunts totals <= (80 + hunts_per_run) * total_runs totals /\
    Z.of_nat n' = Z.of_nat n + total_runs totals * (7 + hunts_per_run) /\
    1 <= last_cycle_runs totals <= total_runs totals /\
    report_last_cycle_runs report = last_cycle_runs totals /\
    report_last_cycle_hunts report = last_cycle_hunts totals /\
    avg_runs_per_cycle report = Py.truediv (total_runs totals) cycles /\
    avg_hunts_per_cycle report = Py.truediv (total_hunts totals) cycles.
Proof.
  intros Hchoices Hcycles Hrun hunts_per_run. unfold _simulate_cycles in Hrun.
  apply bind_Returns in Hrun as (totals & n1 & Hloop & Hret).
  rewrite bool_decide_eq_false_2 in Hret by lia.
  apply ret_Returns in Hret as [<- ->]. cbn [report_last_cycle_runs report_last_cycle_hunts
    avg_runs_per_cycle avg_hunts_per_cycle].
  exists totals. split; [done|].
  unfold cycles_loop in Hloop.
  apply (cycles_steps_count fuel choices cheese_mid cheese_high src Hchoices) in Hloop
    as (k & Hk & Hruns & Hlo & Hhi & Hn1 & _ & Hlast).
  fold hunts_per_run in Hlo, Hhi, Hn1.
  rewrite length_seq in Hk. cbn [total_runs total_hunts] in *.
  assert (seq 0 (Z.to_nat cycles) <> []) as Hne.
  { intros Hnil%(f_equal length). rewrite length_seq in Hnil. simpl in Hnil. lia. }
  specialize (Hlast Hne).
  replace (total_runs totals) with k by lia.
  repeat split; try done; lia.
Qed.

Lemma simulate_cycles_accounts_witness :
  exists report n',
    _simulate_cycles 1 cycling_choices 1 1.5 0 5 stepping_source 0%nat = Returns report n' /\
    let hunts_per_run := Z.of_nat (length (_build_mallet_cheese_sequence 0 5)) in
    exists totals,
      cycles_loop 1 cycling_choices 1 0 5 stepping_source 0%nat = Returns totals n' /\
      1 <= total_runs totals /\
      (60 + hunts_per_run) * total_runs totals <= total_hunts totals /\
      total_hunts totals <= (80 + hunts_per_run) * total_runs totals /\
      Z.of_nat n' = Z.of_nat 0 + total_runs totals * (7 + hunts_per_run) /\
      1 <= last_cycle_runs totals <= total_runs totals /\
      report_last_cycle_runs report = last_cycle_runs totals /\
      report_last_cycle_hunts report = last_cycle_hunts totals /\
      avg_runs_per_cycle report = Py.truediv (total_runs totals) 1 /\
      avg_hunts_per_cycle report = Py.truediv (total_hunts totals) 1.
Proof.
  destruct (_simulate_cycles 1 cycling_choices 1 1.5 0 5 stepping_source 0%nat)
    as [report n'| |] eqn:Hrun; [|by vm_compute in Hrun..].
  exists report, n'. split; [reflexivity|].
  apply (simulate_cycles_accounts 1 cycling_choices 1 1.5 0 5 stepping_source 0%nat report n').
  - apply cycling_choices_well_formed.
  - lia.
  - exact Hrun.
Defined.

(** X28. The mallet farm needs cheese: [_run_mallet_simulation] returns at
    once, without a draw, when both cheese entries are zero or negative; and
    [_simulate_cycles] called without cheese never returns, whatever the
    fuel, since no run can raise a notoriety value. *)
Theorem mallet_farm_needs_cheese (fuel : nat) (choices : ChoiceSource) (vars : MalletVars)
    (cycles : Z) (mallets_per_run : float) src n :
  choices_well_formed choices ->
  cheese_mid_var vars <= 0 ->
  cheese_high_var vars <= 0 ->
  1 <= cycles ->
  _run_mallet_simulation fuel choices vars src n = Returns None n /\
  _simulate_cycles fuel choices cycles mallets_per_run
    (Z.max 0 (cheese_mid_var vars)) (Z.max 0 (cheese_high_var vars)) src n = OutOfFuel.
Proof.
  intros Hchoices Hmid Hhigh Hcycles. split.
  - unfold _run_mallet_simulation. by rewrite bool_decide_eq_true_2 by lia.
  - unfold _simulate_cycles, cycles_loop.
    destruct (Z.to_nat cycles) as [|steps] eqn:Hsteps; [lia|].
    cbn [seq for_each]. unfold mbind, M_bind, bind.
    rewrite (cycle_without_cheese choices _ _ src Hchoices); try done.
    + unfold _build_mallet_cheese_sequence.
      by replace (Z.max 0 (cheese_mid_var vars)) with 0 by lia;
         replace (Z.max 0 (cheese_high_var vars)) with 0 by lia.
    + unfold in_range, NOTORIETY_CAP. simpl. repeat (constructor; [lia|]). constructor.
Qed.

Lemma mallet_farm_needs_cheese_witness :
  let vars := {| mallet_iterations_var := 3; mallets_per_run_var := 1.5;
                 cheese_mid_var := 0; cheese_high_var := -1 |} in
  _run_mallet_simulation 10 first_choices vars (constant_source 0.3) 0%nat = Returns None 0%nat /\
  _simulate_cycles 10 first_choices 3 1.5
    (Z.max 0 (cheese_mid_var vars)) (Z.max 0 (cheese_high_var vars)) (constant_source 0.3) 0%nat
    = OutOfFuel.
Proof.
  apply (mallet_farm_needs_cheese 10 first_choices
           {| mallet_iterations_var := 3; mallets_per_run_var := 1.5;
              cheese_mid_var := 0; cheese_high_var := -1 |} 3 1.5 (constant_source 0.3) 0%nat).
  - apply first_choices_well_formed.
  - simpl. lia.
  - simpl. lia.
  - lia.
Defined.

End MalletFarm.
